(** * RA-NEM: peak-block calendar, time-zone re-basing, shapers, splitters and
      cash price-volatility multipliers.

    A shallow embedding of [util.py], [shapers.py], [splitters.py] and [pvm.py].

    Conventions of the embedding
    - a [pd.Timestamp] at midnight is the number of days since 1970-01-01 (a [Z]);
      a timestamp with an hour is the number of hours since 1970-01-01 00:00;
    - a Python exception is a value of [exn]; a function that can raise returns
      a [result];
    - a [while] loop is run with fuel and raises [FuelExhausted] when it runs out;
      the loops of [util.py] are shown never to do so;
    - a float is an exact rational ([Q]); a pandas cell that can be missing is an
      [option Q], where [None] stands for NaN.  The embedding has no infinities:
      where numpy gives one ([x / 0] with [x] not 0, [np.log(0)]) the
      embedding gives [None], and, unlike an infinity, [None] is skipped by
      [mean], [std] and [quantile].  The statements on the value of a cell are
      therefore for inputs on which no infinity arises (positive prices, a
      divisor that is not 0);
    - functions of numpy, scipy and of the time-zone database are parameters. *)

From Stdlib Require Import ZArith List Ascii String Bool Lia QArith Qround Qfield Lqa Sorted.
Import ListNotations.

Open Scope string_scope.
Open Scope Z_scope.

(** ** Exceptions and results *)

Inductive exn : Type :=
| AssertionError
| IsoNotRecognized (iso : string)
| PeakBlockNotRecognized (peak_block : string)
| KeyError (key : string)
| TypeError (msg : string)
| UnknownTimeZoneError (tz : string)
| NonExistentTimeError (naive : Z)
| AmbiguousTimeError (naive : Z)
| IndexError
| UnboundLocalError (name : string)
| ValueError (msg : string)
| FuelExhausted.

Inductive result (A : Type) : Type :=
| Ok (a : A)
| Raise (e : exn).

Arguments Ok {A} a.
Arguments Raise {A} e.

Definition bind {A B : Type} (r : result A) (k : A -> result B) : result B :=
  match r with
  | Ok a => k a
  | Raise e => Raise e
  end.

Notation "x <- r ;; k" := (bind r (fun x => k))
  (at level 61, r at next level, right associativity).

Fixpoint mapM {A B : Type} (f : A -> result B) (l : list A) : result (list B) :=
  match l with
  | [] => Ok []
  | a :: l' => b <- f a ;; bs <- mapM f l' ;; Ok (b :: bs)
  end.

Definition of_option {A : Type} (o : option A) (e : exn) : result A :=
  match o with
  | Some a => Ok a
  | None => Raise e
  end.

(** [x in (s1, s2, ...)] on strings. *)
Definition str_in (s : string) (l : list string) : bool :=
  existsb (String.eqb s) l.

(** ** Calendar dates *)

Module Timestamp.

(** Days since 1970-01-01 of the proleptic Gregorian date [y]-[m]-[d]:
    [pd.Timestamp(year=y, month=m, day=d)].  pandas holds the instants from
    1677-09-21 to 2262-04-11 and raises [OutOfBoundsDatetime] (or [ValueError]
    for a year outside 1..9999) beyond them; this is the calendar arithmetic
    between those bounds.  Every date of a price table is within them, and
    what is stated of a function that takes a year is stated for the years 1678
    to 2261, all of whose days pandas holds. *)
Definition make (y m d : Z) : Z :=
  let y' := if m <=? 2 then y - 1 else y in
  let era := y' / 400 in
  let yoe := y' - era * 400 in
  let mp := if m >? 2 then m - 3 else m + 9 in
  let doy := (153 * mp + 2) / 5 + d - 1 in
  let doe := yoe * 365 + yoe / 4 - yoe / 100 + doy in
  era * 146097 + doe - 719468.

(** The civil date (year, month, day) of a day number. *)
Definition civil (z : Z) : Z * Z * Z :=
  let z' := z + 719468 in
  let era := z' / 146097 in
  let doe := z' - era * 146097 in
  let yoe := (doe - doe / 1460 + doe / 36524 - doe / 146096) / 365 in
  let y := yoe + era * 400 in
  let doy := doe - (365 * yoe + yoe / 4 - yoe / 100) in
  let mp := (5 * doy + 2) / 153 in
  let d := doy - (153 * mp + 2) / 5 + 1 in
  let m := if mp <? 10 then mp + 3 else mp - 9 in
  (if m <=? 2 then y + 1 else y, m, d).

Definition year (z : Z) : Z := fst (fst (civil z)).
Definition month (z : Z) : Z := snd (fst (civil z)).
Definition day (z : Z) : Z := snd (civil z).

(** [dt.weekday()] and [dt.dayofweek]: Monday is 0, Sunday is 6.
    1970-01-01 was a Thursday. *)
Definition weekday (z : Z) : Z := (z + 3) mod 7.

(** The last day of the month of [z] (the label of a [freq='ME'] bin). *)
Definition month_end (z : Z) : Z :=
  let y := year z in
  let m := month z in
  (if m =? 12 then make (y + 1) 1 1 else make y (m + 1) 1) - 1.

End Timestamp.

(** ** Hourly price tables

    The table returned by [pull_lmp_data(...).reset_index()]: columns [Date],
    [Hour] (1..24) and [Price]. *)

Record lmp_row : Type := {
  Date : Z;
  Hour : Z;
  Price : Q
}.

Definition lmp_table : Type := list lmp_row.

(** ** Time zones

    A zone of the time-zone database gives the UTC offset (in hours) in force
    at each instant (in hours since 1970-01-01 00:00 UTC), and lists the offsets
    it ever uses, each once. *)

Record tzinfo : Type := {
  utcoffset : Z -> Z;
  tz_offsets : list Z
}.

Definition tz_database : Type := string -> option tzinfo.

(** [index.tz_localize(tz)] on one naive timestamp: the instant whose wall
    clock in [tz] reads [naive]; it raises when there is none (spring forward)
    or more than one (fall back). *)
Definition tz_localize (tz : tzinfo) (naive : Z) : result Z :=
  match filter (fun o => utcoffset tz (naive - o) =? o) (tz_offsets tz) with
  | [] => Raise (NonExistentTimeError naive)
  | [o] => Ok (naive - o)
  | _ :: _ :: _ => Raise (AmbiguousTimeError naive)
  end.

(** The wall clock of instant [u] in [tz] (what [.dt.date] and [.dt.hour] read
    on a tz-aware index). *)
Definition wall_clock (tz : tzinfo) (u : Z) : Z := u + utcoffset tz u.

(** ** util.py *)

Module util.

Import Timestamp.

(** Fuel given to every [while] loop of the holiday functions. *)
Definition loop_fuel : nat := 64.

(** [while dt.weekday() != target: dt += step] *)
Fixpoint while_weekday_ne (fuel : nat) (target step dt : Z) : result Z :=
  if weekday dt =? target then Ok dt
  else match fuel with
       | O => Raise FuelExhausted
       | S fuel' => while_weekday_ne fuel' target step (dt + step)
       end.

Definition list_peak_blocks (iso : string) : result (list string) :=
  if String.eqb iso "CAISO" then Ok ["6x16-Weekday"; "6x16-Saturday"; "Off-Sunday"; "Off-Night"]
  else if str_in iso ["PJM"; "ISONE"; "MISO"; "ERCOT"; "SPP"] then Ok ["5x16"; "2x16"; "7x8"]
  else Raise (IsoNotRecognized iso).

(** Spring DST = 2nd Sun of Mar *)
Definition spring_dst (year : Z) : result Z :=
  dt <- while_weekday_ne loop_fuel 6 1 (make year 3 1) ;;
  Ok (dt + 7).

(** Fall DST = 1st Sun of Nov *)
Definition fall_dst (year : Z) : result Z :=
  while_weekday_ne loop_fuel 6 1 (make year 11 1).

(** Last Mon of May *)
Definition _memorial_day (year : Z) : result Z :=
  while_weekday_ne loop_fuel 0 (-1) (make year 5 31).

(** 1st Mon of Sept *)
Definition _labor_day (year : Z) : result Z :=
  while_weekday_ne loop_fuel 0 1 (make year 9 1).

(** [while count < 4: if dt.weekday() == 3: count += 1; dt += 1 day] *)
Fixpoint thanksgiving_loop (fuel : nat) (count dt : Z) : result Z :=
  if count <? 4 then
    match fuel with
    | O => Raise FuelExhausted
    | S fuel' =>
        thanksgiving_loop fuel' (if weekday dt =? 3 then count + 1 else count) (dt + 1)
    end
  else Ok dt.

(** 4th Thur of Nov *)
Definition _thanksgiving_day (year : Z) : result Z :=
  dt <- thanksgiving_loop loop_fuel 0 (make year 11 1) ;;
  Ok (dt - 1).

(** if sunday, observe following day *)
Definition observed (dt : Z) : Z :=
  if weekday dt =? 6 then dt + 1 else dt.

Definition _new_years_day (year : Z) : result Z := Ok (observed (make year 1 1)).
Definition _independence_day (year : Z) : result Z := Ok (observed (make year 7 4)).
Definition _christmas_day (year : Z) : result Z := Ok (observed (make year 12 25)).

Definition get_holidays (year : Z) : result (list Z) :=
  d1 <- _labor_day year ;;
  d2 <- _memorial_day year ;;
  d3 <- _independence_day year ;;
  d4 <- _new_years_day year ;;
  d5 <- _thanksgiving_day year ;;
  d6 <- _christmas_day year ;;
  Ok [d1; d2; d3; d4; d5; d6].

(** [date in l] on timestamps. *)
Definition date_in (date : Z) (l : list Z) : bool := existsb (Z.eqb date) l.

(** The [if]/[elif] chain of [date_hour_to_peak_block], after [is_holiday],
    [is_saturday] and [is_sunday] have been computed. *)
Definition peak_block_rule (is_holiday is_saturday is_sunday : bool) (hour : Z)
    (iso : string) : result string :=
  if str_in iso ["PJM"; "ISONE"; "NYISO"; "MISO"] then
    let is_night := negb ((8 <=? hour) && (hour <=? 23)) in
    let is_off_peak := is_holiday || is_saturday || is_sunday || is_night in
    Ok (if negb is_off_peak then "5x16" else if is_night then "7x8" else "2x16")
  else if str_in iso ["ERCOT"; "SPP"] then
    let is_night := negb ((7 <=? hour) && (hour <=? 22)) in
    let is_off_peak := is_holiday || is_saturday || is_sunday || is_night in
    Ok (if negb is_off_peak then "5x16" else if is_night then "7x8" else "2x16")
  else if String.eqb iso "CAISO" then
    let is_night := negb ((7 <=? hour) && (hour <=? 22)) in
    let is_off_peak := is_holiday || is_sunday || is_night in
    if is_off_peak then
      if is_night then Ok "Off-Night" else Ok "Off-Sunday"
    else
      if is_saturday then Ok "6x16-Saturday" else Ok "6x16-Weekday"
  else Raise (IsoNotRecognized iso).

Definition asserted_isos : list string :=
  ["PJM"; "ISONE"; "NYISO"; "MISO"; "ERCOT"; "SPP"; "CAISO"].

Definition date_hour_to_peak_block (date hour : Z) (iso : string) : result string :=
  if negb (str_in iso asserted_isos) then Raise AssertionError
  else
    holidays <- get_holidays (year date) ;;
    peak_block_rule (date_in date holidays) (weekday date =? 5) (weekday date =? 6)
      hour iso.

(** [lookup[peak_block]] on the dict [{'5x16': '5x16', '2x16': 'Off', '7x8': 'Off'}]. *)
Definition traded_lookup (peak_block : string) : result string :=
  if String.eqb peak_block "5x16" then Ok "5x16"
  else if String.eqb peak_block "2x16" then Ok "Off"
  else if String.eqb peak_block "7x8" then Ok "Off"
  else Raise (KeyError peak_block).

(** [s.split('-')[0]]: the part of [s] before the first ['-']. *)
Fixpoint split_dash_head (s : string) : string :=
  match s with
  | EmptyString => EmptyString
  | String c s' => if Ascii.eqb c "-"%char then EmptyString else String c (split_dash_head s')
  end.

Definition peak_block_to_traded_peak (peak_block iso : string) : result string :=
  if str_in iso ["PJM"; "ISONE"; "MISO"; "ERCOT"; "SPP"] then traded_lookup peak_block
  else if String.eqb iso "CAISO" then Ok (split_dash_head peak_block)
  else Raise (IsoNotRecognized iso).

Definition peak_block_to_complement (peak_block : string) : result (option string) :=
  if String.eqb peak_block "5x16" then Ok None
  else if String.eqb peak_block "7x8" then Ok (Some "2x16")
  else if String.eqb peak_block "2x16" then Ok (Some "7x8")
  else if String.eqb peak_block "Off-Night" then Ok (Some "Off-Sunday")
  else if String.eqb peak_block "Off-Sunday" then Ok (Some "Off-Night")
  else if String.eqb peak_block "6x16-Saturday" then Ok (Some "6x16-Weekday")
  else if String.eqb peak_block "6x16-Weekday" then Ok (Some "6x16-Saturday")
  else Raise (PeakBlockNotRecognized peak_block).


(** *** Time-zone re-basing *)

Section TimeZones.

Variable tzdb : tz_database.

Definition timezone (name : string) : result tzinfo :=
  of_option (tzdb name) (UnknownTimeZoneError name).

(** [df_lmp['Date'] + pd.to_timedelta(df_lmp['Hour'], unit='h')], after
    [Hour -= 1]. *)
Definition naive_datetime (r : lmp_row) : Z := Date r * 24 + (Hour r - 1).

(** The [Date] and [Hour] columns read back from a wall clock, after
    [Hour += 1]. *)
Definition row_of_wall_clock (wall : Z) (price : Q) : lmp_row :=
  {| Date := wall / 24; Hour := wall mod 24 + 1; Price := price |}.

Definition convert_lmps_tz (df_lmp : lmp_table) (convert_from convert_to : string)
  : result lmp_table :=
  let naive := map (fun r => (naive_datetime r, Price r)) df_lmp in
  tz_from <- timezone convert_from ;;
  localized <- mapM (fun tp => u <- tz_localize tz_from (fst tp) ;; Ok (u, snd tp)) naive ;;
  tz <- (if String.eqb convert_to "CPT" then timezone "US/Central"
         else if String.eqb convert_to "EPT" then timezone "US/Eastern"
         else Ok tz_from) ;;
  Ok (map (fun up => row_of_wall_clock (wall_clock tz (fst up)) (snd up)) localized).

(** The caller's frame after the call: [df_lmp.loc[:, 'Hour'] -= 1] and
    [df_lmp['DateTime'] = ...] update it in place, before the function rebinds
    [df_lmp] to a copy.  Every caller passes a fresh
    [pull_lmp_data(...).reset_index()]. *)
Record lmp_row_after : Type := {
  after_row : lmp_row;
  DateTime : Z
}.

Definition convert_lmps_tz_in_place (df_lmp : lmp_table) : list lmp_row_after :=
  map (fun r => {| after_row := {| Date := Date r; Hour := Hour r - 1; Price := Price r |};
                   DateTime := naive_datetime r |})
      df_lmp.

End TimeZones.

(** *** [@lru_cache()] on the holiday functions

    [functools.lru_cache()] keeps the 128 most recently used results, keyed by
    the year.  A cache is the list of its entries, most recently used first;
    an exception is not cached. *)

Definition lru_maxsize : nat := 128.

Definition cache : Type := list (Z * Z).

Fixpoint cache_lookup (key : Z) (c : cache) : option Z :=
  match c with
  | [] => None
  | (k, v) :: c' => if k =? key then Some v else cache_lookup key c'
  end.

Definition cache_remove (key : Z) (c : cache) : cache :=
  filter (fun e => negb (fst e =? key)) c.

Definition lru_cache (f : Z -> result Z) (key : Z) (c : cache) : result Z * cache :=
  match cache_lookup key c with
  | Some v => (Ok v, (key, v) :: cache_remove key c)
  | None =>
      match f key with
      | Ok v => (Ok v, firstn lru_maxsize ((key, v) :: c))
      | Raise e => (Raise e, c)
      end
  end.

(** The caches of the six holiday functions. *)
Record caches : Type := {
  labor_cache : cache;
  memorial_cache : cache;
  independence_cache : cache;
  new_years_cache : cache;
  thanksgiving_cache : cache;
  christmas_cache : cache
}.

Definition empty_caches : caches :=
  {| labor_cache := []; memorial_cache := []; independence_cache := [];
     new_years_cache := []; thanksgiving_cache := []; christmas_cache := [] |}.

(** State-and-exception monad of the cached functions. *)
Definition cached (A : Type) : Type := caches -> result A * caches.

Definition cbind {A B : Type} (m : cached A) (k : A -> cached B) : cached B :=
  fun st =>
    match m st with
    | (Ok a, st') => k a st'
    | (Raise e, st') => (Raise e, st')
    end.

Definition cret {A : Type} (a : A) : cached A := fun st => (Ok a, st).

Definition _labor_day_cached (year : Z) : cached Z :=
  fun st =>
    let (r, c) := lru_cache _labor_day year (labor_cache st) in
    (r, {| labor_cache := c; memorial_cache := memorial_cache st;
           independence_cache := independence_cache st;
           new_years_cache := new_years_cache st;
           thanksgiving_cache := thanksgiving_cache st;
           christmas_cache := christmas_cache st |}).

Definition _memorial_day_cached (year : Z) : cached Z :=
  fun st =>
    let (r, c) := lru_cache _memorial_day year (memorial_cache st) in
    (r, {| labor_cache := labor_cache st; memorial_cache := c;
           independence_cache := independence_cache st;
           new_years_cache := new_years_cache st;
           thanksgiving_cache := thanksgiving_cache st;
           christmas_cache := christmas_cache st |}).

Definition _independence_day_cached (year : Z) : cached Z :=
  fun st =>
    let (r, c) := lru_cache _independence_day year (independence_cache st) in
    (r, {| labor_cache := labor_cache st; memorial_cache := memorial_cache st;
           independence_cache := c;
           new_years_cache := new_years_cache st;
           thanksgiving_cache := thanksgiving_cache st;
           christmas_cache := christmas_cache st |}).

Definition _new_years_day_cached (year : Z) : cached Z :=
  fun st =>
    let (r, c) := lru_cache _new_years_day year (new_years_cache st) in
    (r, {| labor_cache := labor_cache st; memorial_cache := memorial_cache st;
           independence_cache := independence_cache st;
           new_years_cache := c;
           thanksgiving_cache := thanksgiving_cache st;
           christmas_cache := christmas_cache st |}).

Definition _thanksgiving_day_cached (year : Z) : cached Z :=
  fun st =>
    let (r, c) := lru_cache _thanksgiving_day year (thanksgiving_cache st) in
    (r, {| labor_cache := labor_cache st; memorial_cache := memorial_cache st;
           independence_cache := independence_cache st;
           new_years_cache := new_years_cache st;
           thanksgiving_cache := c;
           christmas_cache := christmas_cache st |}).

Definition _christmas_day_cached (year : Z) : cached Z :=
  fun st =>
    let (r, c) := lru_cache _christmas_day year (christmas_cache st) in
    (r, {| labor_cache := labor_cache st; memorial_cache := memorial_cache st;
           independence_cache := independence_cache st;
           new_years_cache := new_years_cache st;
           thanksgiving_cache := thanksgiving_cache st;
           christmas_cache := c |}).

(** [get_holidays] as it runs, through the caches. *)
Definition get_holidays_cached (year : Z) : cached (list Z) :=
  cbind (_labor_day_cached year) (fun d1 =>
  cbind (_memorial_day_cached year) (fun d2 =>
  cbind (_independence_day_cached year) (fun d3 =>
  cbind (_new_years_day_cached year) (fun d4 =>
  cbind (_thanksgiving_day_cached year) (fun d5 =>
  cbind (_christmas_day_cached year) (fun d6 =>
  cret [d1; d2; d3; d4; d5; d6])))))).

(** [date_hour_to_peak_block] as it runs, through the caches. *)
Definition date_hour_to_peak_block_cached (date hour : Z) (iso : string) : cached string :=
  fun st =>
    if negb (str_in iso asserted_isos) then (Raise AssertionError, st)
    else
      cbind (get_holidays_cached (year date)) (fun holidays st' =>
        (peak_block_rule (date_in date holidays) (weekday date =? 5) (weekday date =? 6)
           hour iso, st')) st.

(** Every entry of a cache is a result of the function it memoizes. *)
Definition cache_of (f : Z -> result Z) (c : cache) : Prop :=
  Forall (fun e => f (fst e) = Ok (snd e)) c.

Definition caches_ok (st : caches) : Prop :=
  cache_of _labor_day (labor_cache st) /\
  cache_of _memorial_day (memorial_cache st) /\
  cache_of _independence_day (independence_cache st) /\
  cache_of _new_years_day (new_years_cache st) /\
  cache_of _thanksgiving_day (thanksgiving_cache st) /\
  cache_of _christmas_day (christmas_cache st).

(** *** [hourly_index] and [chunker] *)

(** [pd.date_range(start_dt, end_dt, freq="D")]: every day from [start_dt] to
    [end_dt]; empty when [end_dt] is before [start_dt]. *)
Fixpoint days_from (n : nat) (d : Z) : list Z :=
  match n with
  | O => []
  | S n' => d :: days_from n' (d + 1)
  end.

Definition date_range_D (start_dt end_dt : Z) : list Z :=
  days_from (Z.to_nat (end_dt - start_dt + 1)) start_dt.

(** [range(1, 25)] *)
Definition range_1_25 : list Z := map Z.of_nat (List.seq 1 24).

(** [pd.MultiIndex.from_product([dates, hours])] *)
Definition hourly_index (start_dt end_dt : Z) : list (Z * Z) :=
  list_prod (date_range_D start_dt end_dt) range_1_25.

(** The exception of [range] on a zero step. *)
Inductive range_error : Type :=
| ValueError (msg : string).

(** [range(0, stop, step)]: 0, step, 2*step, ... below [stop]; nothing when the
    step is negative; an error when it is zero. *)
Definition range_from_0 (stop : nat) (step : Z) : range_error + list nat :=
  if step =? 0 then inl (ValueError "range() arg 3 must not be zero")
  else if step <? 0 then inr []
  else
    let s := Z.to_nat step in
    inr (map (fun i => (i * s)%nat) (List.seq 0 ((stop + s - 1) / s))).

(** chunks a list "seq" into smaller lists of length at most "size" *)
Definition chunker {A : Type} (seq : list A) (size : Z) : range_error + list (list A) :=
  match range_from_0 (List.length seq) size with
  | inl e => inl e
  | inr positions =>
      inr (map (fun pos => firstn (Z.to_nat size) (skipn pos seq)) positions)
  end.

(** *** [date_hour_to_time_block] *)

(** [hour in list(range(lo, hi))] *)
Definition in_range (hour lo hi : Z) : bool := (lo <=? hour) && (hour <? hi).

(** [x in ('ERCOT')]: the parentheses make no tuple, so this is the substring
    test on the string 'ERCOT'. *)
Definition in_str (x s : string) : bool :=
  match String.index 0 x s with
  | Some _ => true
  | None => false
  end.

Definition date_hour_to_time_block (date hour : Z) (iso : string) : result string :=
  if negb (str_in iso asserted_isos) then Raise AssertionError
  else
    holidays <- get_holidays (year date) ;;
    let is_holiday := date_in date holidays in
    let is_saturday := weekday date =? 5 in
    let is_sunday := weekday date =? 6 in
    if str_in iso ["PJM"; "ISONE"; "NYISO"; "MISO"] then
      if is_holiday || is_saturday || is_sunday then
        if in_range hour 8 12 then Ok "WE_1"
        else if in_range hour 12 16 then Ok "WE_2"
        else if in_range hour 16 20 then Ok "WE_3"
        else if in_range hour 20 24 then Ok "WE_4"
        else Ok "WE_N"
      else
        if in_range hour 8 12 then Ok "WD_1"
        else if in_range hour 12 16 then Ok "WD_2"
        else if in_range hour 16 20 then Ok "WD_3"
        else if in_range hour 20 24 then Ok "WD_4"
        else Ok "WD_N"
    else if in_str iso "ERCOT" then
      if is_holiday || is_saturday || is_sunday then
        if in_range hour 7 11 then Ok "WE_1"
        else if in_range hour 11 15 then Ok "WE_2"
        else if in_range hour 15 19 then Ok "WE_3"
        else if in_range hour 19 23 then Ok "WE_4"
        else Ok "WE_N"
      else
        if in_range hour 7 11 then Ok "WD_1"
        else if in_range hour 11 15 then Ok "WD_2"
        else if in_range hour 15 19 then Ok "WD_3"
        else if in_range hour 19 23 then Ok "WD_4"
        else Ok "WD_N"
    else Raise (IsoNotRecognized iso).

End util.

(** ** A time-zone database for the examples

    The zones named by the callers, under the United States rule in force since
    2007: daylight time runs from 02:00 standard time on the second Sunday of
    March ([spring_dst]) to 02:00 daylight time on the first Sunday of November
    ([fall_dst]).  "EST" is the fixed offset UTC-5. *)

Definition us_utcoffset (std : Z) (u : Z) : Z :=
  let y := Timestamp.year ((u + std) / 24) in
  match util.spring_dst y, util.fall_dst y with
  | Ok s, Ok f =>
      if (s * 24 + 2 - std <=? u) && (u <? f * 24 + 2 - (std + 1)) then std + 1 else std
  | _, _ => std
  end.

Definition us_tzdb : tz_database :=
  fun name =>
    if String.eqb name "EST" then
      Some {| utcoffset := fun _ => -5; tz_offsets := [-5] |}
    else if String.eqb name "US/Eastern" then
      Some {| utcoffset := us_utcoffset (-5); tz_offsets := [-5; -4] |}
    else if String.eqb name "US/Central" then
      Some {| utcoffset := us_utcoffset (-6); tz_offsets := [-6; -5] |}
    else None.

(** ** pandas and numpy on exact numbers *)

Module pd.

Local Open Scope Q_scope.

Definition Qsum (l : list Q) : Q := fold_right Qplus 0 l.

Definition Qlen {A : Type} (l : list A) : Q := inject_Z (Z.of_nat (List.length l)).

(** [Series.mean()]: NaN on an empty series. *)
Definition mean (l : list Q) : option Q :=
  match l with
  | [] => None
  | _ :: _ => Some (Qsum l / Qlen l)
  end.

(** The values of a column that are not NaN ([skipna]). *)
Definition dropna (l : list (option Q)) : list Q :=
  flat_map (fun c => match c with Some x => [x] | None => [] end) l.

(** Float division.  With a divisor 0 the float is NaN ([0 / 0]) or an infinity;
    both are [None] here, so that a later [mean] skips what is an infinity in
    pandas: the embedding agrees with the code where the divisor is not 0. *)
Definition fdiv (a b : option Q) : option Q :=
  match a, b with
  | Some x, Some y => if Qeq_bool y 0 then None else Some (x / y)
  | _, _ => None
  end.

Definition fmul (a b : option Q) : option Q :=
  match a, b with
  | Some x, Some y => Some (x * y)
  | _, _ => None
  end.

Definition fsub (a b : option Q) : option Q :=
  match a, b with
  | Some x, Some y => Some (x - y)
  | _, _ => None
  end.

Fixpoint Qinsert (x : Q) (l : list Q) : list Q :=
  match l with
  | [] => [x]
  | y :: l' => if Qle_bool x y then x :: l else y :: Qinsert x l'
  end.

Definition Qsort (l : list Q) : list Q := fold_right Qinsert [] l.

(** [Series.quantile(q, interpolation='higher')]: the sorted value at position
    [ceil (q * (n - 1))]; NaN on an empty series. *)
Definition quantile_higher (q : Q) (l : list Q) : option Q :=
  match l with
  | [] => None
  | _ :: _ => nth_error (Qsort l) (Z.to_nat (Qceiling (q * (Qlen l - 1))))
  end.

(** [DataFrame.quantile(q)] on one column (linear interpolation, NaN skipped):
    with [pos = q * (n - 1)], [lo = floor pos], the value
    [a[lo] + (a[lo + 1] - a[lo]) * (pos - lo)]; NaN on an empty column. *)
Definition quantile_linear (q : Q) (l : list Q) : option Q :=
  match l with
  | [] => None
  | _ :: _ =>
      let a := Qsort l in
      let pos := q * (Qlen l - 1) in
      let lo := Qfloor pos in
      match nth_error a (Z.to_nat lo), nth_error a (Z.to_nat (lo + 1)) with
      | Some x, Some y => Some (x + (y - x) * (pos - inject_Z lo))
      | Some x, None => Some x
      | None, _ => None
      end
  end.

(** [x.clip(upper=u)]; a NaN threshold clips nothing. *)
Definition clip_upper (upper : option Q) (x : Q) : Q :=
  match upper with
  | Some u => if Qle_bool x u then x else u
  | None => x
  end.

(** Sorted list of the distinct values of a list of keys. *)
Fixpoint insert_uniq {A : Type} (cmp : A -> A -> comparison) (x : A) (l : list A)
  : list A :=
  match l with
  | [] => [x]
  | y :: l' =>
      match cmp x y with
      | Lt => x :: l
      | Eq => l
      | Gt => y :: insert_uniq cmp x l'
      end
  end.

Definition sort_uniq {A : Type} (cmp : A -> A -> comparison) (l : list A) : list A :=
  fold_right (insert_uniq cmp) [] l.

(** A DataFrame of floats: row labels, column labels and cells; a cell that is
    absent or NaN reads [None]. *)
Record frame (R C : Type) : Type := {
  index : list R;
  columns : list C;
  cell : R -> C -> option Q
}.

Arguments index {R C} f.
Arguments columns {R C} f.
Arguments cell {R C} f r c.

End pd.

(** A row of the price table once [Month] and ['Peak Block'] are added. *)
Record block_row : Type := {
  obs : lmp_row;
  Month : Z;
  Peak_Block : string
}.

(** ** shapers.py *)

Module shapers.

Import Timestamp pd.

Definition SUPPORTED_ISOS : list string := ["SPP"; "CAISO"; "MISO"; "ISONE"; "PJM"].

(** A column of the shaper: (Peak Block, Hour) in hourly mode, (Peak Block,
    time block) in block mode. *)
Inductive shaper_column : Type :=
| HourCol (peak_block : string) (hour : Z)
| BlockCol (peak_block : string) (time_block : string).

Definition in_block (m : Z) (b : string) (r : block_row) : bool :=
  (Month r =? m) && String.eqb (Peak_Block r) b.

Definition in_hour (m : Z) (b : string) (h : Z) (r : block_row) : bool :=
  in_block m b r && (Hour (obs r) =? h).

(** [df_lmp.groupby(['Month', 'Peak Block', 'Hour'])['Price'].mean()] *)
Definition avg_hourly (df : list block_row) (m : Z) (b : string) (h : Z) : option Q :=
  mean (map (fun r => Price (obs r)) (filter (in_hour m b h) df)).

(** [df_lmp.groupby(['Month', 'Peak Block'])['Price'].mean()] *)
Definition avg_peak_block (df : list block_row) (m : Z) (b : string) : option Q :=
  mean (map (fun r => Price (obs r)) (filter (in_block m b) df)).

(** [shaper = avg_hourly / avg_peak_block] *)
Definition hourly_ratio (df : list block_row) (m : Z) (b : string) (h : Z) : option Q :=
  fdiv (avg_hourly df m b h) (avg_peak_block df m b).

Definition compare_block_hour (x y : string * Z) : comparison :=
  match String.compare (fst x) (fst y) with
  | Eq => Z.compare (snd x) (snd y)
  | c => c
  end.

(** The sorted hour columns of [shaper[b]]. *)
Definition hours_of (df : list block_row) (b : string) : list Z :=
  sort_uniq Z.compare
    (map (fun r => Hour (obs r)) (filter (fun r => String.eqb (Peak_Block r) b) df)).

(** [shaper[b].iloc[:, lo:hi].mean(axis=1)] at month [m]. *)
Definition time_block_mean (df : list block_row) (m : Z) (b : string) (lo hi : nat)
  : option Q :=
  mean (dropna (map (hourly_ratio df m b) (firstn (hi - lo) (skipn lo (hours_of df b))))).

Section Estimator.

Variable tzdb : tz_database.

(** The post-processing of the price table: clipping, [Month], ['Peak Block'].
    On a table without rows [df_lmp.apply(..., axis=1)] returns a frame, not a
    column, and the assignment to ['Peak Block'] raises [ValueError]. *)
Definition post_process (df_lmp : lmp_table) (iso : string) (clip_quantile : Q)
  : result (list block_row) :=
  match df_lmp with
  | [] =>
      Raise (ValueError
               "Cannot set a DataFrame with multiple columns to the single column Peak Block")
  | _ :: _ =>
      let upper := quantile_higher clip_quantile (map Price df_lmp) in
      mapM (fun r =>
              pb <- util.date_hour_to_peak_block (Date r) (Hour r) iso ;;
              Ok {| obs := {| Date := Date r; Hour := Hour r;
                              Price := clip_upper upper (Price r) |};
                    Month := month (Date r);
                    Peak_Block := pb |})
           df_lmp
  end.

(** The price table in the traded time zone: MISO prices come in EST and are
    converted to EPT. *)
Definition traded_tz_table (lmp : lmp_table) (iso : string) : result lmp_table :=
  if String.eqb iso "MISO" then util.convert_lmps_tz tzdb lmp "EST" "EPT"
  else Ok lmp.

(** The table of (Month, Peak Block, Hour, Price) observations the shaper is
    computed from. *)
Definition observations (lmp : lmp_table) (iso : string) (clip_quantile : Q)
  : result (list block_row) :=
  df_lmp <- traded_tz_table lmp iso ;;
  post_process df_lmp iso clip_quantile.

Definition block_present (df : list block_row) (b : string) : result unit :=
  if existsb (fun r => String.eqb (Peak_Block r) b) df then Ok tt
  else Raise (KeyError b).

(** [pull_lmp_and_calc_shaper]; [lmp] is the table [pull_lmp_data] returns for
    the look-back window ending at the month-end of [eval_dt]. *)
Definition pull_lmp_and_calc_shaper (lmp : lmp_table) (iso : string)
    (is_hourly : bool) (lookback_yrs : Z) (clip_quantile : Q)
  : result (frame Z shaper_column) :=
  if negb (str_in iso SUPPORTED_ISOS) then Raise AssertionError
  else if negb (negb (Qle_bool clip_quantile 0) && Qle_bool clip_quantile 1)
  then Raise AssertionError
  else if negb (1 <=? lookback_yrs)%Z then Raise AssertionError
  else if negb is_hourly && String.eqb iso "CAISO" then Raise AssertionError
  else
    df <- observations lmp iso clip_quantile ;;
    let months := sort_uniq Z.compare (map Month df) in
    if is_hourly then
      Ok {| index := months;
            columns :=
              map (fun bh => HourCol (fst bh) (snd bh))
                (sort_uniq compare_block_hour
                   (map (fun r => (Peak_Block r, Hour (obs r))) df));
            cell := fun m c =>
              match c with
              | HourCol b h => hourly_ratio df m b h
              | BlockCol _ _ => None
              end |}
    else
      _ <- block_present df "5x16" ;;
      _ <- block_present df "2x16" ;;
      _ <- block_present df "7x8" ;;
      Ok {| index := months;
            columns :=
              [BlockCol "2x16" "WE_1"; BlockCol "2x16" "WE_2"; BlockCol "2x16" "WE_3";
               BlockCol "2x16" "WE_4"; BlockCol "5x16" "WD_1"; BlockCol "5x16" "WD_2";
               BlockCol "5x16" "WD_3"; BlockCol "5x16" "WD_4"; BlockCol "7x8" "WN_1"];
            cell := fun m c =>
              match c with
              | HourCol _ _ => None
              | BlockCol b t =>
                  if String.eqb b "5x16" && String.eqb t "WD_1" then time_block_mean df m b 0 4
                  else if String.eqb b "5x16" && String.eqb t "WD_2" then time_block_mean df m b 4 8
                  else if String.eqb b "5x16" && String.eqb t "WD_3" then time_block_mean df m b 8 12
                  else if String.eqb b "5x16" && String.eqb t "WD_4" then time_block_mean df m b 12 16
                  else if String.eqb b "2x16" && String.eqb t "WE_1" then time_block_mean df m b 0 4
                  else if String.eqb b "2x16" && String.eqb t "WE_2" then time_block_mean df m b 4 8
                  else if String.eqb b "2x16" && String.eqb t "WE_3" then time_block_mean df m b 8 12
                  else if String.eqb b "2x16" && String.eqb t "WE_4" then time_block_mean df m b 12 16
                  else if String.eqb b "7x8" && String.eqb t "WN_1" then
                    mean (dropna (map (hourly_ratio df m b) (hours_of df b)))
                  else None
              end |}.

End Estimator.

End shapers.

(** ** splitters.py *)

Module splitters.

Import Timestamp pd.

Local Open Scope Q_scope.

Definition SUPPORTED_ISOS : list string := ["SPP"; "CAISO"; "MISO"; "ISONE"; "PJM"].

(** Number of months a given observation's month is from the month for which
    the splitter is to be calculated. *)
Definition months_away (kernel_months : list Z) (splitter_month : Z) : list Z :=
  map (fun km =>
         let months_away_abs := Z.abs (km - splitter_month) in
         if (months_away_abs <=? 6)%Z then months_away_abs
         else (12 - months_away_abs)%Z)
      kernel_months.

(** [np.arange(1, 13)] *)
Definition arange_1_13 : list Z := [1; 2; 3; 4; 5; 6; 7; 8; 9; 10; 11; 12]%Z.

(** A row of the price table with its ['5x16 / Off'] column. *)
Record traded_row : Type := {
  labelled : block_row;
  Traded : string
}.

(** A row of [df_daily]: the date, its month, the daily mean ['Off'] and
    ['2x16'] prices (NaN when the day has no such hour), ['Decay Factor'] and
    ['Off peak day weight']. *)
Record daily_row : Type := {
  day : Z;
  day_Month : Z;
  Off : option Q;
  col_2x16 : option Q;
  Decay_Factor : Q;
  Off_peak_day_weight : Q
}.

(** [df_daily] with the columns it has: ['Off'] and ['2x16'] exist only when
    some hour of the table carries the label. *)
Record daily_frame : Type := {
  days : list daily_row;
  has_Off : bool;
  has_2x16 : bool
}.

(** [drop_duplicates()]: the first occurrence of each value, in order. *)
Fixpoint drop_duplicates (seen l : list Z) : list Z :=
  match l with
  | [] => []
  | x :: l' =>
      if existsb (Z.eqb x) seen then drop_duplicates seen l'
      else x :: drop_duplicates (x :: seen) l'
  end.

(** A cell of [pivot_table(index='Date', columns=key, values='Price',
    aggfunc='mean')]. *)
Definition pivot_mean (rows : list traded_row) (key : traded_row -> string)
    (d : Z) (label : string) : option Q :=
  mean (map (fun r => Price (obs (labelled r)))
          (filter (fun r => (Date (obs (labelled r)) =? d)%Z && String.eqb (key r) label)
             rows)).

Definition pivot_has (rows : list traded_row) (key : traded_row -> string)
    (label : string) : bool :=
  existsb (fun r => String.eqb (key r) label) rows.

Definition notnull (c : option Q) : bool :=
  match c with Some _ => true | None => false end.

Section Estimator.

Variable tzdb : tz_database.

(** [scipy.stats.norm.pdf] *)
Variable norm_pdf : Q -> Q.

(** [base ** exponent] on floats *)
Variable float_pow : Q -> Q -> Q.

(** Defined in risk methodology paper *)
Definition bm : Q := 1 # 2.

Definition decay_factor (eval_dt date : Z) : Q :=
  float_pow (1 # 2) (inject_Z (Z.abs (eval_dt - date)) / 365 + 1).

(** Since off-peak days (weekends/holidays) have 24 off-peak hours while non-off
    peak days have only 8 off-peak hours, we weight them accordingly. *)
Definition off_peak_day_weight (date : Z) : result Q :=
  holidays <- util.get_holidays (year date) ;;
  Ok (if util.date_in date holidays
         || existsb (Z.eqb (weekday date)) [5; 6]%Z
      then 1 else 1 / 3).

(** The daily table of the splitter, up to the day weights. *)
Definition daily_table (lmp : lmp_table) (iso : string) (eval_dt : Z)
    (clip_quantile : Q) : result daily_frame :=
  df_lmp <- util.convert_lmps_tz tzdb lmp "EST" "EPT" ;;
  df <- shapers.post_process df_lmp iso clip_quantile ;;
  rows <- mapM (fun r =>
                  t <- util.peak_block_to_traded_peak (Peak_Block r) iso ;;
                  Ok {| labelled := r; Traded := t |}) df ;;
  let dates := drop_duplicates [] (map (fun r => Date (obs r)) df) in
  let peak := fun r => Peak_Block (labelled r) in
  if negb (pivot_has rows Traded "5x16") then Raise (KeyError "5x16")
  else if negb (pivot_has rows peak "5x16") then Raise (KeyError "5x16")
  else if negb (pivot_has rows peak "7x8") then Raise (KeyError "7x8")
  else
    ds <- mapM (fun d =>
                  w <- off_peak_day_weight d ;;
                  Ok {| day := d;
                        day_Month := month d;
                        Off := pivot_mean rows Traded d "Off";
                        col_2x16 := pivot_mean rows peak d "2x16";
                        Decay_Factor := decay_factor eval_dt d;
                        Off_peak_day_weight := w |}) dates ;;
    Ok {| days := ds;
          has_Off := pivot_has rows Traded "Off";
          has_2x16 := pivot_has rows peak "2x16" |}.

Definition kernel_weights (splitter_month : Z) : list Q :=
  map (fun d => norm_pdf (inject_Z d / bm)) (months_away arange_1_13 splitter_month).

(** [kernel_weights_df.iloc[row['Month'] - 1, 0]] *)
Definition kernel_weight (splitter_month : Z) (r : daily_row) : result Q :=
  of_option (nth_error (kernel_weights splitter_month) (Z.to_nat (day_Month r - 1)))
    IndexError.

(** A row of [df_daily] with the weights of one splitter month. *)
Record weighted_row : Type := {
  base : daily_row;
  Kernel_Weight : Q
}.

Definition weight_2x16 (r : weighted_row) : Q :=
  Kernel_Weight r * Decay_Factor (base r).

Definition Off_peak_weight (r : weighted_row) : Q :=
  Kernel_Weight r * Decay_Factor (base r) * Off_peak_day_weight (base r).

Definition weighted_price_2x16 (r : weighted_row) : option Q :=
  fmul (col_2x16 (base r)) (Some (weight_2x16 r)).

Definition Off_weighted_price (r : weighted_row) : option Q :=
  fmul (Off (base r)) (Some (Off_peak_weight r)).

(** Weighted-average 2x16 price *)
Definition avg_2x16 (rows : list weighted_row) : option Q :=
  fdiv (Some (Qsum (dropna (map weighted_price_2x16 rows))))
       (Some (Qsum (map weight_2x16
                      (filter (fun r => notnull (col_2x16 (base r))) rows)))).

(** Weighted-average off price *)
Definition avg_off (rows : list weighted_row) : option Q :=
  fdiv (Some (Qsum (dropna (map Off_weighted_price rows))))
       (Some (Qsum (map Off_peak_weight rows))).

Definition weighted_rows (df_daily : daily_frame) (splitter_month : Z)
  : result (list weighted_row) :=
  rows <- mapM (fun r =>
                  k <- kernel_weight splitter_month r ;;
                  Ok {| base := r; Kernel_Weight := k |}) (days df_daily) ;;
  if negb (has_2x16 df_daily) then Raise (KeyError "2x16")
  else if negb (has_Off df_daily) then Raise (KeyError "Off")
  else Ok rows.

(** The body of the loop over the splitter months. *)
Definition splitter_of_month (df_daily : daily_frame) (splitter_month : Z)
  : result (Z * option Q) :=
  rows <- weighted_rows df_daily splitter_month ;;
  Ok (splitter_month, fdiv (avg_2x16 rows) (avg_off rows)).

(** [pull_lmp_and_calc_splitter]; [lmp] is the table [pull_lmp_data] returns for
    the look-back window; the result lists the rows (Month, '2x16') of the
    returned frame.  Everything from the post-processing to the loop over the
    splitter months sits under [if iso == 'MISO':], also [splitter_dict = {}]:
    for any other market [pd.DataFrame.from_dict(splitter_dict, ...)] reads a
    local variable that was never bound. *)
Definition pull_lmp_and_calc_splitter (lmp : lmp_table) (iso : string) (eval_dt : Z)
    (lookback_yrs : Z) (clip_quantile : Q) : result (list (Z * option Q)) :=
  if negb (str_in iso SUPPORTED_ISOS) then Raise AssertionError
  else if negb (negb (Qle_bool clip_quantile 0) && Qle_bool clip_quantile 1)
  then Raise AssertionError
  else if negb (1 <=? lookback_yrs)%Z then Raise AssertionError
  else
    if String.eqb iso "MISO" then
      df_daily <- daily_table lmp iso eval_dt clip_quantile ;;
      mapM (splitter_of_month df_daily) arange_1_13
    else Raise (UnboundLocalError "splitter_dict").

End Estimator.

End splitters.

(** ** pvm.py *)

Module pvm.

Import Timestamp pd.

Local Open Scope Q_scope.

Definition SUPPORTED_ISO_PNODES : list (string * string) :=
  [("SPP", "SPPNORTH_HUB"); ("ERCOT", "HB_NORTH"); ("MISO", "INDIANA.HUB");
   ("ISONE", "4000"); ("PJM", "51288")].

(** [pd.date_range(start_dt, end_dt, freq='ME')]: the month-ends from [start_dt]
    to [end_dt]; [d] is a month-end and each step goes to the next one. *)
Fixpoint month_ends_from (n : nat) (d end_dt : Z) : list Z :=
  match n with
  | O => []
  | S n' =>
      if (d <=? end_dt)%Z then d :: month_ends_from n' (month_end (d + 1)) end_dt
      else []
  end.

Definition date_range_ME (start_dt end_dt : Z) : list Z :=
  month_ends_from (Z.to_nat (end_dt - start_dt) + 1) (month_end start_dt) end_dt.

(** The index of a series grouped by [pd.Grouper(freq='ME')]: a bin for every
    month-end from the month of the first row to the month of the last one. *)
Definition bins {V : Type} (rows : list (Z * V)) : list Z :=
  match rows with
  | [] => []
  | r :: _ => date_range_ME (fst r) (month_end (fst (last rows r)))
  end.

(** The index of a frame after [df[c] = series], column after column.  A frame
    whose index is still empty takes the index of the first series that has
    rows; from then on the series are aligned on the index of the frame. *)
Definition assigned_index {V : Type} (index : list Z)
    (cols : list (string * list (Z * V))) : list Z :=
  match index with
  | _ :: _ => index
  | [] =>
      match filter (fun c => match snd c with [] => false | _ :: _ => true end) cols with
      | [] => []
      | c :: _ => bins (snd c)
      end
  end.

Fixpoint index_eqb (a b : list Z) : bool :=
  match a, b with
  | [], [] => true
  | x :: a', y :: b' => (x =? y)%Z && index_eqb a' b'
  | _, _ => false
  end.

(** The index of [df.div(other, axis=0)]: the frames are aligned on the union
    of their indexes, which is the index itself when they are equal. *)
Definition index_union (a b : list Z) : list Z :=
  if index_eqb a b then a else sort_uniq Z.compare (a ++ b).

(** [Series.diff()]: each value minus the one before; NaN in the first place. *)
Definition diff (l : list (option Q)) : list (option Q) :=
  match l with
  | [] => []
  | _ :: l' => None :: map (fun ab => fsub (fst ab) (snd ab)) (combine l' l)
  end.

(** [Series.var()] (sample variance, [ddof=1]) on the values that are not NaN. *)
Definition var (l : list Q) : option Q :=
  match l with
  | [] | [_] => None
  | _ :: _ :: _ =>
      let mu := Qsum l / Qlen l in
      Some (Qsum (map (fun r => (r - mu) * (r - mu)) l) / (Qlen l - 1))
  end.

(** The rows of the averaged multipliers: the months 1..12 and "Avg". *)
Inductive avg_row : Type :=
| MonthRow (m : Z)
| AvgRow.

(** The dictionary returned by [get_cash_pvm]. *)
Record cash_pvm : Type := {
  Node : frame avg_row string;
  Hub : frame avg_row string
}.

(** The cells of column [c], down the index. *)
Definition column {R C : Type} (f : frame R C) (c : C) : list (option Q) :=
  map (fun r => cell f r c) (index f).

(** [df.clip(upper=df.quantile(q=q_upper), axis=1)] *)
Definition clip_quantile_columns {R C : Type} (q_upper : Q) (f : frame R C)
  : frame R C :=
  {| index := index f;
     columns := columns f;
     cell := fun r c =>
       option_map (clip_upper (quantile_linear q_upper (dropna (column f c))))
         (cell f r c) |}.

(** [df.groupby(df.index.month).mean()] at month [m], column [c]. *)
Definition month_mean (f : frame Z string) (m : Z) (c : string) : option Q :=
  mean (dropna (map (fun M => cell f M c)
                  (filter (fun M => (month M =? m)%Z) (index f)))).

(** Take average for each month 1-12, then insert average across all months.
    The means skip the cells that are [None]; they are those of the code on a
    frame that holds no infinity. *)
Definition month_averages (f : frame Z string) : frame avg_row string :=
  let months := sort_uniq Z.compare (map month (index f)) in
  {| index := map MonthRow months ++ [AvgRow];
     columns := columns f;
     cell := fun r c =>
       match r with
       | MonthRow m => month_mean f m c
       | AvgRow => mean (dropna (map (fun m => month_mean f m c) months))
       end |}.

Section Estimator.

(** [np.log] and [np.sqrt]; [None] is a result that is not a finite number
    (NaN for a negative argument; [np.log(0)] is an infinity, which the series
    of the code keeps and the embedding does not: prices are taken positive
    where the value of a volatility is stated). *)
Variable np_log : Q -> option Q.
Variable np_sqrt : Q -> option Q.

Definition fsqrt (c : option Q) : option Q :=
  match c with
  | Some x => np_sqrt x
  | None => None
  end.

(** [Series.std()] *)
Definition std (l : list Q) : option Q := fsqrt (var l).

(** [df_lmp.groupby(['Date', 'Peak Block'])['Price'].mean().unstack()] at
    ([d], [peak_block]). *)
Definition daily_mean (df : list block_row) (d : Z) (peak_block : string) : option Q :=
  mean (map (fun r => Price (obs r))
          (filter (fun r => (Date (obs r) =? d)%Z && String.eqb (Peak_Block r) peak_block)
             df)).

(** [df_lmp[peak_block].dropna()]: the days that have a price for the block, in
    date order. *)
Definition daily_prices (df : list block_row) (peak_block : string) : list (Z * Q) :=
  flat_map (fun d =>
              match daily_mean df d peak_block with
              | Some p => [(d, p)]
              | None => []
              end)
    (sort_uniq Z.compare (map (fun r => Date (obs r)) df)).

(** [dt = (daily_prices.index[1:] - daily_prices.index[:-1]).days / 360] *)
Definition annualized_dt (index : list Z) : list Q :=
  map (fun ab => inject_Z (fst ab - snd ab) / 360) (combine (tl index) index).

(** [daily_returns = np.log(daily_prices).diff().iloc[1:] / np.sqrt(dt)], with
    its index. *)
Definition daily_returns (prices : list (Z * Q)) : list (Z * option Q) :=
  let index := map fst prices in
  let dt := annualized_dt index in
  let log_diff := tl (diff (map (fun dp => np_log (snd dp)) prices)) in
  combine (tl index)
    (map (fun xd => fdiv (fst xd) (np_sqrt (snd xd))) (combine log_diff dt)).

(** The returns of the bin of month-end [M] that are not NaN. *)
Definition returns_of_month (returns : list (Z * option Q)) (M : Z) : list Q :=
  dropna (map snd (filter (fun r => (month_end (fst r) =? M)%Z) returns)).

(** [monthly_vols] at month-end [M]. *)
Definition monthly_vol (returns : list (Z * option Q)) (zero_mean : bool) (M : Z)
  : option Q :=
  if zero_mean then
    fsqrt (mean (map (fun r => r * r) (returns_of_month returns M)))
  else
    std (returns_of_month returns M).

Definition block_column (df : list block_row) (peak_block : string)
  : result (list (Z * option Q)) :=
  if existsb (fun r => String.eqb (Peak_Block r) peak_block) df
  then Ok (daily_returns (daily_prices df peak_block))
  else Raise (KeyError peak_block).

Fixpoint lookup_column (cols : list (string * list (Z * option Q))) (c : string)
  : option (list (Z * option Q)) :=
  match cols with
  | [] => None
  | (c', l) :: cols' => if String.eqb c' c then Some l else lookup_column cols' c
  end.

(** [_get_cash_vol]; [lmp] is the table [pull_lmp_data] returns for the node.
    The MISO branch passes [emtdb] and [pnode_id] to [convert_lmps_tz], which
    has no such parameters.  [df_cash_vol] is created on the month-ends from
    [start_dt] to [end_dt]; when there is none, it takes the bins of the first
    column that has returns. *)
Definition _get_cash_vol (lmp : lmp_table) (iso : string) (start_dt end_dt : Z)
    (zero_mean : bool) : result (option (frame Z string)) :=
  if String.eqb iso "MISO" then
    Raise (TypeError "convert_lmps_tz() got an unexpected keyword argument 'emtdb'")
  else
    match lmp with
    | [] => Ok None
    | _ :: _ =>
        df <- mapM (fun r =>
                      pb <- util.date_hour_to_peak_block (Date r) (Hour r) iso ;;
                      Ok {| obs := r; Month := month (Date r); Peak_Block := pb |})
                   lmp ;;
        blocks <- util.list_peak_blocks iso ;;
        cols <- mapM (fun b => l <- block_column df b ;; Ok (b, l)) blocks ;;
        let month_ends := assigned_index (date_range_ME start_dt end_dt) cols in
        Ok (Some {| index := month_ends;
                    columns := blocks;
                    cell := fun M c =>
                      if existsb (Z.eqb M) month_ends then
                        match lookup_column cols c with
                        | Some returns => monthly_vol returns zero_mean M
                        | None => None
                        end
                      else None |})
    end.

(** [get_cash_pvm]; [node_lmp] and [hub_lmp] are the tables [pull_lmp_data]
    returns for the node and for the hub of the ISO. *)
Definition get_cash_pvm (node_lmp hub_lmp : lmp_table) (iso : string)
    (start_dt end_dt : Z) (zero_mean : bool) (q_upper : Q)
  : result (option cash_pvm) :=
  if negb (negb (Qle_bool q_upper 0) && Qle_bool q_upper 1) then Raise AssertionError
  else if negb (str_in iso (map fst SUPPORTED_ISO_PNODES)) then Ok None
  else
    node <- _get_cash_vol node_lmp iso start_dt end_dt zero_mean ;;
    match node with
    | None => Ok None
    | Some node_cash_vol =>
        hub <- _get_cash_vol hub_lmp iso start_dt end_dt zero_mean ;;
        match hub with
        | None => Raise (TypeError "unsupported operand type: NoneType")
        | Some hub_cash_vol =>
            let node_pvm :=
              {| index := index_union (index node_cash_vol) (index hub_cash_vol);
                 columns := columns node_cash_vol;
                 cell := fun M c => fdiv (cell node_cash_vol M c) (cell hub_cash_vol M c) |} in
            let hub_pvm :=
              {| index := index hub_cash_vol;
                 columns := columns hub_cash_vol;
                 cell := fun M c =>
                   fdiv (cell hub_cash_vol M c) (cell hub_cash_vol M "5x16") |} in
            Ok (Some {| Node := month_averages (clip_quantile_columns q_upper node_pvm);
                        Hub := month_averages (clip_quantile_columns q_upper hub_pvm) |})
        end
    end.

End Estimator.

(** A row of the price peak map ([get_price_peak_map]): the cells
    [row['General']['ISO']], [row['General']['Name']],
    [row['RISKDB.MARKET_PRICE_DATA']['Node ID']] and the truth value of
    [row['RISKDB.FWD_MARKET_PRICE']['Vol Backbone']]. *)
Record price_peak_row : Type := {
  ISO : string;
  Name : string;
  Node_ID : string;
  Vol_Backbone : bool
}.

(** [d[k]] and [d[k] = v] on a dict, kept in insertion order. *)
Fixpoint dict_get {V : Type} (k : string) (d : list (string * V)) : option V :=
  match d with
  | [] => None
  | (k', v) :: d' => if String.eqb k' k then Some v else dict_get k d'
  end.

Fixpoint dict_set {V : Type} (k : string) (v : V) (d : list (string * V))
  : list (string * V) :=
  match d with
  | [] => [(k, v)]
  | (k', v') :: d' =>
      if String.eqb k' k then (k, v) :: d' else (k', v') :: dict_set k v d'
  end.

Section AllZones.

Variable np_log : Q -> option Q.
Variable np_sqrt : Q -> option Q.

(** [pull_lmp_data(emtdb, pnode_id, 'DA', start_dt, end_dt)], by pricing node. *)
Variable pull_lmp_data : string -> lmp_table.

(** The loop of [get_all_zone_and_hub_cash_pvm] over the rows of the price peak
    map, from the dictionary [pvm] built so far.  [cash_pvm['Hub']] and
    [cash_pvm['Node']] subscript what [get_cash_pvm] returned, also when that is
    [None]. *)
Fixpoint zone_loop (rows : list price_peak_row) (start_dt end_dt : Z)
    (zero_mean : bool) (q_upper : Q)
    (pvm : list (string * list (string * frame avg_row string)))
  : result (list (string * list (string * frame avg_row string))) :=
  match rows with
  | [] => Ok pvm
  | row :: rows' =>
      let iso := ISO row in
      match dict_get iso SUPPORTED_ISO_PNODES with
      | None => zone_loop rows' start_dt end_dt zero_mean q_upper pvm
      | Some hub_pnode_id =>
          let zones := match dict_get iso pvm with
                       | Some zones => zones
                       | None => []
                       end in
          cash_pvm <- get_cash_pvm np_log np_sqrt (pull_lmp_data (Node_ID row))
                        (pull_lmp_data hub_pnode_id) iso start_dt end_dt zero_mean
                        q_upper ;;
          match cash_pvm with
          | None => Raise (TypeError "'NoneType' object is not subscriptable")
          | Some c =>
              zone_loop rows' start_dt end_dt zero_mean q_upper
                (dict_set iso
                   (dict_set (Name row) (if Vol_Backbone row then Hub c else Node c)
                      zones)
                   pvm)
          end
      end
  end.

(** [get_all_zone_and_hub_cash_pvm]; [price_peak_map] is the table
    [get_price_peak_map] reads. *)
Definition get_all_zone_and_hub_cash_pvm (price_peak_map : list price_peak_row)
    (start_dt end_dt : Z) (zero_mean : bool) (q_upper : Q)
  : result (list (string * list (string * frame avg_row string))) :=
  zone_loop price_peak_map start_dt end_dt zero_mean q_upper [].

End AllZones.

End pvm.

(** * Specification-side definitions and example inputs *)

Section Specification.

Import Timestamp util pd.

(** The label sets of the two schemes. *)
Definition three_blocks : list string := ["5x16"; "2x16"; "7x8"].

Definition four_blocks : list string :=
  ["6x16-Weekday"; "6x16-Saturday"; "Off-Sunday"; "Off-Night"].

(** A cached computation is transparent when, from consistent caches, it
    returns [r] and leaves the caches consistent. *)
Definition transparent {A : Type} (m : cached A) (r : result A) : Prop :=
  forall st, caches_ok st -> fst (m st) = r /\ caches_ok (snd (m st)).

(** The relabelling of one (date, hour) pair from zone [tz_from] to zone [tz]. *)
Definition relabel (tz_from tz : tzinfo) (date hour : Z) : Z * Z :=
  match tz_localize tz_from (date * 24 + (hour - 1)) with
  | Ok u => (wall_clock tz u / 24, wall_clock tz u mod 24 + 1)
  | Raise _ => (date, hour)
  end.

(** The table with its ['Peak Block'] column: row by row, the observation and
    the label the classifier gives it. *)
Definition labelled_as (iso : string) (r : lmp_row) (r' : block_row) : Prop :=
  obs r' = r /\
  date_hour_to_peak_block (Date r) (Hour r) iso = Ok (Peak_Block r').

(** Hour 5 of Wednesday 2024-07-10 (daylight-saving time in the east). *)
Definition july_row : lmp_row :=
  {| Date := make 2024 7 10; Hour := 5; Price := 30 |}.

(** Hour 5 of Wednesday 2024-01-10 (standard time). *)
Definition january_row : lmp_row :=
  {| Date := make 2024 1 10; Hour := 5; Price := 30 |}.

(** The sixteen on-peak hours (8..23) of Wednesday 2024-07-10, priced by
    [price]. *)
Definition on_peak_hours : list Z :=
  [8; 9; 10; 11; 12; 13; 14; 15; 16; 17; 18; 19; 20; 21; 22; 23].

Definition on_peak_day (price : Z -> Q) : lmp_table :=
  map (fun h => {| Date := make 2024 7 10; Hour := h; Price := price h |}) on_peak_hours.

(** A MISO table in January 2024 (EST and EPT agree): Wednesday the 10th has
    only the on-peak hour 10; Saturday the 13th has hour 10 ("2x16") and hour 2
    ("7x8"). *)
Definition wednesday_without_off : lmp_table :=
  [ {| Date := make 2024 1 10; Hour := 10; Price := 30 |};
    {| Date := make 2024 1 13; Hour := 10; Price := 20 |};
    {| Date := make 2024 1 13; Hour := 2; Price := 10 |} ].

(** Four hours of January 2024: two on-peak weekdays, and a Saturday with a
    day hour and a night hour. *)
Definition january_table : lmp_table :=
  [ {| Date := make 2024 1 10; Hour := 10; Price := 30 |};
    {| Date := make 2024 1 11; Hour := 10; Price := 50 |};
    {| Date := make 2024 1 13; Hour := 10; Price := 20 |};
    {| Date := make 2024 1 13; Hour := 2; Price := 10 |} ].

(** Four hours of July 2024: a weekday day hour, a Saturday day hour, and two
    night hours of the weekday. *)
Definition july_nights : lmp_table :=
  [ {| Date := make 2024 7 10; Hour := 10; Price := 30 |};
    {| Date := make 2024 7 13; Hour := 10; Price := 20 |};
    {| Date := make 2024 7 10; Hour := 2; Price := 10 |};
    {| Date := make 2024 7 10; Hour := 3; Price := 30 |} ].

Section Numbers.

Import shapers splitters.

Local Open Scope Q_scope.

(** The sum of the cells [x] weighted by [w]: defined when every cell is a
    number. *)
Fixpoint weighted_sum (l : list (Q * option Q)) : option Q :=
  match l with
  | [] => Some 0
  | (w, Some x) :: l' => option_map (Qplus (w * x)) (weighted_sum l')
  | (_, None) :: _ => None
  end.

(** The average of the cells weighted by [w]: defined when, moreover, the
    weights do not sum to zero. *)
Definition weighted_mean (l : list (Q * option Q)) : option Q :=
  fdiv (weighted_sum l) (Some (Qsum (map fst l))).

(** Number of observations of hour [h] in the (month, block) group. *)
Definition hour_count (df : list block_row) (m : Z) (b : string) (h : Z) : Q :=
  Qlen (filter (in_hour m b h) df).

(** The price of a labelled row. *)
Definition price_of (r : block_row) : Q := Price (obs r).

(** The weighted-average off price as C7 states it: the weights in the
    denominator are summed over the days that have an Off value. *)
Definition avg_off_over_days_with_off (rows : list weighted_row) : option Q :=
  fdiv (Some (Qsum (dropna (map Off_weighted_price rows))))
       (Some (Qsum (map Off_peak_weight
                      (filter (fun r => notnull (Off (base r))) rows)))).


(** [np.log] and [np.sqrt], as in [pvm]. *)
Variable np_log : Q -> option Q.
Variable np_sqrt : Q -> option Q.

(** The scaled log-returns as C8 words them: for each pair of consecutive
    available days, the difference of the log-prices, divided by the square root
    of the elapsed calendar days over 360 (which annualizes it), dated at the
    later day. *)
Fixpoint scaled_log_returns (avail : list (Z * Q)) : list (Z * option Q) :=
  match avail with
  | [] => []
  | (d0, p0) :: rest =>
      match rest with
      | [] => []
      | (d1, p1) :: _ =>
          (d1, fdiv (fsub (np_log p1) (np_log p0)) (np_sqrt (inject_Z (d1 - d0) / 360)))
            :: scaled_log_returns rest
      end
  end.

(** The returns dated in the calendar month of [M] that are numbers. *)
Definition returns_in_month_of (returns : list (Z * option Q)) (M : Z) : list Q :=
  dropna
    (map snd
       (filter (fun r => (Timestamp.year (fst r) =? Timestamp.year M)%Z
                         && (Timestamp.month (fst r) =? Timestamp.month M)%Z)
          returns)).

(** Root-mean-square of the returns. *)
Definition root_mean_square (rs : list Q) : option Q :=
  match rs with
  | [] => None
  | _ :: _ => np_sqrt (Qsum (map (fun r => r * r) rs) / Qlen rs)
  end.

(** Sample standard deviation of the returns (divisor [n - 1]). *)
Definition sample_standard_deviation (rs : list Q) : option Q :=
  if (2 <=? List.length rs)%nat then
    np_sqrt (Qsum (map (fun r => (r - Qsum rs / Qlen rs) * (r - Qsum rs / Qlen rs)) rs)
             / (Qlen rs - 1))
  else None.

End Numbers.

End Specification.

(** * Theorems *)

(** Evaluate the left-hand side of an equation to its head constructor, leaving
    the cells of a frame as they are. *)
Ltac head_normalize_lhs H :=
  match type of H with
  | ?l = ?r => let l' := eval lazy head in l in change (l' = r) in H
  end.

(** The frame [x] that a call returned, read off an equation
    [Ok (Some frame) = Ok (Some x)]. *)
Ltac returned_frame H x :=
  apply (f_equal (fun r => match r with Ok (Some y) => y | _ => x end)) in H;
  cbv beta iota in H.

Import Timestamp.

(** ** Results and string membership *)

Lemma str_in_In (s : string) (l : list string) : str_in s l = true <-> In s l.
Proof.
  unfold str_in. rewrite existsb_exists. split.
  - intros [x [Hx He]]. apply String.eqb_eq in He. now subst.
  - intros H. exists s. split; [assumption | apply String.eqb_refl].
Qed.

Lemma str_in_false (s : string) (l : list string) : ~ In s l -> str_in s l = false.
Proof.
  intros H. destruct (str_in s l) eqn:E; [| reflexivity].
  apply str_in_In in E. contradiction.
Qed.

(** ** Termination of the holiday loops *)

Section HolidayLoops.

Import util.

Lemma while_weekday_ne_forward (target : Z) (n : nat) :
  0 <= target < 7 ->
  forall (fuel : nat) (dt : Z),
    (target - weekday dt) mod 7 = Z.of_nat n -> (n <= fuel)%nat ->
    while_weekday_ne fuel target 1 dt = Ok (dt + Z.of_nat n).
Proof.
  intros Ht. induction n as [| n IH]; intros fuel dt Hd Hf.
  - assert (weekday dt = target) as Hw
      by (unfold weekday in *; Z.to_euclidean_division_equations; lia).
    apply Z.eqb_eq in Hw.
    destruct fuel; simpl; rewrite Hw; f_equal; lia.
  - assert ((target - weekday (dt + 1)) mod 7 = Z.of_nat n /\ weekday dt <> target)
      as [Hn Hne]
      by (unfold weekday in *; Z.to_euclidean_division_equations; lia).
    destruct fuel as [| fuel]; [lia |].
    simpl. apply Z.eqb_neq in Hne. rewrite Hne.
    rewrite (IH fuel (dt + 1) Hn) by lia. f_equal. lia.
Qed.

Lemma while_weekday_ne_backward (target : Z) (n : nat) :
  0 <= target < 7 ->
  forall (fuel : nat) (dt : Z),
    (weekday dt - target) mod 7 = Z.of_nat n -> (n <= fuel)%nat ->
    while_weekday_ne fuel target (-1) dt = Ok (dt - Z.of_nat n).
Proof.
  intros Ht. induction n as [| n IH]; intros fuel dt Hd Hf.
  - assert (weekday dt = target) as Hw
      by (unfold weekday in *; Z.to_euclidean_division_equations; lia).
    apply Z.eqb_eq in Hw.
    destruct fuel; simpl; rewrite Hw; f_equal; lia.
  - assert ((weekday (dt + -1) - target) mod 7 = Z.of_nat n /\ weekday dt <> target)
      as [Hn Hne]
      by (unfold weekday in *; Z.to_euclidean_division_equations; lia).
    destruct fuel as [| fuel]; [lia |].
    simpl. apply Z.eqb_neq in Hne. rewrite Hne.
    rewrite (IH fuel (dt + -1) Hn) by lia. f_equal. lia.
Qed.

Lemma mod7_nat (x : Z) : exists n : nat, x mod 7 = Z.of_nat n /\ (n <= 6)%nat.
Proof.
  exists (Z.to_nat (x mod 7)).
  pose proof (Z.mod_pos_bound x 7 ltac:(lia)). lia.
Qed.

Lemma while_weekday_ne_forward_total (target dt : Z) :
  0 <= target < 7 ->
  exists k, 0 <= k <= 6 /\ while_weekday_ne loop_fuel target 1 dt = Ok (dt + k).
Proof.
  intros Ht. destruct (mod7_nat (target - weekday dt)) as [n [Hn Hle]].
  exists (Z.of_nat n). split; [lia |].
  apply while_weekday_ne_forward; [assumption | assumption | unfold loop_fuel; lia].
Qed.

Lemma while_weekday_ne_backward_total (target dt : Z) :
  0 <= target < 7 ->
  exists k, 0 <= k <= 6 /\ while_weekday_ne loop_fuel target (-1) dt = Ok (dt - k).
Proof.
  intros Ht. destruct (mod7_nat (weekday dt - target)) as [n [Hn Hle]].
  exists (Z.of_nat n). split; [lia |].
  apply while_weekday_ne_backward; [assumption | assumption | unfold loop_fuel; lia].
Qed.

(** One round of the Thanksgiving loop: from [dt], with [count < 4], the loop
    walks to the day after the next Thursday and has counted one more. *)
Lemma thanksgiving_loop_round (n : nat) :
  forall (fuel : nat) (count dt : Z),
    count < 4 -> (3 - weekday dt) mod 7 = Z.of_nat n ->
    thanksgiving_loop (S n + fuel) count dt
    = thanksgiving_loop fuel (count + 1) (dt + Z.of_nat n + 1).
Proof.
  induction n as [| n IH]; intros fuel count dt Hc Hd.
  - assert (weekday dt = 3) as Hw
      by (unfold weekday in *; Z.to_euclidean_division_equations; lia).
    cbn [Nat.add thanksgiving_loop].
    apply Z.ltb_lt in Hc. rewrite Hc, Hw. cbn [Z.eqb Pos.eqb].
    f_equal. simpl. lia.
  - assert ((3 - weekday (dt + 1)) mod 7 = Z.of_nat n /\ weekday dt <> 3)
      as [Hn Hne]
      by (unfold weekday in *; Z.to_euclidean_division_equations; lia).
    change (S (S n) + fuel)%nat with (S (S n + fuel)).
    cbn [thanksgiving_loop].
    pose proof Hc as Hc'. apply Z.ltb_lt in Hc'. rewrite Hc'.
    apply Z.eqb_neq in Hne. rewrite Hne.
    rewrite (IH fuel count (dt + 1) Hc Hn). f_equal. lia.
Qed.

Lemma thanksgiving_loop_total (dt : Z) :
  exists k, 0 <= k <= 6 /\ thanksgiving_loop loop_fuel 0 dt = Ok (dt + k + 22).
Proof.
  destruct (mod7_nat (3 - weekday dt)) as [n [Hn Hle]].
  exists (Z.of_nat n). split; [lia |].
  assert (Hnext : forall d, weekday d = 3 -> (3 - weekday (d + 1)) mod 7 = Z.of_nat 6)
    by (intros d Hd; unfold weekday in *; Z.to_euclidean_division_equations; lia).
  assert (Hthu : weekday (dt + Z.of_nat n) = 3)
    by (unfold weekday in *; Z.to_euclidean_division_equations; lia).
  replace loop_fuel with (S n + (7 + (7 + (7 + (42 - n)))))%nat
    by (unfold loop_fuel; lia).
  rewrite (thanksgiving_loop_round n _ 0 dt) by (lia || assumption).
  rewrite (thanksgiving_loop_round 6 _ _ _) by (lia || (apply Hnext; assumption)).
  rewrite (thanksgiving_loop_round 6 _ _ _)
    by (lia || (apply Hnext; unfold weekday in *; Z.to_euclidean_division_equations; lia)).
  rewrite (thanksgiving_loop_round 6 _ _ _)
    by (lia || (apply Hnext; unfold weekday in *; Z.to_euclidean_division_equations; lia)).
  destruct (42 - n)%nat; simpl; f_equal; lia.
Qed.

(** Every holiday function returns, for every year. *)
Lemma get_holidays_total (y : Z) : exists holidays, get_holidays y = Ok holidays.
Proof.
  unfold get_holidays, _labor_day, _memorial_day, _thanksgiving_day,
    _independence_day, _new_years_day, _christmas_day.
  destruct (while_weekday_ne_forward_total 0 (make y 9 1)) as [k1 [_ ->]]; [lia |].
  destruct (while_weekday_ne_backward_total 0 (make y 5 31)) as [k2 [_ ->]]; [lia |].
  destruct (thanksgiving_loop_total (make y 11 1)) as [k3 [_ ->]].
  simpl. eexists. reflexivity.
Qed.

End HolidayLoops.

(** ** Memoization is transparent *)

Section Memo.

Import util.

Lemma cache_lookup_sound (f : Z -> result Z) (c : cache) (key v : Z) :
  cache_of f c -> cache_lookup key c = Some v -> f key = Ok v.
Proof.
  unfold cache_of. induction c as [| [k w] c IH]; simpl; intros Hc Hl.
  - discriminate.
  - inversion Hc as [| e c' He Hc']; subst. simpl in He.
    destruct (k =? key) eqn:E.
    + apply Z.eqb_eq in E. subst. now inversion Hl; subst.
    + now apply IH.
Qed.

Lemma cache_of_remove (f : Z -> result Z) (c : cache) (key : Z) :
  cache_of f c -> cache_of f (cache_remove key c).
Proof.
  unfold cache_of, cache_remove. rewrite !Forall_forall.
  intros H e He. apply filter_In in He. now apply H.
Qed.

Lemma cache_of_firstn (f : Z -> result Z) (c : cache) (n : nat) :
  cache_of f c -> cache_of f (firstn n c).
Proof.
  unfold cache_of. intros H.
  rewrite <- (firstn_skipn n c) in H. apply Forall_app in H. apply H.
Qed.

Lemma lru_cache_transparent (f : Z -> result Z) (key : Z) (c : cache) :
  cache_of f c ->
  fst (lru_cache f key c) = f key /\ cache_of f (snd (lru_cache f key c)).
Proof.
  intros Hc. unfold lru_cache.
  destruct (cache_lookup key c) as [v |] eqn:El.
  - pose proof (cache_lookup_sound f c key v Hc El) as Hf. simpl. split.
    + now rewrite Hf.
    + constructor; [exact Hf | now apply cache_of_remove].
  - destruct (f key) as [v | e] eqn:Ef; simpl.
    + split; [reflexivity |].
      apply (cache_of_firstn f ((key, v) :: c) lru_maxsize).
      constructor; assumption.
    + split; [reflexivity | assumption].
Qed.

Lemma cbind_transparent {A B : Type} (m : cached A) (k : A -> cached B)
    (r : result A) (kp : A -> result B) :
  transparent m r -> (forall a, transparent (k a) (kp a)) ->
  transparent (cbind m k) (bind r kp).
Proof.
  intros Hm Hk st Hst. unfold cbind.
  destruct (Hm st Hst) as [Hf Hs].
  destruct (m st) as [[a | e] st']; simpl in Hf, Hs; subst r; simpl.
  - now apply Hk.
  - now split.
Qed.

Lemma cret_transparent {A : Type} (a : A) : transparent (cret a) (Ok a).
Proof. intros st Hst. now split. Qed.

Ltac holiday_cached f :=
  let st := fresh "st" in
  let Hf := fresh "Hf" in
  let Hc := fresh "Hc" in
  intros st; destruct st as [c1 c2 c3 c4 c5 c6];
  intros (H1 & H2 & H3 & H4 & H5 & H6); cbn [labor_cache memorial_cache
    independence_cache new_years_cache thanksgiving_cache christmas_cache] in *;
  match goal with
  | H : cache_of f ?c |- context [lru_cache f ?y ?c] =>
      destruct (lru_cache_transparent f y c H) as [Hf Hc];
      destruct (lru_cache f y c) as [? ?]; cbn [fst snd] in *;
      split; [exact Hf | unfold caches_ok; cbn [labor_cache memorial_cache
        independence_cache new_years_cache thanksgiving_cache christmas_cache];
        tauto]
  end.

Lemma _labor_day_cached_transparent (y : Z) :
  transparent (_labor_day_cached y) (_labor_day y).
Proof. unfold _labor_day_cached. holiday_cached _labor_day. Qed.

Lemma _memorial_day_cached_transparent (y : Z) :
  transparent (_memorial_day_cached y) (_memorial_day y).
Proof. unfold _memorial_day_cached. holiday_cached _memorial_day. Qed.

Lemma _independence_day_cached_transparent (y : Z) :
  transparent (_independence_day_cached y) (_independence_day y).
Proof. unfold _independence_day_cached. holiday_cached _independence_day. Qed.

Lemma _new_years_day_cached_transparent (y : Z) :
  transparent (_new_years_day_cached y) (_new_years_day y).
Proof. unfold _new_years_day_cached. holiday_cached _new_years_day. Qed.

Lemma _thanksgiving_day_cached_transparent (y : Z) :
  transparent (_thanksgiving_day_cached y) (_thanksgiving_day y).
Proof. unfold _thanksgiving_day_cached. holiday_cached _thanksgiving_day. Qed.

Lemma _christmas_day_cached_transparent (y : Z) :
  transparent (_christmas_day_cached y) (_christmas_day y).
Proof. unfold _christmas_day_cached. holiday_cached _christmas_day. Qed.

(** Through consistent caches, [get_holidays] returns what its body computes
    and leaves the caches consistent. *)
Lemma get_holidays_cached_transparent (y : Z) :
  transparent (get_holidays_cached y) (get_holidays y).
Proof.
  unfold get_holidays_cached, get_holidays.
  apply cbind_transparent; [apply _labor_day_cached_transparent | intros d1].
  apply cbind_transparent; [apply _memorial_day_cached_transparent | intros d2].
  apply cbind_transparent; [apply _independence_day_cached_transparent | intros d3].
  apply cbind_transparent; [apply _new_years_day_cached_transparent | intros d4].
  apply cbind_transparent; [apply _thanksgiving_day_cached_transparent | intros d5].
  apply cbind_transparent; [apply _christmas_day_cached_transparent | intros d6].
  apply cret_transparent.
Qed.

Lemma date_hour_to_peak_block_cached_transparent (date hour : Z) (iso : string) :
  transparent (date_hour_to_peak_block_cached date hour iso)
    (date_hour_to_peak_block date hour iso).
Proof.
  intros st Hst. unfold date_hour_to_peak_block_cached, date_hour_to_peak_block.
  destruct (negb (str_in iso asserted_isos)); [now split |].
  revert st Hst. apply cbind_transparent.
  - apply get_holidays_cached_transparent.
  - intros holidays st Hst. now split.
Qed.

End Memo.

(** ** The peak-block rule *)

Section PeakBlocks.

Import util.

Lemma peak_block_rule_total (is_holiday is_saturday is_sunday : bool) (hour : Z)
    (iso : string) :
  str_in iso asserted_isos = true ->
  exists label,
    peak_block_rule is_holiday is_saturday is_sunday hour iso = Ok label /\
    In label (if String.eqb iso "CAISO" then four_blocks else three_blocks) /\
    (forall blocks, list_peak_blocks iso = Ok blocks -> In label blocks).
Proof.
  intros Hiso. apply str_in_In in Hiso. unfold asserted_isos in Hiso.
  simpl in Hiso.
  destruct Hiso as [<- | [<- | [<- | [<- | [<- | [<- | [<- | []]]]]]]];
    unfold peak_block_rule, list_peak_blocks;
    cbn [str_in existsb String.eqb Ascii.eqb Bool.eqb orb andb negb];
    destruct is_holiday, is_saturday, is_sunday;
    cbn [orb andb negb];
    try (destruct (8 <=? hour); destruct (hour <=? 23));
    try (destruct (7 <=? hour); destruct (hour <=? 22));
    cbn [orb andb negb];
    eexists; (split; [reflexivity |]);
    (split; [simpl; tauto |]);
    intros blocks Hb; try discriminate Hb;
    inversion Hb; subst; simpl; tauto.
Qed.

Lemma date_hour_to_peak_block_returns (date hour : Z) (iso : string) :
  str_in iso asserted_isos = true ->
  exists label, date_hour_to_peak_block date hour iso = Ok label.
Proof.
  intros Hiso. destruct (get_holidays_total (year date)) as [holidays Hh].
  destruct (peak_block_rule_total (date_in date holidays) (weekday date =? 5)
              (weekday date =? 6) hour iso Hiso) as [label [Hr _]].
  exists label. unfold date_hour_to_peak_block. rewrite Hiso, Hh. exact Hr.
Qed.

End PeakBlocks.

(** ** Claims on the peak-block classifier *)

Section Classifier.

Import util.

(** C3.  For every market accepted by [date_hour_to_peak_block] and every date
    and hour in 1..24, the classifier returns exactly one label and never
    reaches its error branches; the label belongs to the market's label set
    (the three-category scheme, or the four-category scheme for CAISO, and
    [list_peak_blocks] of the market wherever that is defined); and the label
    is a function of (date, hour, market, holiday list) only: whatever the
    state of the holiday caches, the call returns the label that the rule
    gives on the holiday list of the date's year. *)
Theorem date_hour_to_peak_block_total_pure (date hour : Z) (iso : string)
    (st : caches) :
  1 <= hour <= 24 ->
  str_in iso asserted_isos = true ->
  caches_ok st ->
  exists label holidays,
    fst (date_hour_to_peak_block_cached date hour iso st) = Ok label /\
    caches_ok (snd (date_hour_to_peak_block_cached date hour iso st)) /\
    date_hour_to_peak_block date hour iso = Ok label /\
    get_holidays (year date) = Ok holidays /\
    peak_block_rule (date_in date holidays) (weekday date =? 5) (weekday date =? 6)
      hour iso = Ok label /\
    In label (if String.eqb iso "CAISO" then four_blocks else three_blocks) /\
    (forall blocks, list_peak_blocks iso = Ok blocks -> In label blocks).
Proof.
  intros _ Hiso Hst.
  destruct (get_holidays_total (year date)) as [holidays Hh].
  destruct (peak_block_rule_total (date_in date holidays) (weekday date =? 5)
              (weekday date =? 6) hour iso Hiso) as [label (Hr & Hin & Hl)].
  assert (Hp : date_hour_to_peak_block date hour iso = Ok label).
  { unfold date_hour_to_peak_block. rewrite Hiso, Hh. exact Hr. }
  destruct (date_hour_to_peak_block_cached_transparent date hour iso st Hst)
    as [Hf Hs].
  exists label, holidays. rewrite Hf.
  split; [exact Hp |]. split; [exact Hs |]. split; [exact Hp |].
  split; [exact Hh |]. split; [exact Hr |]. split; [exact Hin | exact Hl].
Qed.

Lemma date_hour_to_peak_block_total_pure_witness :
  exists label holidays,
    fst (date_hour_to_peak_block_cached (make 2024 11 28) 10 "CAISO" empty_caches)
    = Ok label /\
    caches_ok
      (snd (date_hour_to_peak_block_cached (make 2024 11 28) 10 "CAISO" empty_caches)) /\
    date_hour_to_peak_block (make 2024 11 28) 10 "CAISO" = Ok label /\
    get_holidays (year (make 2024 11 28)) = Ok holidays /\
    peak_block_rule (date_in (make 2024 11 28) holidays)
      (weekday (make 2024 11 28) =? 5) (weekday (make 2024 11 28) =? 6)
      10 "CAISO" = Ok label /\
    In label (if String.eqb "CAISO" "CAISO" then four_blocks else three_blocks) /\
    (forall blocks, list_peak_blocks "CAISO" = Ok blocks -> In label blocks).
Proof.
  apply (date_hour_to_peak_block_total_pure (make 2024 11 28) 10 "CAISO" empty_caches).
  - lia.
  - reflexivity.
  - unfold caches_ok, cache_of, empty_caches; simpl. repeat split; constructor.
Defined.

(** C2, as the code has it.  2024-07-04 is a Thursday and a holiday; at hour 10
    (inside the 8..23 window) PJM classifies it "2x16": the holiday makes the
    daytime hour off-peak, and "7x8" is kept for the hours outside the window.
    On the non-holiday Wednesday 2024-07-10, hour 10 is "5x16" and hour 2 is
    "7x8". *)
Theorem classify_concrete_2024 :
  weekday (make 2024 7 4) = 3 /\
  (exists holidays, get_holidays 2024 = Ok holidays /\ In (make 2024 7 4) holidays) /\
  date_hour_to_peak_block (make 2024 7 4) 10 "PJM" = Ok "2x16" /\
  weekday (make 2024 7 10) = 2 /\
  date_hour_to_peak_block (make 2024 7 10) 10 "PJM" = Ok "5x16" /\
  date_hour_to_peak_block (make 2024 7 10) 2 "PJM" = Ok "7x8".
Proof.
  repeat split; try reflexivity.
  eexists. split; [vm_compute; reflexivity | vm_compute; tauto].
Qed.

(** C2 as stated fails: the label of 2024-07-04, hour 10, PJM is not "7x8". *)
Lemma classify_holiday_daytime_not_7x8 :
  date_hour_to_peak_block (make 2024 7 4) 10 "PJM" <> Ok "7x8".
Proof. vm_compute. discriminate. Qed.

(** C5.  [peak_block_to_complement] is an involution on the six labels that
    have a complement, returns [None] without raising on "5x16", and raises
    "Peak Block not recognized" on every other string. *)
Theorem peak_block_to_complement_spec :
  (forall label,
      In label ["7x8"; "2x16"; "Off-Night"; "Off-Sunday"; "6x16-Saturday";
                "6x16-Weekday"] ->
      exists c,
        peak_block_to_complement label = Ok (Some c) /\
        peak_block_to_complement c = Ok (Some label)) /\
  peak_block_to_complement "5x16" = Ok None /\
  (forall s,
      ~ In s ["5x16"; "7x8"; "2x16"; "Off-Night"; "Off-Sunday"; "6x16-Saturday";
              "6x16-Weekday"] ->
      peak_block_to_complement s = Raise (PeakBlockNotRecognized s)).
Proof.
  split; [| split].
  - intros label H. simpl in H.
    destruct H as [<- | [<- | [<- | [<- | [<- | [<- | []]]]]]];
      eexists; split; reflexivity.
  - reflexivity.
  - intros s H. unfold peak_block_to_complement.
    repeat match goal with
    | |- context [String.eqb s ?l] =>
        let E := fresh "E" in
        destruct (String.eqb s l) eqn:E;
        [apply String.eqb_eq in E; subst s; exfalso; apply H; simpl; tauto |]
    end.
    reflexivity.
Qed.

Lemma peak_block_to_complement_spec_witness :
  (exists c,
      peak_block_to_complement "Off-Night" = Ok (Some c) /\
      peak_block_to_complement c = Ok (Some "Off-Night")) /\
  peak_block_to_complement "Off" = Raise (PeakBlockNotRecognized "Off").
Proof.
  destruct peak_block_to_complement_spec as [Hinv [_ Hother]].
  split.
  - apply Hinv. simpl. tauto.
  - apply Hother. simpl. intros H.
    repeat (destruct H as [H | H]; [discriminate H |]). exact H.
Defined.

End Classifier.

(** ** Claims on the time-zone re-basing *)

Section Rebasing.

Import util.

Lemma mapM_Forall2 {A B : Type} (f : A -> result B) (l : list A) (l' : list B) :
  mapM f l = Ok l' -> Forall2 (fun a b => f a = Ok b) l l'.
Proof.
  revert l'. induction l as [| a l IH]; simpl; intros l' H.
  - inversion H. constructor.
  - destruct (f a) as [b | e] eqn:Ef; simpl in H; [| discriminate].
    destruct (mapM f l) as [bs | e]; simpl in H; [| discriminate].
    inversion H; subst. constructor; [assumption | now apply IH].
Qed.

Lemma mapM_total {A B : Type} (f : A -> result B) (l : list A) :
  (forall a, In a l -> exists b, f a = Ok b) -> exists l', mapM f l = Ok l'.
Proof.
  induction l as [| a l IH]; simpl; intros H.
  - eexists. reflexivity.
  - destruct (H a (or_introl eq_refl)) as [b ->].
    destruct IH as [bs ->]; [intros x Hx; apply H; now right |].
    simpl. eexists. reflexivity.
Qed.

Lemma convert_rows (tz_from tz : tzinfo) (df : lmp_table) (localized : list (Z * Q)) :
  mapM (fun tp => u <- tz_localize tz_from (fst tp) ;; Ok (u, snd tp))
    (map (fun r => (naive_datetime r, Price r)) df) = Ok localized ->
  Forall2
    (fun r r' =>
       Price r' = Price r /\ (Date r', Hour r') = relabel tz_from tz (Date r) (Hour r))
    df
    (map (fun up => row_of_wall_clock (wall_clock tz (fst up)) (snd up)) localized).
Proof.
  revert localized. induction df as [| r df IH]; simpl; intros localized H.
  - inversion H. constructor.
  - unfold naive_datetime at 1 in H.
    destruct (tz_localize tz_from (Date r * 24 + (Hour r - 1))) as [u | e] eqn:El;
      simpl in H; [| discriminate].
    match type of H with
    | context [mapM ?f ?l] => destruct (mapM f l) as [us | e] eqn:Em
    end; simpl in H; [| discriminate].
    inversion H; subst. simpl. constructor.
    + unfold relabel. rewrite El. simpl. split; reflexivity.
    + now apply IH.
Qed.

(** The in-place update of the caller's frame touches neither the rows nor the
    prices. *)
Lemma convert_lmps_tz_in_place_prices (df_lmp : lmp_table) :
  map (fun r => Price (after_row r)) (convert_lmps_tz_in_place df_lmp)
  = map Price df_lmp.
Proof.
  unfold convert_lmps_tz_in_place. rewrite map_map. reflexivity.
Qed.

(** C9.  Whatever the zones, a table returned by [convert_lmps_tz] has one row
    per input row, in the same order, with the same [Price]; its [Date] and
    [Hour] are a relabelling of the input row's [Date] and [Hour] alone.  And
    from a fixed-offset source convention (such as "EST", the one every caller
    passes) the function does return a table. *)
Theorem convert_lmps_tz_relabels (tzdb : tz_database) (df_lmp : lmp_table)
    (convert_from convert_to : string) :
  (forall out,
      convert_lmps_tz tzdb df_lmp convert_from convert_to = Ok out ->
      List.length out = List.length df_lmp /\
      map Price out = map Price df_lmp /\
      exists f : Z -> Z -> Z * Z,
        Forall2 (fun r r' => Price r' = Price r /\ (Date r', Hour r') = f (Date r) (Hour r))
          df_lmp out) /\
  (forall tz o,
      tzdb convert_from = Some tz ->
      (forall u, utcoffset tz u = o) -> tz_offsets tz = [o] ->
      tzdb "US/Central" <> None -> tzdb "US/Eastern" <> None ->
      exists out, convert_lmps_tz tzdb df_lmp convert_from convert_to = Ok out).
Proof.
  split.
  - intros out H. unfold convert_lmps_tz in H.
    destruct (timezone tzdb convert_from) as [tz_from | e]; simpl in H; [| discriminate].
    match type of H with
    | context [mapM ?f ?l] => destruct (mapM f l) as [localized | e] eqn:Em
    end; simpl in H; [| discriminate].
    match type of H with
    | context [bind ?c _] => destruct c as [tz | e]
    end; simpl in H; [| discriminate].
    inversion H; subst out; clear H.
    pose proof (convert_rows tz_from tz df_lmp localized Em) as HF.
    split; [| split].
    + symmetry. eapply Forall2_length. exact HF.
    + clear Em. induction HF as [| r r' l l' [Hp _] _ IH]; simpl; [reflexivity |].
      now rewrite Hp, IH.
    + exists (relabel tz_from tz). exact HF.
  - intros tz o Htz Hfix Hoff Hc He. unfold convert_lmps_tz, timezone.
    rewrite Htz. simpl.
    match goal with
    | |- context [mapM ?f ?l] => destruct (mapM_total f l) as [localized ->]
    end.
    + intros [t p] _. simpl. unfold tz_localize. rewrite Hoff. simpl.
      rewrite Hfix, Z.eqb_refl. eexists. reflexivity.
    + simpl.
      destruct (String.eqb convert_to "CPT");
        [destruct (tzdb "US/Central"); [| contradiction]
        | destruct (String.eqb convert_to "EPT");
          [destruct (tzdb "US/Eastern"); [| contradiction] |]];
        simpl; eexists; reflexivity.
Qed.

Lemma convert_lmps_tz_relabels_witness :
  (forall out,
      convert_lmps_tz us_tzdb [july_row] "EST" "EPT" = Ok out ->
      List.length out = List.length [july_row] /\
      map Price out = map Price [july_row] /\
      exists f : Z -> Z -> Z * Z,
        Forall2 (fun r r' => Price r' = Price r /\ (Date r', Hour r') = f (Date r) (Hour r))
          [july_row] out) /\
  exists out, convert_lmps_tz us_tzdb [july_row] "EST" "EPT" = Ok out.
Proof.
  destruct (convert_lmps_tz_relabels us_tzdb [july_row] "EST" "EPT") as [H1 H2].
  split; [exact H1 |].
  apply (H2 {| utcoffset := fun _ => -5; tz_offsets := [-5] |} (-5)).
  - reflexivity.
  - reflexivity.
  - reflexivity.
  - discriminate.
  - discriminate.
Defined.

Lemma tz_localize_offset (tz : tzinfo) (naive u : Z) :
  tz_localize tz naive = Ok u -> utcoffset tz u = naive - u.
Proof.
  unfold tz_localize. intros H.
  destruct (filter (fun o => utcoffset tz (naive - o) =? o) (tz_offsets tz))
    as [| o [| o' l]] eqn:Ef; try discriminate.
  inversion H; subst u; clear H.
  assert (Hin : In o (filter (fun o => utcoffset tz (naive - o) =? o) (tz_offsets tz)))
    by (rewrite Ef; now left).
  apply filter_In in Hin. destruct Hin as [_ Hp]. apply Z.eqb_eq in Hp. lia.
Qed.

Lemma tz_localize_wall_clock (tz : tzinfo) (naive u : Z) :
  tz_localize tz naive = Ok u -> wall_clock tz u = naive.
Proof.
  intros H. apply tz_localize_offset in H. unfold wall_clock. lia.
Qed.

Lemma row_of_naive_datetime (r : lmp_row) :
  1 <= Hour r <= 24 -> row_of_wall_clock (naive_datetime r) (Price r) = r.
Proof.
  intros H. destruct r as [d h p]. unfold row_of_wall_clock, naive_datetime. simpl in *.
  f_equal; Z.to_euclidean_division_equations; lia.
Qed.

(** A call that names no supported target ([convert_to] other than 'CPT' and
    'EPT') converts nothing: the table comes back with the labels it had. *)
Lemma convert_lmps_tz_no_target (tzdb : tz_database) (df : lmp_table)
    (convert_from convert_to : string) (tz : tzinfo) :
  tzdb convert_from = Some tz ->
  convert_to <> "CPT" -> convert_to <> "EPT" ->
  (forall r, In r df -> 1 <= Hour r <= 24) ->
  (forall r, In r df -> exists u, tz_localize tz (naive_datetime r) = Ok u) ->
  convert_lmps_tz tzdb df convert_from convert_to = Ok df.
Proof.
  intros Htz Hc He Hh Hl. unfold convert_lmps_tz, timezone. rewrite Htz. simpl.
  apply String.eqb_neq in Hc, He. rewrite Hc, He.
  induction df as [| r df IH]; simpl; [reflexivity |].
  destruct (Hl r (or_introl eq_refl)) as [u Hu]. rewrite Hu. simpl.
  assert (IH' : forall r, In r df -> 1 <= Hour r <= 24) by (intros; apply Hh; now right).
  assert (IH'' : forall r, In r df -> exists u, tz_localize tz (naive_datetime r) = Ok u)
    by (intros; apply Hl; now right).
  specialize (IH IH' IH'').
  match goal with
  | |- context [mapM ?f ?l] => destruct (mapM f l) as [us | e]
  end; simpl in IH |- *; [| discriminate].
  inversion IH as [IHeq]. rewrite IHeq.
  rewrite (tz_localize_wall_clock tz _ _ Hu), row_of_naive_datetime; [reflexivity |].
  apply Hh. now left.
Qed.

(** A conversion between two zones that are on the same offset at every row
    keeps the labels. *)
Lemma convert_lmps_tz_same_offset (tzdb : tz_database) (df : lmp_table)
    (convert_from code name : string) (tz_src tz_tgt : tzinfo) (o : Z) :
  tzdb convert_from = Some tz_src ->
  (forall u, utcoffset tz_src u = o) -> tz_offsets tz_src = [o] ->
  (code = "EPT" /\ name = "US/Eastern") \/ (code = "CPT" /\ name = "US/Central") ->
  tzdb name = Some tz_tgt ->
  (forall r, In r df -> 1 <= Hour r <= 24) ->
  (forall r, In r df -> utcoffset tz_tgt (naive_datetime r - o) = o) ->
  convert_lmps_tz tzdb df convert_from code = Ok df.
Proof.
  intros Hsrc Hfix Hoff Hcode Htgt Hh Hsame.
  unfold convert_lmps_tz, timezone. rewrite Hsrc. simpl.
  assert (Hz : (if String.eqb code "CPT" then of_option (tzdb "US/Central")
                                                (UnknownTimeZoneError "US/Central")
                else if String.eqb code "EPT" then of_option (tzdb "US/Eastern")
                                                     (UnknownTimeZoneError "US/Eastern")
                else Ok tz_src) = Ok tz_tgt).
  { destruct Hcode as [[-> ->] | [-> ->]]; simpl; now rewrite Htgt. }
  rewrite Hz. clear Hz.
  induction df as [| r df IH]; simpl; [reflexivity |].
  unfold tz_localize at 1. rewrite Hoff. simpl. rewrite Hfix, Z.eqb_refl. simpl.
  assert (IH' : forall r, In r df -> 1 <= Hour r <= 24) by (intros; apply Hh; now right).
  assert (IH'' : forall r, In r df -> utcoffset tz_tgt (naive_datetime r - o) = o)
    by (intros; apply Hsame; now right).
  specialize (IH IH' IH'').
  match goal with
  | |- context [mapM ?f ?l] => destruct (mapM f l) as [us | e]
  end; simpl in IH |- *; [| discriminate].
  inversion IH as [IHeq]. rewrite IHeq.
  unfold wall_clock. rewrite (Hsame r (or_introl eq_refl)).
  replace (naive_datetime r - o + o) with (naive_datetime r) by lia.
  rewrite row_of_naive_datetime; [reflexivity |]. apply Hh. now left.
Qed.

(** C6, as the code has it.  From a fixed-offset source convention to the
    target zone and back (the second call names the target zone as
    [convert_from] and the source as [convert_to]), the round trip reproduces
    the original rows when every wall-clock time of the series is valid and
    unambiguous in the target zone and the target zone is there on the source's
    offset (EST to EPT outside daylight-saving time). *)
Theorem convert_lmps_tz_round_trip_standard_time (tzdb : tz_database)
    (df : lmp_table) (src code name : string) (tz_src tz_tgt : tzinfo) (o : Z) :
  tzdb src = Some tz_src ->
  (forall u, utcoffset tz_src u = o) -> tz_offsets tz_src = [o] ->
  (code = "EPT" /\ name = "US/Eastern") \/ (code = "CPT" /\ name = "US/Central") ->
  tzdb name = Some tz_tgt ->
  src <> "CPT" -> src <> "EPT" ->
  (forall r, In r df -> 1 <= Hour r <= 24) ->
  (forall r, In r df ->
             tz_localize tz_tgt (naive_datetime r) = Ok (naive_datetime r - o)) ->
  exists fwd,
    convert_lmps_tz tzdb df src code = Ok fwd /\
    convert_lmps_tz tzdb fwd name src = Ok df.
Proof.
  intros Hsrc Hfix Hoff Hcode Htgt Hc He Hh Hloc.
  exists df. split.
  - apply (convert_lmps_tz_same_offset tzdb df src code name tz_src tz_tgt o);
      try assumption.
    intros r Hr. pose proof (tz_localize_offset _ _ _ (Hloc r Hr)). lia.
  - apply (convert_lmps_tz_no_target tzdb df name src tz_tgt); try assumption.
    intros r Hr. eexists. apply Hloc. exact Hr.
Qed.

Lemma convert_lmps_tz_round_trip_standard_time_witness :
  exists fwd,
    convert_lmps_tz us_tzdb [january_row] "EST" "EPT" = Ok fwd /\
    convert_lmps_tz us_tzdb fwd "US/Eastern" "EST" = Ok [january_row].
Proof.
  apply (convert_lmps_tz_round_trip_standard_time us_tzdb [january_row]
           "EST" "EPT" "US/Eastern"
           {| utcoffset := fun _ => -5; tz_offsets := [-5] |}
           {| utcoffset := us_utcoffset (-5); tz_offsets := [-5; -4] |} (-5)).
  - reflexivity.
  - reflexivity.
  - reflexivity.
  - left. split; reflexivity.
  - reflexivity.
  - discriminate.
  - discriminate.
  - intros r [<- | []]. simpl. lia.
  - intros r [<- | []]. vm_compute. reflexivity.
Defined.

(** C6 as stated fails.  2024-07-10 is not a DST-transition day; the row
    (2024-07-10, hour 5) goes from EST to (2024-07-10, hour 6) in EPT, and the
    call back from the target zone to "EST" returns hour 6, not hour 5. *)
Lemma convert_lmps_tz_round_trip_fails_in_summer :
  spring_dst 2024 = Ok (make 2024 3 10) /\
  fall_dst 2024 = Ok (make 2024 11 3) /\
  exists fwd back,
    convert_lmps_tz us_tzdb [july_row] "EST" "EPT" = Ok fwd /\
    convert_lmps_tz us_tzdb fwd "US/Eastern" "EST" = Ok back /\
    map Hour back = [6] /\
    back <> [july_row].
Proof.
  split; [reflexivity |]. split; [reflexivity |].
  exists [{| Date := make 2024 7 10; Hour := 6; Price := 30 |}],
         [{| Date := make 2024 7 10; Hour := 6; Price := 30 |}].
  split; [vm_compute; reflexivity |]. split; [vm_compute; reflexivity |].
  split; [reflexivity |]. intros H. inversion H.
Qed.

End Rebasing.

(** ** Claims on the shaper *)

Section ShaperNormalization.

Import pd shapers.

Local Open Scope Q_scope.

Lemma Qsum_ext {A : Type} (f g : A -> Q) (l : list A) :
  (forall a, In a l -> f a == g a) -> Qsum (map f l) == Qsum (map g l).
Proof.
  induction l as [| a l IH]; simpl; intros H; [reflexivity |].
  rewrite (H a (or_introl eq_refl)), IH; [reflexivity |].
  intros x Hx. apply H. now right.
Qed.

Lemma Qsum_scale {A : Type} (f : A -> Q) (c : Q) (l : list A) :
  Qsum (map (fun a => f a * c) l) == Qsum (map f l) * c.
Proof.
  induction l as [| a l IH]; simpl; [ring |]. rewrite IH. ring.
Qed.

Lemma Qsum_plus {A : Type} (f g : A -> Q) (l : list A) :
  Qsum (map (fun a => f a + g a) l) == Qsum (map f l) + Qsum (map g l).
Proof.
  induction l as [| a l IH]; simpl; [ring |]. rewrite IH. ring.
Qed.

Lemma Qsum_zero {A : Type} (f : A -> Q) (l : list A) :
  (forall a, In a l -> f a == 0) -> Qsum (map f l) == 0.
Proof.
  induction l as [| a l IH]; simpl; intros H; [reflexivity |].
  rewrite (H a (or_introl eq_refl)), IH; [ring |].
  intros x Hx. apply H. now right.
Qed.

(** In a duplicate-free list of hours, the hour [h0] is counted once. *)
Lemma Qsum_indicator (hs : list Z) (h0 : Z) (p : Q) :
  NoDup hs -> In h0 hs ->
  Qsum (map (fun h => if (h0 =? h)%Z then p else 0) hs) == p.
Proof.
  induction hs as [| h hs IH]; simpl; intros Hnd Hin; [contradiction |].
  inversion Hnd as [| x l Hnotin Hnd']; subst.
  destruct Hin as [-> | Hin].
  - rewrite Z.eqb_refl. rewrite Qsum_zero; [ring |].
    intros a Ha. destruct (h0 =? a)%Z eqn:E; [| reflexivity].
    apply Z.eqb_eq in E. subst. contradiction.
  - destruct (h0 =? h)%Z eqn:E.
    + apply Z.eqb_eq in E. subst. contradiction.
    + rewrite IH by assumption. ring.
Qed.

(** Splitting a group by hour and summing over the hours gives the sum over
    the group. *)
Lemma Qsum_by_hour (f : block_row -> Q) (g : list block_row) (hs : list Z) :
  NoDup hs -> (forall r, In r g -> In (Hour (obs r)) hs) ->
  Qsum (map (fun h => Qsum (map f (filter (fun r => (Hour (obs r) =? h)%Z) g))) hs)
  == Qsum (map f g).
Proof.
  intros Hnd. induction g as [| r g IH]; intros Hin.
  - simpl. apply Qsum_zero. reflexivity.
  - simpl.
    rewrite (Qsum_ext _ (fun h => (if (Hour (obs r) =? h)%Z then f r else 0)
                                  + Qsum (map f (filter (fun r => (Hour (obs r) =? h)%Z) g)))).
    + rewrite Qsum_plus, IH by (intros x Hx; apply Hin; now right).
      rewrite Qsum_indicator; [reflexivity | assumption | apply Hin; now left].
    + intros h _. destruct (Hour (obs r) =? h)%Z; simpl; ring.
Qed.

Lemma Qlen_as_sum {A : Type} (l : list A) : Qlen l == Qsum (map (fun _ => 1) l).
Proof.
  unfold Qlen. induction l as [| a l IH]; [reflexivity |].
  cbn [List.length map Qsum fold_right]. fold (Qsum (map (fun _ : A => 1) l)).
  rewrite <- IH. rewrite Nat2Z.inj_succ. unfold Z.succ.
  rewrite inject_Z_plus. ring.
Qed.

Lemma filter_in_hour (df : list block_row) (m : Z) (b : string) (h : Z) :
  filter (in_hour m b h) df
  = filter (fun r => (Hour (obs r) =? h)%Z) (filter (in_block m b) df).
Proof.
  induction df as [| r df IH]; simpl; [reflexivity |].
  unfold in_hour at 1. destruct (in_block m b r); simpl.
  - destruct (Hour (obs r) =? h)%Z; [f_equal |]; exact IH.
  - exact IH.
Qed.

Lemma mean_some (l : list Q) : l <> [] -> mean l = Some (Qsum l / Qlen l).
Proof. destruct l; [contradiction | reflexivity]. Qed.

Lemma Qlen_pos_nonempty {A : Type} (l : list A) : 0 < Qlen l -> l <> [].
Proof. intros H ->. unfold Qlen in H. simpl in H. discriminate H. Qed.

Lemma mean_inv (l : list Q) (mu : Q) :
  mean l = Some mu -> l <> [] /\ mu = Qsum l / Qlen l.
Proof.
  destruct l; simpl; intros H; [discriminate |].
  inversion H. split; [discriminate | reflexivity].
Qed.

Lemma Qlen_map {A B : Type} (f : A -> B) (l : list A) : Qlen (map f l) = Qlen l.
Proof. unfold Qlen. now rewrite length_map. Qed.

Lemma Qlen_pos {A : Type} (l : list A) : l <> [] -> 0 < Qlen l.
Proof.
  destruct l; [contradiction |]. intros _. unfold Qlen. cbn [List.length].
  change 0 with (inject_Z 0). rewrite <- Zlt_Qlt. lia.
Qed.

Lemma map_nonempty {A B : Type} (f : A -> B) (l : list A) : l <> [] -> map f l <> [].
Proof. destruct l; [contradiction | discriminate]. Qed.

Lemma Qlen_nonneg {A : Type} (l : list A) : 0 <= Qlen l.
Proof.
  unfold Qlen. change 0 with (inject_Z 0). rewrite <- Zle_Qle. lia.
Qed.

Lemma Qeq_bool_false (x y : Q) : ~ x == y -> Qeq_bool x y = false.
Proof.
  intros H. destruct (Qeq_bool x y) eqn:E; [| reflexivity].
  apply Qeq_bool_eq in E. contradiction.
Qed.

Lemma weighted_sum_some {A : Type} (c x : A -> Q) (l : list A) :
  weighted_sum (map (fun a => (c a, Some (x a))) l)
  = Some (Qsum (map (fun a => c a * x a) l)).
Proof.
  induction l as [| a l IH]; simpl; [reflexivity |]. now rewrite IH.
Qed.

(** The normalization at the level of the labelled observations. *)
Lemma hourly_ratio_weighted_mean (df : list block_row) (m : Z) (b : string)
    (hs : list Z) (mu : Q) :
  NoDup hs ->
  (forall r, In r df -> in_block m b r = true -> In (Hour (obs r)) hs) ->
  (forall h, In h hs -> 0 < hour_count df m b h) ->
  avg_peak_block df m b = Some mu -> ~ mu == 0 ->
  exists w,
    weighted_mean (map (fun h => (hour_count df m b h, hourly_ratio df m b h)) hs)
    = Some w /\ w == 1.
Proof.
  intros Hnd Hcover Hcount Hmu Hnz.
  set (g := filter (in_block m b) df).
  set (gh := fun h => filter (fun r => (Hour (obs r) =? h)%Z) g).
  assert (Hg : forall r, In r g -> In (Hour (obs r)) hs).
  { intros r Hr. apply filter_In in Hr. destruct Hr. now apply Hcover. }
  assert (Hcnt : forall h, hour_count df m b h = Qlen (gh h)).
  { intros h. unfold hour_count. now rewrite filter_in_hour. }
  (* the block mean *)
  unfold avg_peak_block in Hmu. fold g in Hmu. fold price_of in Hmu.
  change (fun r : block_row => Price (obs r)) with price_of in Hmu.
  apply mean_inv in Hmu. destruct Hmu as [Hne Hmu'].
  assert (Hgne : g <> []) by (intros E; apply Hne; now rewrite E).
  rewrite Qlen_map in Hmu'.
  (* each hourly ratio is a number *)
  set (x := fun h => (Qsum (map price_of (gh h)) / Qlen (gh h)) / mu).
  assert (Hx : forall h, In h hs -> hourly_ratio df m b h = Some (x h)).
  { intros h Hh. unfold hourly_ratio, avg_hourly, avg_peak_block.
    rewrite filter_in_hour. fold g. fold (gh h).
    pose proof (Hcount h Hh) as Hpos. rewrite Hcnt in Hpos.
    apply Qlen_pos_nonempty in Hpos.
    change (fun r : block_row => Price (obs r)) with price_of.
    rewrite mean_some by (apply map_nonempty; exact Hpos).
    rewrite mean_some by (apply map_nonempty; exact Hgne).
    unfold fdiv. rewrite !Qlen_map.
    rewrite <- Hmu'. rewrite (Qeq_bool_false _ _ Hnz). reflexivity. }
  rewrite (map_ext_in _ (fun h => (Qlen (gh h), Some (x h)))).
  2:{ intros h Hh. now rewrite Hcnt, Hx. }
  unfold weighted_mean. rewrite weighted_sum_some, map_map. cbn [fst].
  (* the sums *)
  assert (HN : Qsum (map (fun h => Qlen (gh h)) hs) == Qlen g).
  { rewrite (Qsum_ext _ (fun h => Qsum (map (fun _ => 1) (gh h))))
      by (intros; apply Qlen_as_sum).
    unfold gh. rewrite Qsum_by_hour by assumption. symmetry. apply Qlen_as_sum. }
  assert (HS : Qsum (map (fun h => Qlen (gh h) * x h) hs)
               == Qsum (map price_of g) * / mu).
  { rewrite (Qsum_ext _ (fun h => Qsum (map price_of (gh h)) * / mu)).
    - rewrite Qsum_scale. unfold gh. rewrite Qsum_by_hour by assumption. reflexivity.
    - intros h Hh. unfold x.
      pose proof (Hcount h Hh) as Hpos. rewrite Hcnt in Hpos.
      field. split; [assumption |]. intros E. rewrite E in Hpos.
      discriminate Hpos. }
  assert (HNpos : 0 < Qlen g) by (apply Qlen_pos; exact Hgne).
  assert (HNnz : ~ Qlen g == 0).
  { intros E. rewrite E in HNpos. discriminate HNpos. }
  assert (HSnz : ~ Qsum (map price_of g) == 0).
  { intros E. apply Hnz. rewrite Hmu', E. field. exact HNnz. }
  unfold fdiv. rewrite Qeq_bool_false by (rewrite HN; exact HNnz).
  eexists. split; [reflexivity |].
  rewrite HS, HN, Hmu'. field. split; assumption.
Qed.

(** A cell of the hourly shaper is the ratio computed on the labelled
    observations. *)
Lemma hourly_shaper_cell (tzdb : tz_database) (lmp : lmp_table) (iso : string)
    (lookback_yrs : Z) (clip_quantile : Q) (shaper : frame Z shaper_column)
    (df : list block_row) (m : Z) (b : string) (h : Z) :
  pull_lmp_and_calc_shaper tzdb lmp iso true lookback_yrs clip_quantile = Ok shaper ->
  observations tzdb lmp iso clip_quantile = Ok df ->
  cell shaper m (HourCol b h) = hourly_ratio df m b h.
Proof.
  intros Hrun Hobs. unfold pull_lmp_and_calc_shaper in Hrun.
  repeat match type of Hrun with
         | (if ?c then Raise _ else _) = Ok _ =>
             destruct c; [discriminate Hrun |]
         end.
  rewrite Hobs in Hrun. simpl in Hrun. inversion Hrun; subst shaper; clear Hrun.
  reflexivity.
Qed.

(** C4, as the code has it.  In the hourly shaper returned by
    [pull_lmp_and_calc_shaper], for every (Month, Peak Block) group whose hours
    [hs] all have at least one observation and whose block mean price is not
    zero, the average of the shaper's hourly ratios weighted by each hour's
    observation count is 1. *)
Theorem shaper_weighted_mean_is_one (tzdb : tz_database) (lmp : lmp_table)
    (iso : string) (lookback_yrs : Z) (clip_quantile : Q)
    (shaper : frame Z shaper_column) (df : list block_row)
    (m : Z) (b : string) (hs : list Z) (mu : Q) :
  pull_lmp_and_calc_shaper tzdb lmp iso true lookback_yrs clip_quantile = Ok shaper ->
  observations tzdb lmp iso clip_quantile = Ok df ->
  NoDup hs ->
  (forall r, In r df -> in_block m b r = true -> In (Hour (obs r)) hs) ->
  (forall h, In h hs -> 0 < hour_count df m b h) ->
  avg_peak_block df m b = Some mu -> ~ mu == 0 ->
  exists w,
    weighted_mean
      (map (fun h => (hour_count df m b h, cell shaper m (HourCol b h))) hs)
    = Some w /\ w == 1.
Proof.
  intros Hrun Hobs Hnd Hcover Hcount Hmu Hnz.
  rewrite (map_ext _ (fun h => (hour_count df m b h, hourly_ratio df m b h))).
  - now apply hourly_ratio_weighted_mean with (mu := mu).
  - intros h. f_equal.
    exact (hourly_shaper_cell tzdb lmp iso lookback_yrs clip_quantile shaper df
             m b h Hrun Hobs).
Qed.

Ltac in_concrete_list H :=
  simpl in H; repeat (destruct H as [<- | H]; [simpl; tauto |]); contradiction.

Lemma on_peak_hours_NoDup : NoDup on_peak_hours.
Proof.
  unfold on_peak_hours.
  repeat (constructor;
          [intros H; simpl in H;
           repeat (destruct H as [H | H]; [discriminate H |]); exact H |]).
  constructor.
Qed.

Lemma shaper_weighted_mean_is_one_witness :
  exists shaper df,
    pull_lmp_and_calc_shaper us_tzdb (on_peak_day inject_Z) "PJM" true 2 1 = Ok shaper /\
    observations us_tzdb (on_peak_day inject_Z) "PJM" 1 = Ok df /\
    exists w,
      weighted_mean
        (map (fun h => (hour_count df 7 "5x16" h, cell shaper 7%Z (HourCol "5x16" h)))
           on_peak_hours)
      = Some w /\ w == 1.
Proof.
  destruct (pull_lmp_and_calc_shaper us_tzdb (on_peak_day inject_Z) "PJM" true 2 1)
    as [shaper | e] eqn:Hs; [| head_normalize_lhs Hs; discriminate Hs].
  destruct (observations us_tzdb (on_peak_day inject_Z) "PJM" 1)
    as [df | e] eqn:Hd; [| vm_compute in Hd; discriminate Hd].
  exists shaper, df. split; [reflexivity |]. split; [reflexivity |].
  eapply (shaper_weighted_mean_is_one us_tzdb (on_peak_day inject_Z) "PJM" 2 1 shaper df
            7 "5x16" on_peak_hours _ Hs Hd);
    vm_compute in Hd; injection Hd as <-.
  - exact on_peak_hours_NoDup.
  - intros r Hr _. in_concrete_list Hr.
  - intros h Hh. unfold on_peak_hours in Hh. simpl in Hh.
    repeat (destruct Hh as [<- | Hh]; [reflexivity |]). contradiction.
  - vm_compute. reflexivity.
  - intros H. vm_compute in H. discriminate H.
Defined.

(** C4 as stated fails when the block mean is zero: with a price of 0 at each of
    the sixteen on-peak hours, every hour of the group is observed, but the
    ratios are 0/0 and their weighted average is not a number. *)
Lemma shaper_zero_block_mean_not_normalized :
  exists shaper df,
    pull_lmp_and_calc_shaper us_tzdb (on_peak_day (fun _ => 0)) "PJM" true 2 1
    = Ok shaper /\
    observations us_tzdb (on_peak_day (fun _ => 0)) "PJM" 1 = Ok df /\
    (forall r, In r df -> in_block 7 "5x16" r = true -> In (Hour (obs r)) on_peak_hours) /\
    (forall h, In h on_peak_hours -> 0 < hour_count df 7 "5x16" h) /\
    (forall h, In h on_peak_hours -> cell shaper 7%Z (HourCol "5x16" h) = None) /\
    weighted_mean
      (map (fun h => (hour_count df 7 "5x16" h, cell shaper 7%Z (HourCol "5x16" h)))
         on_peak_hours)
    = None.
Proof.
  destruct (pull_lmp_and_calc_shaper us_tzdb (on_peak_day (fun _ => 0)) "PJM" true 2 1)
    as [shaper | e] eqn:Hs; [| head_normalize_lhs Hs; discriminate Hs].
  destruct (observations us_tzdb (on_peak_day (fun _ => 0)) "PJM" 1)
    as [df | e] eqn:Hd; [| vm_compute in Hd; discriminate Hd].
  exists shaper, df. split; [reflexivity |]. split; [reflexivity |].
  pose proof (fun h => hourly_shaper_cell us_tzdb (on_peak_day (fun _ => 0)) "PJM"
                         2 1 shaper df 7 "5x16" h Hs Hd) as Hcell.
  clear Hs. vm_compute in Hd; injection Hd as <-.
  split; [| split; [| split]].
  - intros r Hr _. in_concrete_list Hr.
  - intros h Hh. unfold on_peak_hours in Hh. simpl in Hh.
    repeat (destruct Hh as [<- | Hh]; [reflexivity |]). contradiction.
  - intros h Hh. rewrite Hcell. unfold on_peak_hours in Hh. simpl in Hh.
    repeat (destruct Hh as [<- | Hh]; [vm_compute; reflexivity |]). contradiction.
  - rewrite (map_ext _ (fun h => (hour_count _ 7 "5x16" h, hourly_ratio _ 7 "5x16" h)))
      by (intros h; now rewrite Hcell).
    vm_compute. reflexivity.
Qed.

End ShaperNormalization.


(** ** Claims on the splitter *)

Section Splitter.

Import pd splitters.

Local Open Scope Q_scope.

Variable tzdb : tz_database.
Variable norm_pdf : Q -> Q.
Variable float_pow : Q -> Q -> Q.

(** C1, what the code does.  For the markets other than MISO that pass the
    assertions, [pull_lmp_and_calc_splitter] returns no splitter at all: the
    whole computation, with the binding of [splitter_dict], is under
    [if iso == 'MISO':], and the call raises [UnboundLocalError] when it builds
    the frame from [splitter_dict], whatever the price table. *)
Theorem splitter_raises_unless_MISO (lmp : lmp_table) (iso : string) (eval_dt : Z)
    (lookback_yrs : Z) (clip_quantile : Q) :
  In iso ["PJM"; "ISONE"; "SPP"; "CAISO"] ->
  0 < clip_quantile -> clip_quantile <= 1 -> (1 <= lookback_yrs)%Z ->
  pull_lmp_and_calc_splitter tzdb norm_pdf float_pow lmp iso eval_dt lookback_yrs
    clip_quantile = Raise (UnboundLocalError "splitter_dict").
Proof.
  intros Hiso Hq0 Hq1 Hl. unfold pull_lmp_and_calc_splitter.
  assert (E0 : Qle_bool clip_quantile 0 = false).
  { destruct (Qle_bool clip_quantile 0) eqn:E; [| reflexivity].
    apply Qle_bool_iff in E. lra. }
  assert (E1 : Qle_bool clip_quantile 1 = true) by now apply Qle_bool_iff.
  assert (E2 : (1 <=? lookback_yrs)%Z = true) by now apply Z.leb_le.
  rewrite E0, E1, E2. simpl in Hiso.
  destruct Hiso as [<- | [<- | [<- | [<- | []]]]]; reflexivity.
Qed.

(** When the computation does run (MISO), the returned frame has the months
    1..12, in order. *)
Lemma splitter_MISO_months (lmp : lmp_table) (eval_dt : Z) (lookback_yrs : Z)
    (clip_quantile : Q) (out : list (Z * option Q)) :
  pull_lmp_and_calc_splitter tzdb norm_pdf float_pow lmp "MISO" eval_dt lookback_yrs
    clip_quantile = Ok out ->
  map fst out = arange_1_13.
Proof.
  unfold pull_lmp_and_calc_splitter. intros H.
  repeat match type of H with
         | (if ?c then Raise _ else _) = Ok _ => destruct c; [discriminate H |]
         end.
  cbn [String.eqb Ascii.eqb Bool.eqb] in H.
  destruct (daily_table tzdb float_pow lmp "MISO" eval_dt clip_quantile)
    as [df | e]; cbn [bind] in H; [| discriminate H].
  apply mapM_Forall2 in H. revert H. generalize arange_1_13. intros ms H.
  induction H as [| m [m' v] l l' Hm _ IH]; simpl; [reflexivity |].
  f_equal; [| exact IH].
  unfold splitter_of_month in Hm.
  destruct (weighted_rows norm_pdf df m); simpl in Hm; [| discriminate Hm].
  now inversion Hm.
Qed.

End Splitter.

Section SplitterAverages.

Import pd splitters.

Local Open Scope Q_scope.

Lemma splitter_raises_unless_MISO_witness :
  pull_lmp_and_calc_splitter us_tzdb (fun _ => 1) (fun _ _ => 1) (on_peak_day inject_Z)
    "PJM" (Timestamp.make 2024 8 5) 2 1 = Raise (UnboundLocalError "splitter_dict").
Proof.
  apply (splitter_raises_unless_MISO us_tzdb (fun _ => 1) (fun _ _ => 1)
           (on_peak_day inject_Z) "PJM" (Timestamp.make 2024 8 5) 2 1).
  - simpl. tauto.
  - reflexivity.
  - discriminate.
  - lia.
Defined.

(** C7, what the code does.  On [wednesday_without_off], evaluated on
    2024-02-05 for the January splitter, Wednesday has no Off value and
    Saturday's is 15.  The 2x16 average leaves Wednesday out of both sums, but
    the Off average keeps Wednesday's weight in its denominator: it is below
    the 15 that the average over the days with an Off value gives. *)
Theorem splitter_off_average_keeps_days_without_off
    (norm_pdf : Q -> Q) (float_pow : Q -> Q -> Q) :
  (forall x, 0 < norm_pdf x) ->
  (forall x, 0 < float_pow (1 # 2) x) ->
  exists df_daily rows v,
    daily_table us_tzdb float_pow wednesday_without_off "MISO"
      (Timestamp.make 2024 2 5) 1 = Ok df_daily /\
    map Off (days df_daily) = [None; Some (30 # 2)] /\
    map col_2x16 (days df_daily) = [None; Some 20] /\
    weighted_rows norm_pdf df_daily 1 = Ok rows /\
    avg_2x16 rows = Some ((20 * (norm_pdf 0 * float_pow (1 # 2) (388 # 365)) + 0)
                          / (norm_pdf 0 * float_pow (1 # 2) (388 # 365) + 0)) /\
    avg_off rows = Some v /\
    (exists v', avg_off_over_days_with_off rows = Some v' /\ v' == 15) /\
    v < 15.
Proof.
  intros Hpdf Hpow.
  pose proof (Hpdf 0) as Hk.
  pose proof (Hpow (391 # 365)) as HdW.
  pose proof (Hpow (388 # 365)) as HdS.
  pose proof (Qmult_lt_0_compat _ _ Hk HdW) as Hb.
  pose proof (Qmult_lt_0_compat _ _ Hk HdS) as Ha.
  eexists. eexists. eexists.
  split; [vm_compute; reflexivity |].
  split; [reflexivity |]. split; [reflexivity |].
  split; [vm_compute; reflexivity |].
  unfold avg_2x16, avg_off, avg_off_over_days_with_off.
  cbn [map filter dropna flat_map app Off_weighted_price weighted_price_2x16
       fmul base Off col_2x16 notnull Qsum fold_right].
  unfold weight_2x16, Off_peak_weight.
  cbn [base Kernel_Weight Decay_Factor Off_peak_day_weight].
  set (k := norm_pdf 0) in *.
  set (dW := float_pow (1 # 2) (391 # 365)) in *.
  set (dS := float_pow (1 # 2) (388 # 365)) in *.
  unfold fdiv.
  rewrite (Qeq_bool_false (k * dS + 0) 0) by lra.
  rewrite (Qeq_bool_false (k * dW * (1 # 3) + (k * dS * 1 + 0)) 0) by lra.
  rewrite (Qeq_bool_false (k * dS * 1 + 0) 0) by lra.
  split; [reflexivity |].
  split; [reflexivity |].
  split.
  - eexists. split; [reflexivity |]. field. lra.
  - apply Qlt_shift_div_r; subst k dW dS;
      set (a := norm_pdf 0 * float_pow (1 # 2) (388 # 365)) in *;
      set (b := norm_pdf 0 * float_pow (1 # 2) (391 # 365)) in *;
      clearbody a b; lra.
Qed.

Lemma splitter_off_average_keeps_days_without_off_witness :
  exists df_daily rows v,
    daily_table us_tzdb (fun _ _ => 1 # 2) wednesday_without_off "MISO"
      (Timestamp.make 2024 2 5) 1 = Ok df_daily /\
    map Off (days df_daily) = [None; Some (30 # 2)] /\
    map col_2x16 (days df_daily) = [None; Some 20] /\
    weighted_rows (fun _ => 1) df_daily 1 = Ok rows /\
    avg_2x16 rows = Some ((20 * (1 * (1 # 2)) + 0) / (1 * (1 # 2) + 0)) /\
    avg_off rows = Some v /\
    (exists v', avg_off_over_days_with_off rows = Some v' /\ v' == 15) /\
    v < 15.
Proof.
  apply (splitter_off_average_keeps_days_without_off (fun _ => 1) (fun _ _ => 1 # 2)).
  - intros x. reflexivity.
  - intros x. reflexivity.
Defined.

Lemma dropna_map_filter {A : Type} (f : A -> option Q) (g : A -> bool) (l : list A) :
  (forall a, g a = false -> f a = None) ->
  dropna (map f l) = dropna (map f (filter g l)).
Proof.
  intros H. unfold dropna. induction l as [| a l IH]; [reflexivity |].
  cbn [map filter flat_map]. destruct (g a) eqn:E.
  - cbn [map flat_map]. now rewrite IH.
  - rewrite (H a E). exact IH.
Qed.

Lemma filter_idem {A : Type} (g : A -> bool) (l : list A) :
  filter g (filter g l) = filter g l.
Proof.
  induction l as [| a l IH]; [reflexivity |].
  cbn [filter]. destruct (g a) eqn:E; [cbn [filter]; rewrite E; f_equal |]; exact IH.
Qed.

(** The 2x16 average is the average over the days that have a 2x16 value: a day
    without one is in neither sum. *)
Lemma avg_2x16_over_days_with_2x16 (rows : list weighted_row) :
  avg_2x16 rows = avg_2x16 (filter (fun r => notnull (col_2x16 (base r))) rows).
Proof.
  unfold avg_2x16. rewrite filter_idem.
  rewrite (dropna_map_filter weighted_price_2x16
             (fun r => notnull (col_2x16 (base r))) rows); [reflexivity |].
  intros r Hr. unfold weighted_price_2x16.
  destruct (col_2x16 (base r)); [discriminate Hr | reflexivity].
Qed.

(** The Off average leaves a day without an Off value out of its numerator,
    but sums its weights over every day of the table. *)
Lemma avg_off_denominator_all_days (rows : list weighted_row) :
  avg_off rows
  = fdiv (Some (Qsum (dropna (map Off_weighted_price
                                (filter (fun r => notnull (Off (base r))) rows)))))
         (Some (Qsum (map Off_peak_weight rows))).
Proof.
  unfold avg_off.
  rewrite (dropna_map_filter Off_weighted_price
             (fun r => notnull (Off (base r))) rows); [reflexivity |].
  intros r Hr. unfold Off_weighted_price.
  destruct (Off (base r)); [discriminate Hr | reflexivity].
Qed.

End SplitterAverages.

(** ** Calendar arithmetic *)

Section CalendarArithmetic.

(** The year of the era is read back from the day of the era. *)
Lemma yoe_of_doe (yoe doy : Z) :
  0 <= yoe < 400 -> 0 <= doy <= 364 ->
  let doe := yoe * 365 + yoe / 4 - yoe / 100 + doy in
  (doe - doe / 1460 + doe / 36524 - doe / 146096) / 365 = yoe.
Proof.
  intros Hy Hd doe. subst doe.
  Z.to_euclidean_division_equations; lia.
Qed.

(** The month (counted from March) is read back from the day of the year. *)
Lemma mp_of_doy (mp dd : Z) :
  0 <= mp <= 11 ->
  0 <= dd < (let m := if mp <? 10 then mp + 3 else mp - 9 in
             if m =? 2 then 28
             else if (m =? 4) || (m =? 6) || (m =? 9) || (m =? 11) then 30 else 31) ->
  let doy := (153 * mp + 2) / 5 + dd in
  0 <= doy <= 364 /\ (5 * doy + 2) / 153 = mp.
Proof.
  intros Hmp Hdd doy. subst doy.
  assert (mp = 0 \/ mp = 1 \/ mp = 2 \/ mp = 3 \/ mp = 4 \/ mp = 5 \/ mp = 6 \/
          mp = 7 \/ mp = 8 \/ mp = 9 \/ mp = 10 \/ mp = 11) as Hc by lia.
  repeat (destruct Hc as [-> | Hc]); try subst mp;
    (match type of Hdd with
     | _ <= _ < ?n => let v := eval vm_compute in n in change n with v in Hdd
     end);
    (split; Z.to_euclidean_division_equations; lia).
Qed.

(** [Timestamp(year, month, day)] reads back as that year, month and day (on
    every date but 29 February, which no holiday function builds). *)
Lemma civil_make (y m d : Z) :
  1 <= m <= 12 ->
  1 <= d <= (if m =? 2 then 28
             else if (m =? 4) || (m =? 6) || (m =? 9) || (m =? 11) then 30 else 31) ->
  civil (make y m d) = (y, m, d).
Proof.
  intros Hm Hd. unfold make, civil.
  set (y' := if m <=? 2 then y - 1 else y).
  set (mp := if m >? 2 then m - 3 else m + 9).
  assert (Hmp : 0 <= mp <= 11) by (unfold mp; destruct (Z.gtb_spec m 2); lia).
  assert (Hmm : (if mp <? 10 then mp + 3 else mp - 9) = m).
  { unfold mp. destruct (Z.gtb_spec m 2);
      match goal with |- context [?a <? 10] => destruct (Z.ltb_spec a 10) end; lia. }
  destruct (mp_of_doy mp (d - 1) Hmp) as [Hdoy Hmpr]; [cbv zeta; rewrite Hmm; lia |].
  cbv zeta.
  set (era := y' / 400). set (yoe := y' - era * 400).
  assert (Hyoe : 0 <= yoe < 400)
    by (unfold yoe, era; Z.to_euclidean_division_equations; lia).
  replace ((153 * mp + 2) / 5 + d - 1) with ((153 * mp + 2) / 5 + (d - 1)) by lia.
  set (doy := (153 * mp + 2) / 5 + (d - 1)) in *.
  pose proof (yoe_of_doe yoe doy Hyoe Hdoy) as Hy. cbv zeta in Hy.
  set (doe := yoe * 365 + yoe / 4 - yoe / 100 + doy) in *.
  assert (Hdoe : 0 <= doe < 146097)
    by (unfold doe; Z.to_euclidean_division_equations; lia).
  replace (era * 146097 + doe - 719468 + 719468) with (doe + era * 146097) by lia.
  rewrite Z.div_add by lia. rewrite (Z.div_small doe) by lia.
  replace (doe + era * 146097 - (0 + era) * 146097) with doe by lia.
  rewrite Hy.
  replace (doe - (365 * yoe + yoe / 4 - yoe / 100)) with doy by (unfold doe; lia).
  rewrite Hmpr, Hmm.
  f_equal; [f_equal |].
  - unfold yoe, y'. destruct (Z.leb_spec m 2); lia.
  - unfold doy. lia.
Qed.

Lemma month_bounds (z : Z) : 1 <= month z <= 12.
Proof.
  unfold month, civil. cbv zeta. cbn [fst snd].
  match goal with |- context [?a <? 10] => destruct (Z.ltb_spec a 10) end;
    Z.to_euclidean_division_equations; lia.
Qed.

(** The civil-date algorithm, step by step: era, day of era, year of era, day
    of year and month counted from March. *)
Lemma civil_steps (z : Z) :
  let z' := z + 719468 in
  let era := z' / 146097 in
  let doe := z' - era * 146097 in
  let yoe := (doe - doe / 1460 + doe / 36524 - doe / 146096) / 365 in
  let doy := doe - (365 * yoe + yoe / 4 - yoe / 100) in
  let mp := (5 * doy + 2) / 153 in
  0 <= doe < 146097 /\ 0 <= yoe < 400 /\ 0 <= doy <= 365 /\ 0 <= mp <= 11 /\
  (153 * mp + 2) / 5 <= doy /\
  (mp <= 10 -> doy < (153 * (mp + 1) + 2) / 5) /\
  (yoe <= 398 -> doe < 365 * (yoe + 1) + (yoe + 1) / 4 - (yoe + 1) / 100).
Proof.
  cbv zeta.
  set (doe := z + 719468 - (z + 719468) / 146097 * 146097).
  assert (Hdoe : 0 <= doe < 146097)
    by (unfold doe; Z.to_euclidean_division_equations; lia).
  clearbody doe.
  set (yoe := (doe - doe / 1460 + doe / 36524 - doe / 146096) / 365).
  assert (Hy : 0 <= yoe < 400 /\ 0 <= doe - (365 * yoe + yoe / 4 - yoe / 100) <= 365 /\
               (yoe <= 398 -> doe < 365 * (yoe + 1) + (yoe + 1) / 4 - (yoe + 1) / 100))
    by (unfold yoe; Z.to_euclidean_division_equations; lia).
  clearbody yoe.
  set (doy := doe - (365 * yoe + yoe / 4 - yoe / 100)) in *.
  destruct Hy as [Hy [Hdoy Hnext]]. clearbody doy.
  repeat split; try lia; try (Z.to_euclidean_division_equations; lia).
Qed.


(** A date lies in its own month: from the first of the month to the day
    before the first of the next month. *)
Lemma civil_in_month (z : Z) :
  make (year z) (month z) (day z) = z /\
  1 <= day z /\
  z < (if month z =? 12 then make (year z + 1) 1 1 else make (year z) (month z + 1) 1).
Proof.
  unfold year, month, day, civil. cbv zeta. cbn [fst snd].
  pose proof (civil_steps z) as H. cbv zeta in H.
  set (era := (z + 719468) / 146097) in *.
  set (doe := z + 719468 - era * 146097) in *.
  assert (Hz : z = era * 146097 + doe - 719468) by (unfold doe; lia).
  clearbody doe era.
  set (yoe := (doe - doe / 1460 + doe / 36524 - doe / 146096) / 365) in *.
  clearbody yoe.
  set (doy := doe - (365 * yoe + yoe / 4 - yoe / 100)) in *.
  assert (Hdoe : doe = 365 * yoe + yoe / 4 - yoe / 100 + doy) by (unfold doy; lia).
  clearbody doy.
  set (mp := (5 * doy + 2) / 153) in *. clearbody mp.
  destruct H as [Hb1 [Hb2 [Hb3 [Hb4 [Hlo [Hhi Hnext]]]]]].
  assert (mp = 0 \/ mp = 1 \/ mp = 2 \/ mp = 3 \/ mp = 4 \/ mp = 5 \/ mp = 6 \/
          mp = 7 \/ mp = 8 \/ mp = 9 \/ mp = 10 \/ mp = 11) as Hc by lia.
  repeat (destruct Hc as [Hc | Hc]); subst mp; cbn [Z.ltb Z.leb Z.eqb Z.compare Pos.compare
    Pos.compare_cont Z.add Z.sub Z.opp Z.pos_sub Pos.add Pos.succ Pos.pred_double
    Pos.eqb Z.gtb Z.double Z.succ_double Z.pred_double Pos.add_carry];
    unfold make; cbv zeta;
    cbn [Z.ltb Z.leb Z.eqb Z.compare Pos.compare Pos.compare_cont Z.gtb Pos.eqb];
    (split; [| split]); try (Z.to_euclidean_division_equations; lia).
Qed.


(** The year of the era is read back from any day of that year. *)
Lemma yoe_of_doe_general (yoe doy : Z) :
  0 <= yoe < 400 -> 0 <= doy ->
  let doe := yoe * 365 + yoe / 4 - yoe / 100 + doy in
  doe < 146097 ->
  (yoe <= 398 -> doe < 365 * (yoe + 1) + (yoe + 1) / 4 - (yoe + 1) / 100) ->
  (doe - doe / 1460 + doe / 36524 - doe / 146096) / 365 = yoe.
Proof.
  intros Hy Hd doe Hdoe Hnext. subst doe.
  Z.to_euclidean_division_equations; lia.
Qed.

(** [Timestamp(year, month, day)] reads back as that year, month and day on
    every day of the month, 29 February included. *)
Lemma civil_make_general (y m d : Z) :
  1 <= m <= 12 -> 1 <= d ->
  make y m d < (if m =? 12 then make (y + 1) 1 1 else make y (m + 1) 1) ->
  civil (make y m d) = (y, m, d).
Proof.
  intros Hm Hd Hlt.
  set (y' := if m <=? 2 then y - 1 else y).
  set (mp := if m >? 2 then m - 3 else m + 9).
  set (era := y' / 400). set (yoe := y' - era * 400).
  set (doy := (153 * mp + 2) / 5 + d - 1).
  set (doe := yoe * 365 + yoe / 4 - yoe / 100 + doy).
  assert (Hmk : make y m d = era * 146097 + doe - 719468) by reflexivity.
  assert (Hyoe : 0 <= yoe < 400)
    by (unfold yoe, era; Z.to_euclidean_division_equations; lia).
  assert (Hmp : 0 <= mp <= 11) by (unfold mp; destruct (Z.gtb_spec m 2); lia).
  assert (Hmm : (if mp <? 10 then mp + 3 else mp - 9) = m).
  { unfold mp. destruct (Z.gtb_spec m 2);
      match goal with |- context [?a <? 10] => destruct (Z.ltb_spec a 10) end; lia. }
  assert (Hyy : (if m <=? 2 then yoe + era * 400 + 1 else yoe + era * 400) = y).
  { unfold yoe, y'. destruct (Z.leb_spec m 2); lia. }
  assert (Hbounds : 0 <= doy /\ (mp <= 10 -> doy < (153 * (mp + 1) + 2) / 5) /\
                    doe < 146097 /\
                    (yoe <= 398 -> doe < 365 * (yoe + 1) + (yoe + 1) / 4 - (yoe + 1) / 100)).
  { rewrite Hmk in Hlt. revert Hlt. unfold make. cbv zeta.
    unfold doe, doy. clear Hmk Hmm Hyy.
    assert (m = 1 \/ m = 2 \/ m = 3 \/ m = 4 \/ m = 5 \/ m = 6 \/ m = 7 \/ m = 8 \/
            m = 9 \/ m = 10 \/ m = 11 \/ m = 12) as Hc by lia.
    unfold mp in *. unfold yoe, era, y' in *.
    repeat (destruct Hc as [Hc | Hc]); subst m;
      cbn [Z.ltb Z.leb Z.eqb Z.compare Pos.compare Pos.compare_cont Z.gtb Pos.eqb
           Z.add Z.sub Z.opp Z.pos_sub Pos.add Pos.succ Pos.pred_double Z.double
           Z.succ_double Z.pred_double Pos.add_carry];
      intros Hlt; Z.to_euclidean_division_equations; lia. }
  destruct Hbounds as [Hd0 [Hd1 [Hdoe Hnext]]].
  pose proof (yoe_of_doe_general yoe doy Hyoe Hd0 Hdoe Hnext) as Hy. cbv zeta in Hy.
  fold doe in Hy.
  assert (Hdoe0 : 0 <= doe) by (unfold doe; Z.to_euclidean_division_equations; lia).
  assert (Hdoy365 : doy <= 365)
    by (unfold doe in *; Z.to_euclidean_division_equations; lia).
  assert (Hmpr : (5 * doy + 2) / 153 = mp).
  { assert ((153 * mp + 2) / 5 <= doy) by (unfold doy; lia).
    clear - Hmp H Hd1 Hdoy365. Z.to_euclidean_division_equations; lia. }
  rewrite Hmk. unfold civil. cbv zeta.
  replace (era * 146097 + doe - 719468 + 719468) with (doe + era * 146097) by lia.
  rewrite Z.div_add by lia. rewrite (Z.div_small doe) by lia. rewrite Z.add_0_l.
  replace (doe + era * 146097 - era * 146097) with doe by lia.
  rewrite Hy.
  replace (doe - (365 * yoe + yoe / 4 - yoe / 100)) with doy by (unfold doe; lia).
  rewrite Hmpr, Hmm, Hyy.
  f_equal. unfold doy. lia.
Qed.


Lemma make_day_shift (y m d k : Z) : make y m d + k = make y m (d + k).
Proof. unfold make. cbv zeta. destruct (m <=? 2), (m >? 2); lia. Qed.

(** The first of the month after [z], and the days of the month of [z]. *)
Lemma month_end_next (z : Z) :
  month_end z + 1
  = (if month z =? 12 then make (year z + 1) 1 1 else make (year z) (month z + 1) 1).
Proof. unfold month_end. cbv zeta. lia. Qed.

Lemma month_interval (z w : Z) :
  make (year z) (month z) 1 <= w <= month_end z ->
  year w = year z /\ month w = month z /\ day w = w - make (year z) (month z) 1 + 1.
Proof.
  intros Hw. pose proof (month_end_next z) as Hn.
  pose proof (month_bounds z) as Hm.
  assert (Hc : civil w = (year z, month z, w - make (year z) (month z) 1 + 1)).
  { replace w with (make (year z) (month z) 1 + (w - make (year z) (month z) 1)) at 1
      by lia.
    rewrite make_day_shift.
    replace (1 + (w - make (year z) (month z) 1))
      with (w - make (year z) (month z) 1 + 1) by lia.
    apply civil_make_general; [exact Hm | lia |].
    replace (make (year z) (month z) (w - make (year z) (month z) 1 + 1))
      with (make (year z) (month z) 1 + (w - make (year z) (month z) 1))
      by (rewrite make_day_shift; f_equal; lia).
    rewrite <- Hn. lia. }
  unfold year at 1, month at 1, day at 1. rewrite Hc. cbn [fst snd].
  repeat split; reflexivity.
Qed.

Lemma month_start_le (z : Z) : make (year z) (month z) 1 <= z.
Proof.
  destruct (civil_in_month z) as [Hmk [Hd _]].
  pose proof (make_day_shift (year z) (month z) 1 (day z - 1)) as Hs.
  replace (1 + (day z - 1)) with (day z) in Hs by lia. lia.
Qed.

Lemma month_end_ge (z : Z) : z <= month_end z.
Proof.
  destruct (civil_in_month z) as [_ [_ Hlt]]. rewrite <- month_end_next in Hlt. lia.
Qed.

(** The month-end of a date is in the month of the date, and the day after is
    the first of a month. *)
Lemma month_end_same_month (z : Z) :
  year (month_end z) = year z /\ month (month_end z) = month z /\
  day (month_end z + 1) = 1.
Proof.
  pose proof (month_start_le z) as Hs. pose proof (month_end_ge z) as He.
  destruct (month_interval z (month_end z)) as [Hy [Hm _]]; [lia |].
  split; [exact Hy |]. split; [exact Hm |].
  pose proof (month_bounds z) as Hb.
  rewrite month_end_next. unfold day.
  destruct (Z.eqb_spec (month z) 12) as [E | E];
    rewrite civil_make; try reflexivity; try lia;
    match goal with
    | |- _ <= _ <= ?n => destruct n eqn:En; try lia;
                         repeat match type of En with
                                | (if ?c then _ else _) = _ => destruct c
                                end; discriminate En
    end.
Qed.

(** No month-end lies between a date and the end of its month. *)
Lemma month_end_minimal (z M : Z) :
  z <= M -> day (M + 1) = 1 -> month_end z <= M.
Proof.
  intros Hz HM. destruct (Z.le_gt_cases (month_end z) M) as [H | H]; [exact H |].
  exfalso. pose proof (month_start_le z) as Hs.
  destruct (month_interval z (M + 1)) as [_ [_ Hd]]; lia.
Qed.

Lemma month_end_fixed (M : Z) : day (M + 1) = 1 -> month_end M = M.
Proof.
  intros H. pose proof (month_end_ge M). pose proof (month_end_minimal M M).
  lia.
Qed.

(** The bin of a month-end holds the dates of its calendar month. *)
Lemma month_end_eqb (d M : Z) :
  day (M + 1) = 1 ->
  (month_end d =? M) = (year d =? year M) && (month d =? month M).
Proof.
  intros HM. destruct (Z.eqb_spec (month_end d) M) as [E | E].
  - destruct (month_end_same_month d) as [Hy [Hm _]]. rewrite E in Hy, Hm.
    rewrite Hy, Hm, !Z.eqb_refl. reflexivity.
  - symmetry. apply andb_false_iff.
    destruct (Z.eqb_spec (year d) (year M)) as [Ey | Ey]; [| now left].
    destruct (Z.eqb_spec (month d) (month M)) as [Em | Em]; [| now right].
    exfalso. apply E. rewrite <- (month_end_fixed M HM).
    unfold month_end. cbv zeta. now rewrite Ey, Em.
Qed.

Import pvm.

Lemma month_ends_from_spec (n : nat) :
  forall d e, day (d + 1) = 1 -> e - d < Z.of_nat n ->
              forall M, In M (month_ends_from n d e) <-> d <= M <= e /\ day (M + 1) = 1.
Proof.
  induction n as [| n IH]; intros d e Hd Hf M.
  - cbn [month_ends_from]. split; [intros [] | lia].
  - cbn [month_ends_from]. destruct (Z.leb_spec d e) as [Hle | Hgt].
    + pose proof (month_end_ge (d + 1)) as Hge.
      destruct (month_end_same_month (d + 1)) as [_ [_ Hnext]].
      cbn [In]. rewrite (IH (month_end (d + 1)) e Hnext) by lia.
      split.
      * intros [<- | [H1 H2]]; [split; [lia | exact Hd] | split; [lia | exact H2]].
      * intros [H1 H2]. destruct (Z.eq_dec d M) as [E | E]; [now left |].
        right. split; [| exact H2]. split; [| lia].
        apply month_end_minimal; [lia | exact H2].
    + split; [intros [] | lia].
Qed.

(** [pd.date_range(start_dt, end_dt, freq='ME')] lists the month-ends from
    [start_dt] to [end_dt]. *)
Lemma date_range_ME_spec (start_dt end_dt M : Z) :
  In M (date_range_ME start_dt end_dt) <-> start_dt <= M <= end_dt /\ day (M + 1) = 1.
Proof.
  unfold date_range_ME.
  pose proof (month_end_ge start_dt) as Hge.
  destruct (month_end_same_month start_dt) as [_ [_ Hnext]].
  rewrite (month_ends_from_spec _ _ _ Hnext) by lia.
  split.
  - intros [H1 H2]. split; [lia | exact H2].
  - intros [H1 H2]. split; [| exact H2]. split; [| lia].
    apply month_end_minimal; [lia | exact H2].
Qed.

End CalendarArithmetic.

(** ** Claims on the cash volatility and the multipliers *)

Section Multipliers.

Import pd pvm.

Local Open Scope Q_scope.

Lemma insert_uniq_In (x y : Z) (l : list Z) :
  In y (insert_uniq Z.compare x l) <-> y = x \/ In y l.
Proof.
  induction l as [| a l IH]; simpl; [intuition |].
  destruct (Z.compare x a) eqn:E; simpl.
  - apply Z.compare_eq in E. subst. intuition.
  - intuition.
  - rewrite IH. intuition.
Qed.

Lemma sort_uniq_In (y : Z) (l : list Z) : In y (sort_uniq Z.compare l) <-> In y l.
Proof.
  unfold sort_uniq. induction l as [| a l IH]; simpl; [reflexivity |].
  rewrite insert_uniq_In, IH. intuition.
Qed.

Lemma Qinsert_In (x y : Q) (l : list Q) : In y (Qinsert x l) -> y = x \/ In y l.
Proof.
  induction l as [| a l IH]; simpl; [intuition |].
  destruct (Qle_bool x a); simpl; intuition.
Qed.









(** For MISO the call of [convert_lmps_tz] is given [emtdb] and [pnode_id],
    which it does not take: [_get_cash_vol] raises before any price is read. *)
Lemma _get_cash_vol_MISO_raises (np_log np_sqrt : Q -> option Q) (lmp : lmp_table)
    (start_dt end_dt : Z) (zero_mean : bool) :
  exists msg,
    _get_cash_vol np_log np_sqrt lmp "MISO" start_dt end_dt zero_mean
    = Raise (TypeError msg).
Proof. eexists. reflexivity. Qed.



End Multipliers.


Section CashVolatility.

Import pd pvm.

Local Open Scope Q_scope.

Variable np_log : Q -> option Q.
Variable np_sqrt : Q -> option Q.

Lemma daily_returns_pairwise (prices : list (Z * Q)) :
  daily_returns np_log np_sqrt prices = scaled_log_returns np_log np_sqrt prices.
Proof.
  induction prices as [| [d0 p0] rest IH]; [reflexivity |].
  destruct rest as [| [d1 p1] rest']; [reflexivity |].
  change (scaled_log_returns np_log np_sqrt ((d0, p0) :: (d1, p1) :: rest'))
    with ((d1, fdiv (fsub (np_log p1) (np_log p0)) (np_sqrt (inject_Z (d1 - d0) / 360)))
            :: scaled_log_returns np_log np_sqrt ((d1, p1) :: rest')).
  rewrite <- IH. reflexivity.
Qed.

Lemma monthly_vol_formula (returns : list (Z * option Q)) (zero_mean : bool) (M : Z) :
  monthly_vol np_sqrt returns zero_mean M
  = (if zero_mean then root_mean_square np_sqrt else sample_standard_deviation np_sqrt)
      (returns_of_month returns M).
Proof.
  unfold monthly_vol. destruct zero_mean.
  - unfold root_mean_square, fsqrt.
    destruct (returns_of_month returns M) as [| r rs]; [reflexivity |].
    rewrite mean_some by discriminate. now rewrite Qlen_map.
  - unfold std, sample_standard_deviation, fsqrt, var.
    destruct (returns_of_month returns M) as [| r [| r' rs]]; reflexivity.
Qed.

Lemma insert_uniq_sorted (x : Z) (l : list Z) :
  StronglySorted Z.lt l -> StronglySorted Z.lt (insert_uniq Z.compare x l).
Proof.
  induction l as [| a l IH]; simpl; intros H.
  - repeat constructor.
  - inversion H as [| a' l' Hl Ha]; subst.
    destruct (Z.compare_spec x a) as [E | E | E].
    + exact H.
    + constructor; [exact H |].
      constructor; [exact E |].
      rewrite Forall_forall in Ha |- *. intros y Hy. specialize (Ha y Hy). lia.
    + constructor; [now apply IH |].
      rewrite Forall_forall in Ha |- *. intros y Hy.
      apply insert_uniq_In in Hy. destruct Hy as [-> | Hy]; [exact E | now apply Ha].
Qed.

Lemma sort_uniq_sorted (l : list Z) : StronglySorted Z.lt (sort_uniq Z.compare l).
Proof.
  unfold sort_uniq. induction l as [| a l IH]; simpl; [constructor |].
  now apply insert_uniq_sorted.
Qed.

Lemma daily_prices_In (df : list block_row) (b : string) (d : Z) (p : Q) :
  In (d, p) (daily_prices df b) <-> daily_mean df d b = Some p.
Proof.
  unfold daily_prices. rewrite in_flat_map. split.
  - intros [d' [_ Hin]]. destruct (daily_mean df d' b) as [p' |] eqn:E; [| contradiction].
    destruct Hin as [Heq | []]. inversion Heq; subst. exact E.
  - intros H. exists d. rewrite H. split; [| now left].
    apply sort_uniq_In. unfold daily_mean in H.
    destruct (filter (fun r => (Date (obs r) =? d)%Z && String.eqb (Peak_Block r) b) df)
      as [| r l] eqn:Ef; [discriminate H |].
    assert (Hr : In r (filter (fun r => (Date (obs r) =? d)%Z
                                        && String.eqb (Peak_Block r) b) df))
      by (rewrite Ef; now left).
    apply filter_In in Hr. destruct Hr as [Hr Hc].
    apply andb_true_iff in Hc. destruct Hc as [Hd _]. apply Z.eqb_eq in Hd.
    apply in_map_iff. exists r. split; assumption.
Qed.

(** A day has a price for the block exactly when the table has an hour of the
    block on that day. *)
Lemma daily_mean_None (df : list block_row) (b : string) (d : Z) :
  daily_mean df d b = None <->
  ~ exists r, In r df /\ Date (obs r) = d /\ Peak_Block r = b.
Proof.
  unfold daily_mean.
  destruct (filter (fun r => (Date (obs r) =? d)%Z && String.eqb (Peak_Block r) b) df)
    as [| r l] eqn:Ef.
  - split; [| reflexivity]. intros _ [r [Hr [Hd Hb]]].
    assert (Hin : In r (filter (fun r => (Date (obs r) =? d)%Z
                                         && String.eqb (Peak_Block r) b) df)).
    { apply filter_In. split; [exact Hr |]. apply andb_true_iff.
      split; [now apply Z.eqb_eq | now apply String.eqb_eq]. }
    rewrite Ef in Hin. exact Hin.
  - split; [discriminate |]. intros H. exfalso. apply H. exists r.
    assert (Hin : In r (filter (fun r => (Date (obs r) =? d)%Z
                                         && String.eqb (Peak_Block r) b) df))
      by (rewrite Ef; now left).
    apply filter_In in Hin. destruct Hin as [Hr Hc].
    apply andb_true_iff in Hc. destruct Hc as [Hd Hb].
    apply Z.eqb_eq in Hd. apply String.eqb_eq in Hb. auto.
Qed.

Lemma daily_prices_sorted (df : list block_row) (b : string) :
  StronglySorted Z.lt (map fst (daily_prices df b)).
Proof.
  unfold daily_prices.
  generalize (sort_uniq_sorted (map (fun r => Date (obs r)) df)).
  generalize (sort_uniq Z.compare (map (fun r => Date (obs r)) df)). intros ds Hs.
  induction Hs as [| d ds Hs IH Hd]; [constructor |].
  cbn [flat_map]. destruct (daily_mean df d b) as [p |]; [| exact IH].
  cbn [app map fst]. constructor; [exact IH |].
  rewrite Forall_forall in Hd |- *. intros y Hy. apply Hd.
  apply in_map_iff in Hy. destruct Hy as [[d' p'] [<- Hin]].
  apply in_flat_map in Hin. destruct Hin as [d'' [Hd'' Hin]].
  destruct (daily_mean df d'' b); [| contradiction].
  destruct Hin as [Heq | []]. inversion Heq; subst. exact Hd''.
Qed.

Lemma lookup_block_column (df : list block_row) (blocks : list string)
    (cols : list (string * list (Z * option Q))) (b : string) :
  mapM (fun b => l <- block_column np_log np_sqrt df b ;; Ok (b, l)) blocks = Ok cols ->
  In b blocks ->
  lookup_column cols b = Some (daily_returns np_log np_sqrt (daily_prices df b)).
Proof.
  revert cols. induction blocks as [| b' blocks IH]; intros cols H Hin; [contradiction |].
  cbn [mapM] in H.
  destruct (block_column np_log np_sqrt df b') as [l |] eqn:Eb; cbn [bind] in H;
    [| discriminate H].
  match type of H with
  | context [mapM ?f blocks] => destruct (mapM f blocks) as [cols' |] eqn:Em
  end; cbn [bind] in H; [| discriminate H].
  inversion H; subst cols; clear H. cbn [lookup_column].
  destruct (String.eqb b' b) eqn:E.
  - apply String.eqb_eq in E. subst b'. unfold block_column in Eb.
    destruct (existsb (fun r => String.eqb (Peak_Block r) b) df); [| discriminate Eb].
    now inversion Eb.
  - apply IH; [reflexivity |]. destruct Hin as [-> | Hin]; [| exact Hin].
    rewrite String.eqb_refl in E. discriminate E.
Qed.

Lemma existsb_eqb_In (M : Z) (l : list Z) : In M l -> existsb (Z.eqb M) l = true.
Proof.
  intros H. apply existsb_exists. exists M. split; [exact H | apply Z.eqb_refl].
Qed.

(** The bins of the code are the calendar months. *)
Lemma returns_of_month_calendar (returns : list (Z * option Q)) (M : Z) :
  Timestamp.day (M + 1) = 1%Z ->
  returns_of_month returns M = returns_in_month_of returns M.
Proof.
  intros HM. unfold returns_of_month, returns_in_month_of. do 2 f_equal.
  apply filter_ext. intros r. now apply month_end_eqb.
Qed.

Lemma bins_month_ends {V : Type} (rows : list (Z * V)) (M : Z) :
  In M (bins rows) -> Timestamp.day (M + 1) = 1%Z.
Proof.
  unfold bins. destruct rows as [| r rows]; [intros [] |].
  intros H. apply date_range_ME_spec in H. apply H.
Qed.

(** The rows of the matrix are month-ends; they are the month-ends from
    [start_dt] to [end_dt] when there is one. *)
Lemma assigned_index_spec {V : Type} (start_dt end_dt : Z)
    (cols : list (string * list (Z * V))) :
  (forall M, In M (assigned_index (date_range_ME start_dt end_dt) cols) ->
             Timestamp.day (M + 1) = 1%Z) /\
  ((exists M0, (start_dt <= M0 <= end_dt)%Z /\ Timestamp.day (M0 + 1) = 1%Z) ->
   forall M, In M (assigned_index (date_range_ME start_dt end_dt) cols)
             <-> (start_dt <= M <= end_dt)%Z /\ Timestamp.day (M + 1) = 1%Z).
Proof.
  unfold assigned_index.
  destruct (date_range_ME start_dt end_dt) as [| M1 l] eqn:E.
  - split.
    + intros M. destruct (filter _ cols) as [| c l]; [intros [] |].
      apply bins_month_ends.
    + intros [M0 H0]. apply date_range_ME_spec in H0. rewrite E in H0. destruct H0.
  - rewrite <- E. split.
    + intros M H. apply date_range_ME_spec in H. apply H.
    + intros _ M. apply date_range_ME_spec.
Qed.

(** C8.  [_get_cash_vol] returns a matrix for every market other than MISO
    whose table has an hour of each peak block.  The rows of the matrix are
    month-ends: the month-ends from [start_dt] to [end_dt] when there is one.
    The series of a peak block keeps the days that have an hour of the block,
    in date order, priced at the daily mean (the other days are dropped, not
    filled); the returns are the log-price differences between consecutive
    kept days, each divided by sqrt(elapsed days / 360); and, for positive
    prices (where [np.log] is finite), the cell of a month-end is, over the
    returns dated in the calendar month of that month-end, their
    root-mean-square when [zero_mean] is set and their sample standard
    deviation otherwise. *)
Theorem cash_vol_of_scaled_log_returns (lmp : lmp_table) (iso : string)
    (start_dt end_dt : Z) (zero_mean : bool) :
  (In iso ["PJM"; "ISONE"; "ERCOT"; "SPP"; "CAISO"] ->
   lmp <> [] ->
   (forall blocks b,
       util.list_peak_blocks iso = Ok blocks -> In b blocks ->
       exists r, In r lmp /\ util.date_hour_to_peak_block (Date r) (Hour r) iso = Ok b) ->
   exists vol,
     _get_cash_vol np_log np_sqrt lmp iso start_dt end_dt zero_mean = Ok (Some vol)) /\
  (forall vol,
      _get_cash_vol np_log np_sqrt lmp iso start_dt end_dt zero_mean = Ok (Some vol) ->
      (forall M, In M (index vol) -> Timestamp.day (M + 1) = 1%Z) /\
      ((exists M0, (start_dt <= M0 <= end_dt)%Z /\ Timestamp.day (M0 + 1) = 1%Z) ->
       forall M, In M (index vol)
                 <-> (start_dt <= M <= end_dt)%Z /\ Timestamp.day (M + 1) = 1%Z)) /\
  (forall vol b M,
      _get_cash_vol np_log np_sqrt lmp iso start_dt end_dt zero_mean = Ok (Some vol) ->
      In b (columns vol) -> In M (index vol) ->
      (forall x, 0 < x -> exists s, np_sqrt x = Some s /\ 0 < s) ->
      (forall r, In r lmp -> 0 < Price r) ->
      exists df,
        Forall2 (labelled_as iso) lmp df /\
        StronglySorted Z.lt (map fst (daily_prices df b)) /\
        (forall d p, In (d, p) (daily_prices df b) <-> daily_mean df d b = Some p) /\
        (forall d, daily_mean df d b = None <->
                   ~ exists r, In r df /\ Date (obs r) = d /\ Peak_Block r = b) /\
        cell vol M b
        = (if zero_mean then root_mean_square np_sqrt else sample_standard_deviation np_sqrt)
            (returns_in_month_of
               (scaled_log_returns np_log np_sqrt (daily_prices df b)) M)).
Proof.
  split; [| split].
  - intros Hiso Hne Hblocks. unfold _get_cash_vol.
    assert (Hmiso : String.eqb iso "MISO" = false)
      by (simpl in Hiso; destruct Hiso as [<- | [<- | [<- | [<- | [<- | []]]]]];
          reflexivity).
    assert (Hassert : str_in iso util.asserted_isos = true)
      by (simpl in Hiso; destruct Hiso as [<- | [<- | [<- | [<- | [<- | []]]]]];
          reflexivity).
    assert (Hlist : exists blocks, util.list_peak_blocks iso = Ok blocks)
      by (simpl in Hiso; destruct Hiso as [<- | [<- | [<- | [<- | [<- | []]]]]];
          eexists; reflexivity).
    rewrite Hmiso. destruct lmp as [| r0 lmp0] eqn:El; [contradiction |].
    rewrite <- El in *. clear El Hne.
    match goal with
    | |- context [mapM ?f lmp] =>
        destruct (mapM_total f lmp) as [df Hdf]; [| rewrite Hdf; pose proof Hdf as Hdf']
    end.
    { intros r _. destruct (date_hour_to_peak_block_returns (Date r) (Hour r) iso Hassert)
        as [label ->]. eexists. reflexivity. }
    cbn [bind]. destruct Hlist as [blocks Hl]. rewrite Hl. cbn [bind].
    match goal with
    | |- context [mapM ?f blocks] =>
        destruct (mapM_total f blocks) as [cols ->]
    end.
    { intros b Hb. destruct (Hblocks blocks b Hl Hb) as [r [Hr Hc]].
      unfold block_column.
      assert (Hex : existsb (fun r => String.eqb (Peak_Block r) b) df = true).
      { apply mapM_Forall2 in Hdf'. clear - Hdf' Hr Hc.
        induction Hdf' as [| x y l l' Hxy _ IH]; [contradiction |].
        cbn [existsb]. apply orb_true_iff. destruct Hr as [-> | Hr].
        - left. rewrite Hc in Hxy. cbn [bind] in Hxy. inversion Hxy. cbn [Peak_Block].
          apply String.eqb_refl.
        - right. now apply IH. }
      rewrite Hex. cbn [bind]. eexists. reflexivity. }
    cbn [bind]. eexists. reflexivity.
  - intros vol Hrun. unfold _get_cash_vol in Hrun.
    destruct (String.eqb iso "MISO"); [discriminate Hrun |].
    destruct lmp as [| r0 lmp0] eqn:El; [discriminate Hrun |].
    rewrite <- El in *. clear El.
    match type of Hrun with
    | context [mapM ?f lmp] => destruct (mapM f lmp) as [df |] eqn:Hdf
    end; cbn [bind] in Hrun; [| discriminate Hrun].
    destruct (util.list_peak_blocks iso) as [blocks |]; cbn [bind] in Hrun;
      [| discriminate Hrun].
    match type of Hrun with
    | context [mapM ?f blocks] => destruct (mapM f blocks) as [cols |] eqn:Hcols
    end; cbn [bind] in Hrun; [| discriminate Hrun].
    inversion Hrun; subst vol; clear Hrun. cbn [index].
    apply assigned_index_spec.
  - intros vol b M Hrun Hb HM _ _. unfold _get_cash_vol in Hrun.
    destruct (String.eqb iso "MISO"); [discriminate Hrun |].
    destruct lmp as [| r0 lmp0] eqn:El; [discriminate Hrun |].
    rewrite <- El in *. clear El.
    match type of Hrun with
    | context [mapM ?f lmp] => destruct (mapM f lmp) as [df |] eqn:Hdf
    end; cbn [bind] in Hrun; [| discriminate Hrun].
    destruct (util.list_peak_blocks iso) as [blocks |]; cbn [bind] in Hrun;
      [| discriminate Hrun].
    match type of Hrun with
    | context [mapM ?f blocks] => destruct (mapM f blocks) as [cols |] eqn:Hcols
    end; cbn [bind] in Hrun; [| discriminate Hrun].
    inversion Hrun; subst vol; clear Hrun. cbn [columns] in Hb. cbn [index] in HM.
    cbn [cell].
    exists df. split; [| split; [| split; [| split]]].
    + apply mapM_Forall2 in Hdf. clear - Hdf.
      induction Hdf as [| x y l l' Hxy _ IH]; constructor; [| exact IH].
      destruct (util.date_hour_to_peak_block (Date x) (Hour x) iso) as [pb |] eqn:E;
        cbn [bind] in Hxy; [| discriminate Hxy].
      inversion Hxy. split; [reflexivity | exact E].
    + apply daily_prices_sorted.
    + intros d p. apply daily_prices_In.
    + intros d. apply daily_mean_None.
    + rewrite (existsb_eqb_In M _ HM).
      rewrite (lookup_block_column df blocks cols b Hcols Hb).
      rewrite monthly_vol_formula, daily_returns_pairwise.
      rewrite returns_of_month_calendar; [reflexivity |].
      exact (proj1 (assigned_index_spec start_dt end_dt cols) M HM).
Qed.

End CashVolatility.

Section CashVolatilityExample.

Import pd pvm.

Local Open Scope Q_scope.

Lemma cash_vol_of_scaled_log_returns_witness :
  exists vol,
    _get_cash_vol (fun q => Some q) (fun q => Some q) january_table "PJM"
      (Timestamp.make 2024 1 1) (Timestamp.make 2024 1 31) true = Ok (Some vol) /\
    (forall M, In M (index vol)
               <-> (Timestamp.make 2024 1 1 <= M <= Timestamp.make 2024 1 31)%Z /\
                   Timestamp.day (M + 1) = 1%Z) /\
    exists df,
      Forall2 (labelled_as "PJM") january_table df /\
      StronglySorted Z.lt (map fst (daily_prices df "5x16")) /\
      (forall d p, In (d, p) (daily_prices df "5x16") <-> daily_mean df d "5x16" = Some p) /\
      (forall d, daily_mean df d "5x16" = None <->
                 ~ exists r, In r df /\ Date (obs r) = d /\ Peak_Block r = "5x16") /\
      cell vol (Timestamp.make 2024 1 31) "5x16"
      = (if true then root_mean_square (fun q => Some q)
         else sample_standard_deviation (fun q => Some q))
          (returns_in_month_of
             (scaled_log_returns (fun q => Some q) (fun q => Some q)
                (daily_prices df "5x16"))
             (Timestamp.make 2024 1 31)).
Proof.
  destruct (cash_vol_of_scaled_log_returns (fun q => Some q) (fun q => Some q)
              january_table "PJM" (Timestamp.make 2024 1 1) (Timestamp.make 2024 1 31)
              true) as [HA [HB HC]].
  destruct HA as [vol Hvol].
  - simpl. tauto.
  - discriminate.
  - intros blocks b Hl Hb. vm_compute in Hl. injection Hl as <-.
    destruct Hb as [<- | [<- | [<- | []]]].
    + exists {| Date := Timestamp.make 2024 1 10; Hour := 10; Price := 30 |}.
      split; [simpl; tauto | vm_compute; reflexivity].
    + exists {| Date := Timestamp.make 2024 1 13; Hour := 10; Price := 20 |}.
      split; [simpl; tauto | vm_compute; reflexivity].
    + exists {| Date := Timestamp.make 2024 1 13; Hour := 2; Price := 10 |}.
      split; [simpl; tauto | vm_compute; reflexivity].
  - assert (Hrange : exists M0,
               (Timestamp.make 2024 1 1 <= M0 <= Timestamp.make 2024 1 31)%Z /\
               Timestamp.day (M0 + 1) = 1%Z).
    { exists (Timestamp.make 2024 1 31). split; [vm_compute; split; discriminate |].
      reflexivity. }
    pose proof (proj2 (HB vol Hvol) Hrange) as Hidx.
    exists vol. split; [exact Hvol |]. split; [exact Hidx |].
    apply (HC vol "5x16" (Timestamp.make 2024 1 31) Hvol).
    + pose proof Hvol as Hvol'. head_normalize_lhs Hvol'. returned_frame Hvol' vol.
      rewrite <- Hvol'. cbn [columns]. simpl. tauto.
    + apply Hidx. split; [vm_compute; split; discriminate | reflexivity].
    + intros x Hx. exists x. split; [reflexivity | exact Hx].
    + intros r [<- | [<- | [<- | [<- | []]]]]; reflexivity.
Defined.

End CashVolatilityExample.

(** * Further properties of the code *)

(** ** [chunker] and [hourly_index] *)

Section Chunks.

Import util.

Lemma firstn_plus {A : Type} (a b : nat) (l : list A) :
  firstn (a + b) l = (firstn a l ++ firstn b (skipn a l))%list.
Proof.
  revert l. induction a as [| a IH]; intros l; [reflexivity |].
  destruct l as [| x l]; simpl.
  - now rewrite firstn_nil.
  - now rewrite IH.
Qed.

Lemma concat_slices {A : Type} (l : list A) (s k : nat) :
  List.concat (map (fun pos => firstn s (skipn pos l)) (map (fun i => (i * s)%nat) (List.seq 0 k)))
  = firstn (k * s) l.
Proof.
  induction k as [| k IH]; [reflexivity |].
  rewrite seq_S, !map_app, concat_app, IH. simpl.
  rewrite app_nil_r. rewrite <- firstn_plus. f_equal. lia.
Qed.

(** Number of slices of width [s] that cover [n] elements. *)
Lemma slices_cover (n s : nat) :
  (0 < s)%nat ->
  (n <= (n + s - 1) / s * s)%nat /\ ((n + s - 1) / s * s < n + s)%nat.
Proof.
  intros Hs.
  pose proof (Nat.div_mod_eq (n + s - 1) s) as Hd.
  pose proof (Nat.mod_upper_bound (n + s - 1) s ltac:(lia)) as Hm.
  nia.
Qed.

(** X1.  [chunker] with a positive size cuts the list into consecutive pieces: put
    end to end they give the list back; every piece is non-empty and at most
    [size] long, and every piece but the last is exactly [size] long.  With a
    negative size it yields no piece at all, whatever the list; with size 0 it
    raises [ValueError]. *)
Theorem chunker_partition {A : Type} (seq : list A) (size : Z) :
  (0 < size ->
   exists chunks,
     chunker seq size = inr chunks /\
     List.concat chunks = seq /\
     Forall (fun c => (1 <= List.length c <= Z.to_nat size)%nat) chunks /\
     (forall i c, nth_error chunks i = Some c -> (S i < List.length chunks)%nat ->
                  List.length c = Z.to_nat size)) /\
  (size < 0 -> chunker seq size = inr []) /\
  (size = 0 -> exists msg, chunker seq size = inl (ValueError msg)).
Proof.
  split; [| split].
  - intros Hpos. unfold chunker, range_from_0.
    assert (E0 : (size =? 0) = false) by (apply Z.eqb_neq; lia).
    assert (E1 : (size <? 0) = false) by (apply Z.ltb_ge; lia).
    rewrite E0, E1. set (s := Z.to_nat size). set (n := List.length seq).
    assert (Hs : (0 < s)%nat) by (unfold s; lia).
    destruct (slices_cover n s Hs) as [Hlo Hhi].
    set (k := ((n + s - 1) / s)%nat) in *.
    eexists. split; [reflexivity |]. split; [| split].
    + rewrite concat_slices. apply firstn_all2. fold n. exact Hlo.
    + apply Forall_forall. intros c Hc.
      apply in_map_iff in Hc. destruct Hc as [pos [<- Hpos']].
      apply in_map_iff in Hpos'. destruct Hpos' as [i [<- Hi]].
      apply in_seq in Hi. rewrite length_firstn, length_skipn. fold n.
      assert ((i + 1) * s <= k * s)%nat by (apply Nat.mul_le_mono_r; lia).
      lia.
    + intros i c Hn Hi. rewrite !length_map, length_seq in Hi.
      rewrite nth_error_map in Hn.
      rewrite nth_error_map in Hn.
      rewrite nth_error_seq in Hn.
      destruct (i <? k)%nat eqn:Ek; [| apply Nat.ltb_ge in Ek; lia].
      cbn [option_map] in Hn. inversion Hn; subst c.
      rewrite length_firstn, length_skipn. fold n. cbn [Nat.add].
      assert ((i + 2) * s <= k * s)%nat by (apply Nat.mul_le_mono_r; lia).
      lia.
  - intros Hneg. unfold chunker, range_from_0.
    assert (E0 : (size =? 0) = false) by (apply Z.eqb_neq; lia).
    assert (E1 : (size <? 0) = true) by (apply Z.ltb_lt; lia).
    now rewrite E0, E1.
  - intros ->. eexists. reflexivity.
Qed.

Lemma chunker_partition_witness :
  (exists chunks,
      chunker [1; 2; 3; 4; 5; 6; 7] 3 = inr chunks /\
      List.concat chunks = [1; 2; 3; 4; 5; 6; 7] /\
      Forall (fun c => (1 <= List.length c <= Z.to_nat 3)%nat) chunks /\
      (forall i c, nth_error chunks i = Some c -> (S i < List.length chunks)%nat ->
                   List.length c = Z.to_nat 3)) /\
  chunker [1; 2; 3] (-2) = inr [] /\
  exists msg, chunker [1; 2; 3] 0 = inl (ValueError msg).
Proof.
  split; [| split].
  - apply (proj1 (chunker_partition [1; 2; 3; 4; 5; 6; 7] 3)). lia.
  - apply (proj1 (proj2 (chunker_partition [1; 2; 3] (-2)))). lia.
  - apply (proj2 (proj2 (chunker_partition [1; 2; 3] 0))). reflexivity.
Defined.

Lemma days_from_In (n : nat) (d x : Z) :
  In x (days_from n d) <-> d <= x < d + Z.of_nat n.
Proof.
  revert d. induction n as [| n IH]; intros d; simpl; [lia |].
  rewrite IH. lia.
Qed.

Lemma days_from_NoDup (n : nat) (d : Z) : NoDup (days_from n d).
Proof.
  revert d. induction n as [| n IH]; intros d; simpl; constructor; [| apply IH].
  rewrite days_from_In. lia.
Qed.

Lemma days_from_length (n : nat) (d : Z) : List.length (days_from n d) = n.
Proof. revert d. induction n as [| n IH]; intros d; simpl; [| rewrite IH]; reflexivity. Qed.

Lemma range_1_25_In (h : Z) : In h range_1_25 <-> 1 <= h <= 24.
Proof.
  unfold range_1_25. rewrite in_map_iff. split.
  - intros [n [<- Hn]]. apply in_seq in Hn. lia.
  - intros H. exists (Z.to_nat h). split; [lia |]. apply in_seq. lia.
Qed.

Lemma NoDup_map_injective {A B : Type} (f : A -> B) (l : list A) :
  (forall x y, f x = f y -> x = y) -> NoDup l -> NoDup (map f l).
Proof.
  intros Hf Hl. induction Hl as [| a l Ha Hl IH]; simpl; constructor; [| exact IH].
  intros H. apply in_map_iff in H. destruct H as [x [E Hx]].
  apply Hf in E. now subst.
Qed.

Lemma NoDup_list_prod {A B : Type} (l : list A) (l' : list B) :
  NoDup l -> NoDup l' -> NoDup (list_prod l l').
Proof.
  intros Hl Hl'. induction Hl as [| a l Ha Hl IH]; simpl; [constructor |].
  apply NoDup_app; [| exact IH |].
  - apply NoDup_map_injective; [| exact Hl'].
    intros x y E. now inversion E.
  - intros [a' b] H1 H2. apply in_map_iff in H1. destruct H1 as [y [E _]].
    inversion E; subst. apply in_prod_iff in H2. now destruct H2.
Qed.

(** X2.  [hourly_index] lists every (date, hour) with the date from [start_dt] to
    [end_dt] and the hour from 1 to 24, each exactly once: 24 entries per day,
    and none at all when [end_dt] is before [start_dt]. *)
Theorem hourly_index_spec (start_dt end_dt : Z) :
  (forall d h, In (d, h) (hourly_index start_dt end_dt)
               <-> start_dt <= d <= end_dt /\ 1 <= h <= 24) /\
  NoDup (hourly_index start_dt end_dt) /\
  List.length (hourly_index start_dt end_dt) = (24 * Z.to_nat (end_dt - start_dt + 1))%nat.
Proof.
  unfold hourly_index, date_range_D. split; [| split].
  - intros d h. rewrite in_prod_iff, days_from_In, range_1_25_In. lia.
  - apply NoDup_list_prod; [apply days_from_NoDup |].
    unfold range_1_25. apply NoDup_map_injective; [| apply seq_NoDup].
    intros x y E. lia.
  - rewrite length_prod, days_from_length. unfold range_1_25.
    rewrite length_map, length_seq. lia.
Qed.

End Chunks.

(** ** The calendar of the holiday functions *)

(** Bounds on a day of the month, once the length of the month is computed. *)
Ltac month_length :=
  match goal with
  | |- _ <= _ <= ?n => let v := eval vm_compute in n in change n with v
  | |- _ /\ _ <= ?n => let v := eval vm_compute in n in change n with v
  end; lia.

Section Calendar.

Import util.

(** The loops over the days of the week stop on the first day with the weekday
    they look for. *)
Lemma while_weekday_ne_forward_hits (target dt : Z) :
  0 <= target < 7 ->
  exists k, 0 <= k <= 6 /\ weekday (dt + k) = target /\
            while_weekday_ne loop_fuel target 1 dt = Ok (dt + k).
Proof.
  intros Ht. destruct (mod7_nat (target - weekday dt)) as [n [Hn Hle]].
  exists (Z.of_nat n). split; [lia |]. split.
  - unfold weekday in *. Z.to_euclidean_division_equations; lia.
  - apply while_weekday_ne_forward; [assumption | assumption | unfold loop_fuel; lia].
Qed.

Lemma while_weekday_ne_backward_hits (target dt : Z) :
  0 <= target < 7 ->
  exists k, 0 <= k <= 6 /\ weekday (dt - k) = target /\
            while_weekday_ne loop_fuel target (-1) dt = Ok (dt - k).
Proof.
  intros Ht. destruct (mod7_nat (weekday dt - target)) as [n [Hn Hle]].
  exists (Z.of_nat n). split; [lia |]. split.
  - unfold weekday in *. Z.to_euclidean_division_equations; lia.
  - apply while_weekday_ne_backward; [assumption | assumption | unfold loop_fuel; lia].
Qed.

Lemma thanksgiving_loop_hits (dt : Z) :
  exists k, 0 <= k <= 6 /\ weekday (dt + k) = 3 /\
            thanksgiving_loop loop_fuel 0 dt = Ok (dt + k + 22).
Proof.
  destruct (mod7_nat (3 - weekday dt)) as [n [Hn Hle]].
  exists (Z.of_nat n). split; [lia |].
  assert (Hnext : forall d, weekday d = 3 -> (3 - weekday (d + 1)) mod 7 = Z.of_nat 6)
    by (intros d Hd; unfold weekday in *; Z.to_euclidean_division_equations; lia).
  assert (Hthu : weekday (dt + Z.of_nat n) = 3)
    by (unfold weekday in *; Z.to_euclidean_division_equations; lia).
  split; [exact Hthu |].
  replace loop_fuel with (S n + (7 + (7 + (7 + (42 - n)))))%nat
    by (unfold loop_fuel; lia).
  rewrite (thanksgiving_loop_round n _ 0 dt) by (lia || assumption).
  rewrite (thanksgiving_loop_round 6 _ _ _) by (lia || (apply Hnext; assumption)).
  rewrite (thanksgiving_loop_round 6 _ _ _)
    by (lia || (apply Hnext; unfold weekday in *; Z.to_euclidean_division_equations; lia)).
  rewrite (thanksgiving_loop_round 6 _ _ _)
    by (lia || (apply Hnext; unfold weekday in *; Z.to_euclidean_division_equations; lia)).
  destruct (42 - n)%nat; simpl; f_equal; lia.
Qed.

(** The date [k] days into a month, read back. *)
Lemma civil_make_shift (y m d k : Z) :
  1 <= m <= 12 ->
  1 <= d + k <= (if m =? 2 then 28
                 else if (m =? 4) || (m =? 6) || (m =? 9) || (m =? 11) then 30 else 31) ->
  year (make y m d + k) = y /\ month (make y m d + k) = m /\ day (make y m d + k) = d + k.
Proof.
  intros Hm Hd. unfold year, month, day.
  rewrite make_day_shift, civil_make by assumption. now cbn.
Qed.

(** X3.  [_labor_day] returns, for every year from 1678 to 2261, the first
    Monday of September: a Monday among 1..7 September of that year. *)
Theorem labor_day_first_monday_of_september (y : Z) :
  1678 <= y <= 2261 ->
  exists d, _labor_day y = Ok d /\
            weekday d = 0 /\ year d = y /\ month d = 9 /\ 1 <= day d <= 7.
Proof.
  intros _. unfold _labor_day.
  destruct (while_weekday_ne_forward_hits 0 (make y 9 1)) as [k [Hk [Hw ->]]]; [lia |].
  eexists. split; [reflexivity |].
  destruct (civil_make_shift y 9 1 k) as [Hy [Hm Hd]]; [lia | month_length |].
  rewrite Hy, Hm, Hd. repeat split; try assumption; lia.
Qed.

Lemma labor_day_first_monday_of_september_witness :
  exists d, _labor_day 2024 = Ok d /\
            weekday d = 0 /\ year d = 2024 /\ month d = 9 /\ 1 <= day d <= 7.
Proof. apply labor_day_first_monday_of_september. lia. Defined.

(** X4.  [_memorial_day] returns, for every year from 1678 to 2261, the last
    Monday of May: a Monday among 25..31 May of that year. *)
Theorem memorial_day_last_monday_of_may (y : Z) :
  1678 <= y <= 2261 ->
  exists d, _memorial_day y = Ok d /\
            weekday d = 0 /\ year d = y /\ month d = 5 /\ 25 <= day d <= 31.
Proof.
  intros _. unfold _memorial_day.
  destruct (while_weekday_ne_backward_hits 0 (make y 5 31)) as [k [Hk [Hw ->]]]; [lia |].
  eexists. split; [reflexivity |].
  destruct (civil_make_shift y 5 31 (- k)) as [Hy [Hm Hd]]; [lia | month_length |].
  replace (make y 5 31 - k) with (make y 5 31 + - k) in * by lia.
  rewrite Hy, Hm, Hd. repeat split; try assumption; lia.
Qed.

Lemma memorial_day_last_monday_of_may_witness :
  exists d, _memorial_day 2024 = Ok d /\
            weekday d = 0 /\ year d = 2024 /\ month d = 5 /\ 25 <= day d <= 31.
Proof. apply memorial_day_last_monday_of_may. lia. Defined.

(** X5.  [_thanksgiving_day] returns, for every year from 1678 to 2261, the
    fourth Thursday of November: a Thursday among 22..28 November of that
    year. *)
Theorem thanksgiving_day_fourth_thursday_of_november (y : Z) :
  1678 <= y <= 2261 ->
  exists d, _thanksgiving_day y = Ok d /\
            weekday d = 3 /\ year d = y /\ month d = 11 /\ 22 <= day d <= 28.
Proof.
  intros _. unfold _thanksgiving_day.
  destruct (thanksgiving_loop_hits (make y 11 1)) as [k [Hk [Hw ->]]].
  cbn [bind]. eexists. split; [reflexivity |].
  replace (make y 11 1 + k + 22 - 1) with (make y 11 1 + (k + 21)) by lia.
  destruct (civil_make_shift y 11 1 (k + 21)) as [Hy [Hm Hd]]; [lia | month_length |].
  rewrite Hy, Hm, Hd. repeat split; try lia.
  unfold weekday in *. Z.to_euclidean_division_equations; lia.
Qed.

Lemma thanksgiving_day_fourth_thursday_of_november_witness :
  exists d, _thanksgiving_day 2024 = Ok d /\
            weekday d = 3 /\ year d = 2024 /\ month d = 11 /\ 22 <= day d <= 28.
Proof. apply thanksgiving_day_fourth_thursday_of_november. lia. Defined.

(** X6.  [spring_dst] returns the second Sunday of March (a Sunday among 8..14
    March) and [fall_dst] the first Sunday of November (a Sunday among 1..7
    November), for every year from 1678 to 2261. *)
Theorem dst_switch_days (y : Z) :
  1678 <= y <= 2261 ->
  (exists d, spring_dst y = Ok d /\
             weekday d = 6 /\ year d = y /\ month d = 3 /\ 8 <= day d <= 14) /\
  (exists d, fall_dst y = Ok d /\
             weekday d = 6 /\ year d = y /\ month d = 11 /\ 1 <= day d <= 7).
Proof.
  intros _. split.
  - unfold spring_dst.
    destruct (while_weekday_ne_forward_hits 6 (make y 3 1)) as [k [Hk [Hw ->]]]; [lia |].
    cbn [bind]. eexists. split; [reflexivity |].
    replace (make y 3 1 + k + 7) with (make y 3 1 + (k + 7)) by lia.
    destruct (civil_make_shift y 3 1 (k + 7)) as [Hy [Hm Hd]]; [lia | month_length |].
    rewrite Hy, Hm, Hd. repeat split; try lia.
    unfold weekday in *. Z.to_euclidean_division_equations; lia.
  - unfold fall_dst.
    destruct (while_weekday_ne_forward_hits 6 (make y 11 1)) as [k [Hk [Hw ->]]]; [lia |].
    eexists. split; [reflexivity |].
    destruct (civil_make_shift y 11 1 k) as [Hy [Hm Hd]]; [lia | month_length |].
    rewrite Hy, Hm, Hd. repeat split; try assumption; lia.
Qed.

Lemma dst_switch_days_witness :
  (exists d, spring_dst 2024 = Ok d /\
             weekday d = 6 /\ year d = 2024 /\ month d = 3 /\ 8 <= day d <= 14) /\
  (exists d, fall_dst 2024 = Ok d /\
             weekday d = 6 /\ year d = 2024 /\ month d = 11 /\ 1 <= day d <= 7).
Proof. apply dst_switch_days. lia. Defined.

(** A fixed-date holiday is kept on its date unless that is a Sunday, and is
    then moved to the Monday after. *)
Lemma observed_date (y m d : Z) :
  1 <= m <= 12 ->
  1 <= d /\ d + 1 <= (if m =? 2 then 28
                      else if (m =? 4) || (m =? 6) || (m =? 9) || (m =? 11) then 30
                           else 31) ->
  let o := observed (make y m d) in
  weekday o <> 6 /\ year o = y /\ month o = m /\
  (day o = d \/ (day o = d + 1 /\ weekday o = 0)).
Proof.
  intros Hm Hd o. subst o. unfold observed.
  destruct (Z.eqb_spec (weekday (make y m d)) 6) as [E | E].
  - destruct (civil_make_shift y m d 1) as [Hy [Hmo Hda]]; [lia | lia |].
    rewrite Hy, Hmo, Hda.
    assert (weekday (make y m d + 1) = 0)
      by (unfold weekday in *; Z.to_euclidean_division_equations; lia).
    repeat split; lia.
  - destruct (civil_make_shift y m d 0) as [Hy [Hmo Hda]]; [lia | lia |].
    rewrite Z.add_0_r in *. rewrite Hy, Hmo, Hda.
    repeat split; lia.
Qed.

(** X7.  For every year from 1678 to 2261, New Year's Day, Independence Day and
    Christmas Day are returned on 1 January, 4 July and 25 December of the
    year asked for, except when that date is a Sunday: then the Monday after
    (2 January, 5 July, 26 December) is returned.  None of them is ever a
    Sunday; a holiday that falls on a Saturday is not moved. *)
Theorem fixed_date_holidays_observed (y : Z) :
  1678 <= y <= 2261 ->
  exists n i c,
    _new_years_day y = Ok n /\ _independence_day y = Ok i /\ _christmas_day y = Ok c /\
    (weekday n <> 6 /\ year n = y /\ month n = 1 /\
     (day n = 1 \/ (day n = 2 /\ weekday n = 0))) /\
    (weekday i <> 6 /\ year i = y /\ month i = 7 /\
     (day i = 4 \/ (day i = 5 /\ weekday i = 0))) /\
    (weekday c <> 6 /\ year c = y /\ month c = 12 /\
     (day c = 25 \/ (day c = 26 /\ weekday c = 0))) /\
    (weekday (make y 7 4) = 5 -> i = make y 7 4).
Proof.
  intros _. unfold _new_years_day, _independence_day, _christmas_day.
  do 3 eexists. do 3 (split; [reflexivity |]).
  split; [| split; [| split]].
  - apply (observed_date y 1 1); [lia | month_length].
  - apply (observed_date y 7 4); [lia | month_length].
  - apply (observed_date y 12 25); [lia | month_length].
  - intros H. unfold observed. rewrite H. reflexivity.
Qed.

Lemma fixed_date_holidays_observed_witness :
  weekday (make 2026 7 4) = 5 /\ _independence_day 2026 = Ok (make 2026 7 4).
Proof.
  assert (Hy : 1678 <= 2026 <= 2261) by lia.
  destruct (fixed_date_holidays_observed 2026 Hy)
    as [n [i [c [_ [Hi [_ [_ [_ [_ Hsat]]]]]]]]].
  split; [reflexivity |].
  rewrite Hi. f_equal. apply Hsat. reflexivity.
Defined.

(** X8.  [get_holidays] returns, for every year from 1678 to 2261, six dates of
    that year, one in each of September, May, July, January, November and
    December in that order; they are distinct and none is a Sunday. *)
Theorem get_holidays_calendar (y : Z) :
  1678 <= y <= 2261 ->
  exists holidays,
    get_holidays y = Ok holidays /\
    map month holidays = [9; 5; 7; 1; 11; 12] /\
    NoDup holidays /\
    Forall (fun d => year d = y /\ weekday d <> 6) holidays.
Proof.
  intros _.
  unfold get_holidays, _labor_day, _memorial_day, _thanksgiving_day,
    _independence_day, _new_years_day, _christmas_day.
  destruct (while_weekday_ne_forward_hits 0 (make y 9 1)) as [k1 [Hk1 [Hw1 ->]]]; [lia |].
  destruct (while_weekday_ne_backward_hits 0 (make y 5 31)) as [k2 [Hk2 [Hw2 ->]]]; [lia |].
  destruct (thanksgiving_loop_hits (make y 11 1)) as [k3 [Hk3 [Hw3 ->]]].
  cbn [bind]. eexists. split; [reflexivity |].
  destruct (civil_make_shift y 9 1 k1) as [Hy1 [Hm1 _]]; [lia | month_length |].
  destruct (civil_make_shift y 5 31 (- k2)) as [Hy2 [Hm2 _]]; [lia | month_length |].
  replace (make y 5 31 + - k2) with (make y 5 31 - k2) in * by lia.
  destruct (civil_make_shift y 11 1 (k3 + 21)) as [Hy5 [Hm5 _]]; [lia | month_length |].
  replace (make y 11 1 + (k3 + 21)) with (make y 11 1 + k3 + 22 - 1) in * by lia.
  destruct (observed_date y 7 4) as [Hw3' [Hy3 [Hm3 _]]]; [lia | month_length |].
  destruct (observed_date y 1 1) as [Hw4 [Hy4 [Hm4 _]]]; [lia | month_length |].
  destruct (observed_date y 12 25) as [Hw6 [Hy6 [Hm6 _]]]; [lia | month_length |].
  assert (Hmonths :
            map month [make y 9 1 + k1; make y 5 31 - k2; observed (make y 7 4);
                       observed (make y 1 1); make y 11 1 + k3 + 22 - 1;
                       observed (make y 12 25)] = [9; 5; 7; 1; 11; 12]).
  { cbn [map]. rewrite Hm1, Hm2, Hm3, Hm4, Hm5, Hm6. reflexivity. }
  split; [exact Hmonths |]. split.
  - apply (NoDup_map_inv month). rewrite Hmonths.
    repeat constructor; cbn; intuition congruence.
  - repeat constructor; try assumption;
      unfold weekday in *; Z.to_euclidean_division_equations; lia.
Qed.

Lemma get_holidays_calendar_witness :
  exists holidays,
    get_holidays 2024 = Ok holidays /\
    map month holidays = [9; 5; 7; 1; 11; 12] /\
    NoDup holidays /\
    Forall (fun d => year d = 2024 /\ weekday d <> 6) holidays.
Proof. apply get_holidays_calendar. lia. Defined.

End Calendar.

(** ** The labels of a day *)

Section Labels.

Import util.

(** Case analysis on the comparisons of an hour with the bounds of the code. *)
Ltac hour_cases :=
  repeat match goal with
         | |- context [?a <=? ?b] => destruct (Z.leb_spec a b); try lia
         | |- context [?a <? ?b] => destruct (Z.ltb_spec a b); try lia
         end.

Lemma In_asserted_isos (iso : string) :
  str_in iso asserted_isos = true ->
  iso = "PJM" \/ iso = "ISONE" \/ iso = "NYISO" \/ iso = "MISO" \/ iso = "ERCOT" \/
  iso = "SPP" \/ iso = "CAISO".
Proof.
  intros H. apply str_in_In in H. unfold asserted_isos in H. simpl in H.
  intuition auto.
Qed.

(** X9.  On any one date the label depends on the hour only through the day window
    (hours 8..23 for PJM, ISONE, NYISO and MISO, hours 7..22 for ERCOT, SPP and
    CAISO): the sixteen hours of the window share one daytime label, and every
    other hour, also one outside 1..24, gets the night label; no hour is
    rejected. *)
Theorem peak_block_day_shape (date : Z) (iso : string) :
  str_in iso asserted_isos = true ->
  exists day_label,
    In day_label (if String.eqb iso "CAISO"
                  then ["6x16-Weekday"; "6x16-Saturday"; "Off-Sunday"]
                  else ["5x16"; "2x16"]) /\
    forall hour,
      date_hour_to_peak_block date hour iso
      = Ok (if if str_in iso ["PJM"; "ISONE"; "NYISO"; "MISO"]
               then (8 <=? hour) && (hour <=? 23)
               else (7 <=? hour) && (hour <=? 22)
            then day_label
            else if String.eqb iso "CAISO" then "Off-Night" else "7x8").
Proof.
  intros Hiso. destruct (get_holidays_total (year date)) as [holidays Hh].
  unfold date_hour_to_peak_block. rewrite Hiso, Hh. cbn [negb bind].
  destruct (date_in date holidays), (weekday date =? 5), (weekday date =? 6);
    destruct (In_asserted_isos iso Hiso) as [-> | [-> | [-> | [-> | [-> | [-> | ->]]]]]];
    unfold peak_block_rule;
    cbn [str_in existsb String.eqb Ascii.eqb Bool.eqb orb andb negb];
    (exists "5x16"; split; [simpl; tauto | intros hour; hour_cases; reflexivity])
    || (exists "2x16"; split; [simpl; tauto | intros hour; hour_cases; reflexivity])
    || (exists "6x16-Weekday"; split; [simpl; tauto | intros hour; hour_cases; reflexivity])
    || (exists "6x16-Saturday"; split; [simpl; tauto | intros hour; hour_cases; reflexivity])
    || (exists "Off-Sunday"; split; [simpl; tauto | intros hour; hour_cases; reflexivity]).
Qed.

Lemma peak_block_day_shape_witness :
  exists day_label,
    In day_label ["5x16"; "2x16"] /\
    forall hour,
      date_hour_to_peak_block (make 2024 7 10) hour "PJM"
      = Ok (if (8 <=? hour) && (hour <=? 23) then day_label else "7x8").
Proof. apply (peak_block_day_shape (make 2024 7 10) "PJM"). reflexivity. Defined.

(** X10.  Every label that [list_peak_blocks] lists for a market is given by
    [date_hour_to_peak_block] to some hour 1..24 of some date. *)
Theorem list_peak_blocks_attained (iso : string) (blocks : list string) (b : string) :
  list_peak_blocks iso = Ok blocks -> In b blocks ->
  exists date hour, 1 <= hour <= 24 /\ date_hour_to_peak_block date hour iso = Ok b.
Proof.
  unfold list_peak_blocks. intros Hl Hb.
  destruct (String.eqb_spec iso "CAISO") as [-> | Hne].
  - inversion Hl; subst blocks. simpl in Hb.
    destruct Hb as [<- | [<- | [<- | [<- | []]]]].
    + exists (make 2024 7 10), 10. split; [lia | vm_compute; reflexivity].
    + exists (make 2024 7 13), 10. split; [lia | vm_compute; reflexivity].
    + exists (make 2024 7 14), 10. split; [lia | vm_compute; reflexivity].
    + exists (make 2024 7 10), 2. split; [lia | vm_compute; reflexivity].
  - destruct (str_in iso ["PJM"; "ISONE"; "MISO"; "ERCOT"; "SPP"]) eqn:E;
      [| discriminate].
    inversion Hl; subst blocks. apply str_in_In in E. simpl in E, Hb.
    destruct E as [<- | [<- | [<- | [<- | [<- | []]]]]];
      destruct Hb as [<- | [<- | [<- | []]]];
      (exists (make 2024 7 10), 10; split; [lia | vm_compute; reflexivity])
      || (exists (make 2024 7 13), 10; split; [lia | vm_compute; reflexivity])
      || (exists (make 2024 7 10), 2; split; [lia | vm_compute; reflexivity]).
Qed.

Lemma list_peak_blocks_attained_witness :
  exists date hour,
    1 <= hour <= 24 /\ date_hour_to_peak_block date hour "CAISO" = Ok "6x16-Saturday".
Proof.
  apply (list_peak_blocks_attained "CAISO"
           ["6x16-Weekday"; "6x16-Saturday"; "Off-Sunday"; "Off-Night"]).
  - reflexivity.
  - simpl. tauto.
Defined.


Lemma not_asserted (iso : string) :
  str_in iso asserted_isos = false ->
  iso <> "PJM" /\ iso <> "ISONE" /\ iso <> "NYISO" /\ iso <> "MISO" /\ iso <> "ERCOT" /\
  iso <> "SPP" /\ iso <> "CAISO".
Proof.
  intros H.
  repeat split; intros ->; discriminate H.
Qed.

(** X11.  The markets each function of util.py accepts.  [date_hour_to_peak_block]
    returns a label exactly for the seven markets of its assertion;
    [list_peak_blocks] and [peak_block_to_traded_peak] know six of them and
    raise for NYISO; [date_hour_to_time_block] returns a label exactly for PJM,
    ISONE, NYISO, MISO and ERCOT, raises "ISO not recognized" for SPP and CAISO,
    which pass its assertion, and fails the assertion for any other name. *)
Theorem supported_markets (iso : string) :
  (forall date hour,
      (exists label, date_hour_to_peak_block date hour iso = Ok label)
      <-> In iso ["PJM"; "ISONE"; "NYISO"; "MISO"; "ERCOT"; "SPP"; "CAISO"]) /\
  ((exists blocks, list_peak_blocks iso = Ok blocks)
   <-> In iso ["PJM"; "ISONE"; "MISO"; "ERCOT"; "SPP"; "CAISO"]) /\
  (forall peak_block,
      ~ In iso ["PJM"; "ISONE"; "MISO"; "ERCOT"; "SPP"; "CAISO"] ->
      peak_block_to_traded_peak peak_block iso = Raise (IsoNotRecognized iso)) /\
  (forall date hour,
      (exists label, date_hour_to_time_block date hour iso = Ok label)
      <-> In iso ["PJM"; "ISONE"; "NYISO"; "MISO"; "ERCOT"]) /\
  (forall date hour,
      In iso ["SPP"; "CAISO"] ->
      date_hour_to_time_block date hour iso = Raise (IsoNotRecognized iso)) /\
  (forall date hour,
      ~ In iso ["PJM"; "ISONE"; "NYISO"; "MISO"; "ERCOT"; "SPP"; "CAISO"] ->
      date_hour_to_time_block date hour iso = Raise AssertionError /\
      date_hour_to_peak_block date hour iso = Raise AssertionError).
Proof.
  destruct (str_in iso asserted_isos) eqn:Hiso.
  - pose proof (proj1 (str_in_In _ _) Hiso) as Hin7. unfold asserted_isos in Hin7.
    assert (Htime : forall date hour,
               (In iso ["PJM"; "ISONE"; "NYISO"; "MISO"; "ERCOT"] ->
                exists label, date_hour_to_time_block date hour iso = Ok label) /\
               (In iso ["SPP"; "CAISO"] ->
                date_hour_to_time_block date hour iso = Raise (IsoNotRecognized iso))).
    { intros date hour. unfold date_hour_to_time_block. rewrite Hiso.
      destruct (get_holidays_total (year date)) as [holidays ->]. cbn [negb bind].
      split; intros Hin; simpl in Hin.
      - destruct Hin as [<- | [<- | [<- | [<- | [<- | []]]]]];
          cbn [str_in existsb String.eqb Ascii.eqb Bool.eqb orb];
          try change (in_str "ERCOT" "ERCOT") with true; cbv iota;
          destruct (_ || _ || _);
          repeat match goal with
                 | |- context [in_range ?h ?a ?b] => destruct (in_range h a b)
                 end; eexists; reflexivity.
      - destruct Hin as [<- | [<- | []]]; reflexivity. }
    split; [| split; [| split; [| split; [| split]]]].
    + intros date hour. split; [intros _; exact Hin7 |].
      intros _. now apply date_hour_to_peak_block_returns.
    + split.
      * intros [blocks Hb]. unfold list_peak_blocks in Hb.
        destruct (String.eqb_spec iso "CAISO") as [-> | Hne]; [simpl; tauto |].
        destruct (str_in iso ["PJM"; "ISONE"; "MISO"; "ERCOT"; "SPP"]) eqn:E;
          [| discriminate].
        apply str_in_In in E. simpl in E |- *. tauto.
      * intros Hin. simpl in Hin.
        destruct Hin as [<- | [<- | [<- | [<- | [<- | [<- | []]]]]]];
          eexists; reflexivity.
    + intros peak_block Hn. simpl in Hn. unfold peak_block_to_traded_peak.
      rewrite str_in_false by (simpl; tauto).
      destruct (String.eqb_spec iso "CAISO"); [subst; tauto | reflexivity].
    + intros date hour. split; [| apply Htime].
      intros [label Hl]. simpl in Hin7 |- *.
      destruct Hin7 as [<- | [<- | [<- | [<- | [<- | [<- | [<- | []]]]]]]]; try tauto;
        rewrite (proj2 (Htime date hour)) in Hl by (simpl; tauto); discriminate.
    + intros date hour. apply Htime.
    + intros date hour Hn. contradiction.
  - pose proof (not_asserted iso Hiso) as [N1 [N2 [N3 [N4 [N5 [N6 N7]]]]]].
    assert (Hpb : forall date hour, date_hour_to_peak_block date hour iso = Raise AssertionError)
      by (intros; unfold date_hour_to_peak_block; now rewrite Hiso).
    assert (Htb : forall date hour, date_hour_to_time_block date hour iso = Raise AssertionError)
      by (intros; unfold date_hour_to_time_block; now rewrite Hiso).
    split; [| split; [| split; [| split; [| split]]]].
    + intros date hour. split; [| simpl; intuition congruence].
      intros [label Hl]. rewrite Hpb in Hl. discriminate.
    + split; [| simpl; intuition congruence].
      intros [blocks Hb]. unfold list_peak_blocks in Hb.
      destruct (String.eqb_spec iso "CAISO"); [contradiction |].
      rewrite str_in_false in Hb by (simpl; intuition congruence). discriminate.
    + intros peak_block Hn. unfold peak_block_to_traded_peak.
      rewrite str_in_false by (simpl; intuition congruence).
      destruct (String.eqb_spec iso "CAISO"); [contradiction | reflexivity].
    + intros date hour. split; [| simpl; intuition congruence].
      intros [label Hl]. rewrite Htb in Hl. discriminate.
    + intros date hour Hin. simpl in Hin. intuition congruence.
    + intros date hour _. split; [apply Htb | apply Hpb].
Qed.

Lemma supported_markets_witness :
  peak_block_to_traded_peak "5x16" "NYISO" = Raise (IsoNotRecognized "NYISO") /\
  date_hour_to_time_block (make 2024 7 10) 10 "SPP" = Raise (IsoNotRecognized "SPP") /\
  date_hour_to_time_block (make 2024 7 10) 10 "TVA" = Raise AssertionError.
Proof.
  split; [| split].
  - apply (proj1 (proj2 (proj2 (supported_markets "NYISO")))).
    simpl. intuition discriminate.
  - apply (proj1 (proj2 (proj2 (proj2 (proj2 (supported_markets "SPP")))))).
    simpl. tauto.
  - apply (proj2 (proj2 (proj2 (proj2 (proj2 (supported_markets "TVA")))))).
    simpl. intuition discriminate.
Defined.


(** X12.  For the six markets that have traded blocks, the label that
    [date_hour_to_peak_block] gives to any date and hour is always one that
    [peak_block_to_traded_peak] translates: no [KeyError], whatever the hour.
    The traded block is "5x16" exactly for the label "5x16", "6x16" exactly for
    the two 6x16 labels of CAISO, and "Off" otherwise. *)
Theorem traded_peak_of_classified (date hour : Z) (iso : string) :
  In iso ["PJM"; "ISONE"; "MISO"; "ERCOT"; "SPP"; "CAISO"] ->
  exists label traded,
    date_hour_to_peak_block date hour iso = Ok label /\
    peak_block_to_traded_peak label iso = Ok traded /\
    traded = (if String.eqb label "5x16" then "5x16"
              else if str_in label ["6x16-Weekday"; "6x16-Saturday"] then "6x16"
                   else "Off").
Proof.
  intros Hin.
  assert (Hiso : str_in iso asserted_isos = true)
    by (apply str_in_In; unfold asserted_isos; simpl in Hin |- *; tauto).
  destruct (get_holidays_total (year date)) as [holidays Hh].
  unfold date_hour_to_peak_block. rewrite Hiso, Hh. cbn [negb bind].
  simpl in Hin.
  destruct (date_in date holidays), (weekday date =? 5), (weekday date =? 6);
    destruct Hin as [<- | [<- | [<- | [<- | [<- | [<- | []]]]]]];
    unfold peak_block_rule;
    cbn [str_in existsb String.eqb Ascii.eqb Bool.eqb orb andb negb];
    hour_cases; cbn [orb andb negb]; do 2 eexists;
    (split; [reflexivity | split; reflexivity]).
Qed.

Lemma traded_peak_of_classified_witness :
  exists label traded,
    date_hour_to_peak_block (make 2024 7 13) 10 "CAISO" = Ok label /\
    peak_block_to_traded_peak label "CAISO" = Ok traded /\
    traded = (if String.eqb label "5x16" then "5x16"
              else if str_in label ["6x16-Weekday"; "6x16-Saturday"] then "6x16"
                   else "Off").
Proof. apply traded_peak_of_classified. simpl. tauto. Defined.

(** X13.  Within a market's list of labels, [peak_block_to_complement] never raises,
    and the complement of a label is another label of the same market with the
    same traded block: the two halves of "Off", or of "6x16". *)
Theorem complement_in_same_traded_block (iso : string) (blocks : list string)
    (label : string) :
  list_peak_blocks iso = Ok blocks -> In label blocks ->
  exists complement,
    peak_block_to_complement label = Ok complement /\
    forall c, complement = Some c ->
              In c blocks /\ c <> label /\
              peak_block_to_traded_peak c iso = peak_block_to_traded_peak label iso.
Proof.
  unfold list_peak_blocks. intros Hl Hb.
  destruct (String.eqb_spec iso "CAISO") as [-> | Hne].
  - inversion Hl; subst blocks. simpl in Hb.
    destruct Hb as [<- | [<- | [<- | [<- | []]]]];
      eexists; (split; [reflexivity |]); intros c Hc; inversion Hc; subst c;
      (split; [simpl; tauto | split; [discriminate | reflexivity]]).
  - destruct (str_in iso ["PJM"; "ISONE"; "MISO"; "ERCOT"; "SPP"]) eqn:E;
      [| discriminate].
    inversion Hl; subst blocks. simpl in Hb.
    unfold peak_block_to_traded_peak. rewrite E.
    destruct Hb as [<- | [<- | [<- | []]]];
      eexists; (split; [reflexivity |]); intros c Hc; inversion Hc; subst c;
      (split; [simpl; tauto | split; [discriminate | reflexivity]]).
Qed.

Lemma complement_in_same_traded_block_witness :
  exists complement,
    peak_block_to_complement "7x8" = Ok complement /\
    forall c, complement = Some c ->
              In c ["5x16"; "2x16"; "7x8"] /\ c <> "7x8" /\
              peak_block_to_traded_peak c "PJM" = peak_block_to_traded_peak "7x8" "PJM".
Proof.
  apply (complement_in_same_traded_block "PJM" ["5x16"; "2x16"; "7x8"] "7x8").
  - reflexivity.
  - simpl. tauto.
Defined.

(** X14.  [date_hour_to_time_block] and [date_hour_to_peak_block] agree on every date
    and hour of the five markets the former knows: the hour is in a weekday
    slot WD_1..WD_4 exactly when its peak block is "5x16", in a weekend slot
    WE_1..WE_4 exactly when it is "2x16", and in a night slot exactly when it is
    "7x8". *)
Theorem time_block_agrees_with_peak_block (date hour : Z) (iso : string) :
  In iso ["PJM"; "ISONE"; "NYISO"; "MISO"; "ERCOT"] ->
  exists peak_block time_block,
    date_hour_to_peak_block date hour iso = Ok peak_block /\
    date_hour_to_time_block date hour iso = Ok time_block /\
    (peak_block = "5x16" <-> In time_block ["WD_1"; "WD_2"; "WD_3"; "WD_4"]) /\
    (peak_block = "2x16" <-> In time_block ["WE_1"; "WE_2"; "WE_3"; "WE_4"]) /\
    (peak_block = "7x8" <-> In time_block ["WD_N"; "WE_N"]).
Proof.
  intros Hin.
  assert (Hiso : str_in iso asserted_isos = true)
    by (apply str_in_In; unfold asserted_isos; simpl in Hin |- *; tauto).
  destruct (get_holidays_total (year date)) as [holidays Hh].
  unfold date_hour_to_peak_block, date_hour_to_time_block.
  rewrite Hiso, Hh. cbn [negb bind].
  simpl in Hin.
  destruct (date_in date holidays), (weekday date =? 5), (weekday date =? 6);
    destruct Hin as [<- | [<- | [<- | [<- | [<- | []]]]]];
    unfold peak_block_rule, in_range;
    cbn [str_in existsb String.eqb Ascii.eqb Bool.eqb orb andb negb];
    try change (in_str "ERCOT" "ERCOT") with true; cbv iota;
    hour_cases; cbn [orb andb negb]; do 2 eexists;
    (split; [reflexivity | split; [reflexivity |]]);
    simpl; repeat split; intros H'; try discriminate H'; try tauto;
    repeat (destruct H' as [H' | H']; try discriminate H'); try contradiction.
Qed.

Lemma time_block_agrees_with_peak_block_witness :
  exists peak_block time_block,
    date_hour_to_peak_block (make 2024 7 4) 10 "ERCOT" = Ok peak_block /\
    date_hour_to_time_block (make 2024 7 4) 10 "ERCOT" = Ok time_block /\
    (peak_block = "5x16" <-> In time_block ["WD_1"; "WD_2"; "WD_3"; "WD_4"]) /\
    (peak_block = "2x16" <-> In time_block ["WE_1"; "WE_2"; "WE_3"; "WE_4"]) /\
    (peak_block = "7x8" <-> In time_block ["WD_N"; "WE_N"]).
Proof. apply time_block_agrees_with_peak_block. simpl. tauto. Defined.

End Labels.

(** ** More on the time-zone conversion *)

Section Conversion.

Import util.

Lemma tz_localize_fixed (tz : tzinfo) (o naive : Z) :
  (forall u, utcoffset tz u = o) -> tz_offsets tz = [o] ->
  tz_localize tz naive = Ok (naive - o).
Proof.
  intros Hoff Hl. unfold tz_localize. rewrite Hl. cbn [filter].
  rewrite Hoff, Z.eqb_refl. reflexivity.
Qed.

Lemma naive_of_wall_clock (wall : Z) (price : Q) :
  1 <= Hour (row_of_wall_clock wall price) <= 24 /\
  naive_datetime (row_of_wall_clock wall price) = wall.
Proof.
  unfold naive_datetime, row_of_wall_clock. cbn [Date Hour].
  Z.to_euclidean_division_equations; lia.
Qed.

(** X15.  From a source convention on a fixed offset (EST) to 'EPT' or 'CPT', the
    call returns, and every row is moved by the difference between the offset
    of the target zone at the instant of the row and the offset of the source;
    the hour of every returned row is in 1..24, whatever the hour of the input
    row was. *)
Theorem convert_lmps_tz_moves_by_offset_difference (tzdb : tz_database)
    (df : lmp_table) (convert_from code name : string) (tz_src tz_tgt : tzinfo)
    (o : Z) :
  tzdb convert_from = Some tz_src ->
  (forall u, utcoffset tz_src u = o) -> tz_offsets tz_src = [o] ->
  (code = "EPT" /\ name = "US/Eastern") \/ (code = "CPT" /\ name = "US/Central") ->
  tzdb name = Some tz_tgt ->
  exists out,
    convert_lmps_tz tzdb df convert_from code = Ok out /\
    Forall2 (fun r r' =>
               1 <= Hour r' <= 24 /\
               naive_datetime r'
               = naive_datetime r + (utcoffset tz_tgt (naive_datetime r - o) - o))
      df out.
Proof.
  intros Hsrc Hoff Hl Hcode Htgt.
  unfold convert_lmps_tz, timezone. rewrite Hsrc. cbn [of_option bind].
  assert (Hz : (if String.eqb code "CPT" then of_option (tzdb "US/Central")
                                                (UnknownTimeZoneError "US/Central")
                else if String.eqb code "EPT" then of_option (tzdb "US/Eastern")
                                                     (UnknownTimeZoneError "US/Eastern")
                else Ok tz_src) = Ok tz_tgt).
  { destruct Hcode as [[-> ->] | [-> ->]]; simpl; now rewrite Htgt. }
  assert (Hm : mapM (fun tp => u <- tz_localize tz_src (fst tp) ;; Ok (u, snd tp))
                 (map (fun r => (naive_datetime r, Price r)) df)
               = Ok (map (fun r => (naive_datetime r - o, Price r)) df)).
  { induction df as [| r df IH]; [reflexivity |].
    cbn [map mapM fst snd]. rewrite (tz_localize_fixed tz_src o) by assumption.
    cbn [bind]. rewrite IH. reflexivity. }
  rewrite Hm. cbn [bind]. rewrite Hz. cbn [bind].
  eexists. split; [reflexivity |].
  rewrite map_map. cbn [fst snd]. clear Hm.
  induction df as [| r df IH]; cbn [map]; constructor; [| exact IH].
  destruct (naive_of_wall_clock (wall_clock tz_tgt (naive_datetime r - o)) (Price r))
    as [Hh Hn].
  split; [exact Hh |]. rewrite Hn. unfold wall_clock. lia.
Qed.

Lemma convert_lmps_tz_moves_by_offset_difference_witness :
  exists out,
    convert_lmps_tz us_tzdb [july_row] "EST" "EPT" = Ok out /\
    Forall2 (fun r r' =>
               1 <= Hour r' <= 24 /\
               naive_datetime r'
               = naive_datetime r
                 + (utcoffset {| utcoffset := us_utcoffset (-5); tz_offsets := [-5; -4] |}
                      (naive_datetime r - -5) - -5))
      [july_row] out.
Proof.
  apply (convert_lmps_tz_moves_by_offset_difference us_tzdb [july_row]
           "EST" "EPT" "US/Eastern"
           {| utcoffset := fun _ => -5; tz_offsets := [-5] |}
           {| utcoffset := us_utcoffset (-5); tz_offsets := [-5; -4] |} (-5)).
  - reflexivity.
  - reflexivity.
  - reflexivity.
  - left. split; reflexivity.
  - reflexivity.
Defined.

(** X16.  A target other than 'CPT' and 'EPT' (say 'EST', 'PPT' or 'US/Eastern') is no
    error: nothing is converted, and a table whose hours are in 1..24 and whose
    times exist once in the source zone comes back as it was. *)
Theorem convert_lmps_tz_other_target_converts_nothing (tzdb : tz_database)
    (df : lmp_table) (convert_from convert_to : string) (tz : tzinfo) :
  tzdb convert_from = Some tz ->
  convert_to <> "CPT" -> convert_to <> "EPT" ->
  (forall r, In r df -> 1 <= Hour r <= 24) ->
  (forall r, In r df -> exists u, tz_localize tz (naive_datetime r) = Ok u) ->
  convert_lmps_tz tzdb df convert_from convert_to = Ok df.
Proof. apply convert_lmps_tz_no_target. Qed.

Lemma convert_lmps_tz_other_target_converts_nothing_witness :
  convert_lmps_tz us_tzdb [july_row] "EST" "PPT" = Ok [july_row].
Proof.
  apply (convert_lmps_tz_other_target_converts_nothing us_tzdb [july_row] "EST" "PPT"
           {| utcoffset := fun _ => -5; tz_offsets := [-5] |}).
  - reflexivity.
  - discriminate.
  - discriminate.
  - intros r [<- | []]. cbn. lia.
  - intros r [<- | []]. eexists. reflexivity.
Defined.

Lemma mapM_raises {A B : Type} (f : A -> result B) (l : list A) (a : A) (e : exn) :
  In a l -> f a = Raise e -> exists e', mapM f l = Raise e'.
Proof.
  induction l as [| x l IH]; [intros [] |].
  intros [-> | Hin] Hf; cbn [mapM].
  - rewrite Hf. eexists. reflexivity.
  - destruct (f x) as [b | e0]; [| eexists; reflexivity].
    destruct (IH Hin Hf) as [e' ->]. eexists. reflexivity.
Qed.

(** X17.  The errors of [convert_lmps_tz].  A source zone the time-zone database
    does not know raises [UnknownTimeZoneError], also on an empty table.  With
    a known source zone, one row whose wall-clock time does not exist in that
    zone (the skipped hour in spring) or exists twice (the repeated hour in
    autumn) makes the whole call raise: no partial table is returned. *)
Theorem convert_lmps_tz_errors (tzdb : tz_database) (df : lmp_table)
    (convert_from convert_to : string) :
  (tzdb convert_from = None ->
   convert_lmps_tz tzdb df convert_from convert_to
   = Raise (UnknownTimeZoneError convert_from)) /\
  (forall tz r e,
      tzdb convert_from = Some tz -> In r df ->
      tz_localize tz (naive_datetime r) = Raise e ->
      exists e', convert_lmps_tz tzdb df convert_from convert_to = Raise e').
Proof.
  split.
  - intros Hn. unfold convert_lmps_tz, timezone. rewrite Hn. reflexivity.
  - intros tz r e Hs Hin Hr. unfold convert_lmps_tz, timezone. rewrite Hs.
    cbn [of_option bind].
    destruct (mapM_raises
                (fun tp => u <- tz_localize tz (fst tp) ;; Ok (u, snd tp))
                (map (fun r => (naive_datetime r, Price r)) df)
                (naive_datetime r, Price r) e) as [e' ->].
    + apply in_map_iff. exists r. split; [reflexivity | exact Hin].
    + cbn [fst]. rewrite Hr. reflexivity.
    + eexists. reflexivity.
Qed.

Lemma convert_lmps_tz_errors_witness :
  convert_lmps_tz us_tzdb [] "PPT" "EPT" = Raise (UnknownTimeZoneError "PPT") /\
  exists e',
    convert_lmps_tz us_tzdb
      [january_row; {| Date := make 2024 3 10; Hour := 3; Price := 30 |}]
      "US/Eastern" "EST" = Raise e'.
Proof.
  split.
  - apply (proj1 (convert_lmps_tz_errors us_tzdb [] "PPT" "EPT")). reflexivity.
  - apply (proj2 (convert_lmps_tz_errors us_tzdb
                    [january_row; {| Date := make 2024 3 10; Hour := 3; Price := 30 |}]
                    "US/Eastern" "EST")
             {| utcoffset := us_utcoffset (-5); tz_offsets := [-5; -4] |}
             {| Date := make 2024 3 10; Hour := 3; Price := 30 |}
             (NonExistentTimeError (make 2024 3 10 * 24 + 2))).
    + reflexivity.
    + simpl. tauto.
    + vm_compute. reflexivity.
Defined.

End Conversion.

(** ** More on the shaper *)

Section ShaperEdges.

Import util pd shapers.

Variable tzdb : tz_database.

Lemma mapM_error {A B : Type} (f : A -> result B) (l : list A) (e : exn) :
  mapM f l = Raise e -> exists a, In a l /\ f a = Raise e.
Proof.
  induction l as [| x l IH]; cbn [mapM]; [discriminate |].
  destruct (f x) as [b | e0] eqn:Ef; cbn [bind].
  - destruct (mapM f l) as [bs | e1]; cbn [bind]; [discriminate |].
    intros H. inversion H; subst. destruct (IH eq_refl) as [a [Ha Hf]].
    exists a. split; [now right | exact Hf].
  - intros H. inversion H; subst. exists x. split; [now left | exact Ef].
Qed.

Lemma tz_localize_no_assertion (tz : tzinfo) (naive : Z) :
  tz_localize tz naive <> Raise AssertionError.
Proof.
  unfold tz_localize.
  destruct (filter _ _) as [| o [| o' l]]; discriminate.
Qed.

Lemma convert_lmps_tz_no_assertion (df : lmp_table) (convert_from convert_to : string) :
  convert_lmps_tz tzdb df convert_from convert_to <> Raise AssertionError.
Proof.
  unfold convert_lmps_tz, timezone.
  destruct (tzdb convert_from) as [tz |]; cbn [of_option bind]; [| discriminate].
  match goal with
  | |- context [mapM ?f ?l] => destruct (mapM f l) as [us | e] eqn:Em
  end; cbn [bind].
  - destruct (String.eqb convert_to "CPT").
    + destruct (tzdb "US/Central"); cbn [of_option bind]; discriminate.
    + destruct (String.eqb convert_to "EPT"); [| cbn [bind]; discriminate].
      destruct (tzdb "US/Eastern"); cbn [of_option bind]; discriminate.
  - intros H. inversion H; subst e.
    apply mapM_error in Em. destruct Em as [[n p] [_ Hf]]. cbn [fst snd] in Hf.
    destruct (tz_localize tz n) as [u | e] eqn:El; cbn [bind] in Hf; [discriminate |].
    inversion Hf; subst e. exact (tz_localize_no_assertion tz n El).
Qed.

Lemma post_process_no_assertion (df_lmp : lmp_table) (iso : string)
    (clip_quantile : Q) :
  str_in iso asserted_isos = true ->
  post_process df_lmp iso clip_quantile <> Raise AssertionError.
Proof.
  intros Hiso. unfold post_process.
  destruct df_lmp as [| r0 l0] eqn:El; [discriminate |]. rewrite <- El.
  match goal with
  | |- mapM ?f ?l <> _ => destruct (mapM_total f l) as [df ->]; [| discriminate]
  end.
  intros r _.
  destruct (date_hour_to_peak_block_returns (Date r) (Hour r) iso Hiso) as [pb ->].
  cbn [bind]. eexists. reflexivity.
Qed.

Lemma supported_is_asserted (iso : string) :
  str_in iso SUPPORTED_ISOS = true -> str_in iso asserted_isos = true.
Proof.
  intros H. apply str_in_In in H. apply str_in_In.
  unfold SUPPORTED_ISOS, asserted_isos in *. simpl in *. tauto.
Qed.

(** X18.  [pull_lmp_and_calc_shaper] raises [AssertionError] exactly when a
    precondition fails: the market is none of SPP, CAISO, MISO, ISONE and PJM
    (so ERCOT and NYISO, which the classifier knows, are refused), or
    [clip_quantile] is outside (0, 1], or [lookback_yrs] is below 1, or the
    time-block shaper is asked for CAISO.  No price table makes it fail an
    assertion otherwise. *)
Theorem shaper_assertions (lmp : lmp_table) (iso : string) (is_hourly : bool)
    (lookback_yrs : Z) (clip_quantile : Q) :
  pull_lmp_and_calc_shaper tzdb lmp iso is_hourly lookback_yrs clip_quantile
  = Raise AssertionError
  <-> (~ In iso ["SPP"; "CAISO"; "MISO"; "ISONE"; "PJM"] \/
       ~ (0 < clip_quantile /\ clip_quantile <= 1)%Q \/
       lookback_yrs < 1 \/
       (is_hourly = false /\ iso = "CAISO")).
Proof.
  unfold pull_lmp_and_calc_shaper.
  destruct (str_in iso SUPPORTED_ISOS) eqn:Hiso; cbn [negb].
  2:{ split; [| reflexivity]. intros _. left. intros Hin.
      apply (proj2 (str_in_In iso SUPPORTED_ISOS)) in Hin. congruence. }
  pose proof (proj1 (str_in_In _ _) Hiso) as Hin. unfold SUPPORTED_ISOS in Hin.
  destruct (Qle_bool clip_quantile 0) eqn:Hq0; cbn [negb andb].
  { split; [| reflexivity]. intros _. right. left. intros [Hpos _].
    apply Qle_bool_iff in Hq0. apply (Qlt_not_le _ _ Hpos Hq0). }
  destruct (Qle_bool clip_quantile 1) eqn:Hq1; cbn [negb].
  2:{ split; [| reflexivity]. intros _. right. left. intros [_ Hle].
      apply Qle_bool_iff in Hle. congruence. }
  destruct (Z.leb_spec 1 lookback_yrs) as [Hlb | Hlb]; cbn [negb].
  2:{ split; [| reflexivity]. intros _. right. right. left. exact Hlb. }
  assert (Hpre : ~ (~ In iso ["SPP"; "CAISO"; "MISO"; "ISONE"; "PJM"] \/
                    ~ (0 < clip_quantile /\ clip_quantile <= 1)%Q \/
                    lookback_yrs < 1)).
  { intros [H | [H | H]].
    - exact (H Hin).
    - apply H. split.
      + apply Qnot_le_lt. intros Hle. apply Qle_bool_iff in Hle. congruence.
      + now apply Qle_bool_iff.
    - lia. }
  destruct (String.eqb_spec iso "CAISO") as [Hc | Hc].
  - destruct is_hourly; cbn [negb andb].
    + split; [| intros [H | [H | [H | [H _]]]]; try discriminate H; tauto].
      intros H. exfalso.
      unfold observations in H.
      destruct (traded_tz_table tzdb lmp iso) as [df_lmp | e] eqn:Et; cbn [bind] in H.
      * pose proof (post_process_no_assertion df_lmp iso clip_quantile
                      (supported_is_asserted iso Hiso)) as Hpp.
        destruct (post_process df_lmp iso clip_quantile) as [df | e];
          cbn [bind] in H; [discriminate | congruence].
      * inversion H; subst e. unfold traded_tz_table in Et.
        destruct (String.eqb iso "MISO"); [| discriminate].
        exact (convert_lmps_tz_no_assertion _ _ _ Et).
    + split; [| reflexivity]. intros _. right. right. right. split; [reflexivity | exact Hc].
  - rewrite andb_false_r.
    split; [| intros [H | [H | [H | [_ H]]]]; tauto].
    intros H. exfalso.
    unfold observations in H.
    destruct (traded_tz_table tzdb lmp iso) as [df_lmp | e] eqn:Et; cbn [bind] in H.
    + pose proof (post_process_no_assertion df_lmp iso clip_quantile
                    (supported_is_asserted iso Hiso)) as Hpp.
      destruct (post_process df_lmp iso clip_quantile) as [df | e];
        cbn [bind] in H; [| congruence].
      destruct is_hourly; [discriminate |].
      unfold block_present in H.
      repeat match type of H with
             | context [existsb ?f ?l] => destruct (existsb f l); cbn [bind] in H
             end; discriminate.
    + inversion H; subst e. unfold traded_tz_table in Et.
      destruct (String.eqb iso "MISO"); [| discriminate].
      exact (convert_lmps_tz_no_assertion _ _ _ Et).
Qed.


Lemma Qinsert_length (x : Q) (l : list Q) :
  List.length (Qinsert x l) = S (List.length l).
Proof.
  induction l as [| y l IH]; cbn [Qinsert]; [reflexivity |].
  destruct (Qle_bool x y); cbn [List.length]; [reflexivity | now rewrite IH].
Qed.

Lemma Qsort_length (l : list Q) : List.length (Qsort l) = List.length l.
Proof.
  induction l as [| x l IH]; [reflexivity |].
  cbn [Qsort fold_right]. fold (Qsort l). now rewrite Qinsert_length, IH.
Qed.

Lemma Qinsert_In_inv (x y : Q) (l : list Q) : y = x \/ In y l -> In y (Qinsert x l).
Proof.
  induction l as [| z l IH]; cbn [Qinsert].
  - intros [-> | []]. now left.
  - destruct (Qle_bool x z); cbn [In].
    + intros [-> | [-> | H]]; tauto.
    + intros [-> | [-> | H]]; [right; apply IH; now left | now left |
                               right; apply IH; now right].
Qed.

Lemma Qsort_In_inv (y : Q) (l : list Q) : In y l -> In y (Qsort l).
Proof.
  induction l as [| x l IH]; [intros [] |].
  cbn [Qsort fold_right]. fold (Qsort l). intros [-> | H]; apply Qinsert_In_inv.
  - now left.
  - right. now apply IH.
Qed.

Lemma Qinsert_sorted (x : Q) (l : list Q) :
  StronglySorted Qle l -> StronglySorted Qle (Qinsert x l).
Proof.
  induction 1 as [| y l Hs IH Hy]; cbn [Qinsert].
  - constructor; constructor.
  - destruct (Qle_bool x y) eqn:E.
    + apply Qle_bool_iff in E. constructor; [now constructor |].
      constructor; [exact E |].
      rewrite Forall_forall in Hy |- *. intros z Hz.
      apply Qle_trans with y; [exact E | now apply Hy].
    + assert (Hyx : (y <= x)%Q).
      { apply Qlt_le_weak, Qnot_le_lt. intros Hle.
        apply Qle_bool_iff in Hle. congruence. }
      constructor; [exact IH |].
      rewrite Forall_forall in Hy |- *. intros z Hz.
      apply Qinsert_In in Hz. destruct Hz as [-> | Hz]; [exact Hyx | now apply Hy].
Qed.

Lemma Qsort_sorted (l : list Q) : StronglySorted Qle (Qsort l).
Proof.
  induction l as [| x l IH]; [constructor |].
  cbn [Qsort fold_right]. fold (Qsort l). now apply Qinsert_sorted.
Qed.

(** The last value of a sorted list is above all of them. *)
Lemma sorted_last_max (s : list Q) :
  StronglySorted Qle s -> s <> [] ->
  exists m, nth_error s (List.length s - 1) = Some m /\ forall x, In x s -> (x <= m)%Q.
Proof.
  induction 1 as [| y s Hs IH Hy]; [congruence |]. intros _.
  destruct s as [| z s].
  - exists y. split; [reflexivity |]. intros x [-> | []]. apply Qle_refl.
  - destruct IH as [m [Hn Hm]]; [discriminate |].
    exists m. split.
    + cbn [List.length] in *. replace (S (S (List.length s)) - 1)%nat
        with (S (S (List.length s) - 1)) by lia. exact Hn.
    + intros x [-> | Hx]; [| now apply Hm].
      apply Qle_trans with z.
      * rewrite Forall_forall in Hy. apply Hy. now left.
      * apply Hm. now left.
Qed.

(** [quantile(1, interpolation='higher')] is the maximum. *)
Lemma quantile_higher_one (q : Q) (l : list Q) :
  (q == 1)%Q -> l <> [] ->
  exists m, quantile_higher q l = Some m /\ forall x, In x l -> (x <= m)%Q.
Proof.
  intros Hq Hl. unfold quantile_higher.
  destruct l as [| x0 l0] eqn:El; [congruence |]. rewrite <- El in *.
  assert (Hs : Qsort l <> []).
  { intros E. apply (f_equal (@List.length Q)) in E. rewrite Qsort_length in E.
    subst l. discriminate. }
  destruct (sorted_last_max (Qsort l) (Qsort_sorted l) Hs) as [m [Hn Hm]].
  exists m. split.
  - rewrite Qsort_length in Hn. rewrite <- Hn. f_equal.
    assert (E : (q * (Qlen l - 1) == inject_Z (Z.of_nat (List.length l) - 1))%Q).
    { rewrite Hq. unfold Qlen, Zminus. rewrite inject_Z_plus. cbn [inject_Z Z.opp]. ring. }
    rewrite (Qceiling_comp _ _ E), Qceiling_Z. lia.
  - intros x Hx. apply Hm. now apply Qsort_In_inv.
Qed.

(** X19.  With [clip_quantile] 1, the default, no price is clipped: the rows the
    shaper is computed from carry the dates, hours and prices of the table. *)
Theorem no_clipping_at_quantile_one (df_lmp : lmp_table) (iso : string)
    (clip_quantile : Q) (df : list block_row) :
  (clip_quantile == 1)%Q ->
  post_process df_lmp iso clip_quantile = Ok df ->
  map obs df = df_lmp.
Proof.
  intros Hq. unfold post_process.
  destruct df_lmp as [| r0 l0] eqn:El.
  - discriminate.
  - rewrite <- El. intros H.
    destruct (quantile_higher_one clip_quantile (map Price df_lmp) Hq) as [m [Hm Hmax]];
      [subst; discriminate |].
    rewrite Hm in H. apply mapM_Forall2 in H.
    assert (Hall : forall r, In r df_lmp -> (Price r <= m)%Q)
      by (intros r Hr; apply Hmax; now apply in_map).
    clear El Hm Hmax. revert Hall.
    induction H as [| r r' l l' Hr _ IH]; intros Hall; [reflexivity |].
    cbn [map]. f_equal.
    + destruct (date_hour_to_peak_block (Date r) (Hour r) iso); cbn [bind] in Hr;
        [| discriminate].
      inversion Hr; subst r'. cbn [obs]. unfold clip_upper.
      assert (E : Qle_bool (Price r) m = true)
        by (apply Qle_bool_iff, Hall; now left).
      rewrite E. now destruct r.
    + apply IH. intros x Hx. apply Hall. now right.
Qed.

Lemma no_clipping_at_quantile_one_witness :
  exists df,
    post_process july_nights "PJM" 1 = Ok df /\ map obs df = july_nights.
Proof.
  destruct (post_process july_nights "PJM" 1) as [df | e] eqn:E;
    [| vm_compute in E; discriminate E].
  exists df. split; [reflexivity |].
  apply (no_clipping_at_quantile_one july_nights "PJM" 1 df); [reflexivity | exact E].
Defined.

End ShaperEdges.

(** ** The night column of the time-block shaper *)

Section NightBlock.

Import util pd shapers.

Local Open Scope Q_scope.









End NightBlock.

(** ** More on the splitter *)

Section SplitterEdges.

Import util pd splitters.

(** X21.  [months_away] is the distance between two months round the year: between 0
    and 6, zero for the month itself only, reached from the splitter month by
    going that many months forward or backward (December and January are one
    month apart), and the same in both directions. *)
Theorem months_away_circular (kernel_months : list Z) (splitter_month : Z) :
  1 <= splitter_month <= 12 ->
  Forall (fun km => 1 <= km <= 12) kernel_months ->
  Forall2 (fun km d =>
             0 <= d <= 6 /\
             (d = 0 <-> km = splitter_month) /\
             ((km - splitter_month - d) mod 12 = 0 \/
              (km - splitter_month + d) mod 12 = 0) /\
             months_away [splitter_month] km = [d])
    kernel_months (months_away kernel_months splitter_month).
Proof.
  intros Hs Hk. induction Hk as [| km l Hkm _ IH]; cbn [months_away map];
    constructor; [| exact IH].
  unfold months_away. cbn [map].
  destruct (Z.leb_spec (Z.abs (km - splitter_month)) 6);
    destruct (Z.leb_spec (Z.abs (splitter_month - km)) 6); try lia;
    (split; [lia |]); (split; [lia |]);
    (split; [| f_equal; lia]);
    destruct (Z.abs_spec (km - splitter_month)) as [[_ E] | [_ E]]; rewrite E;
    [ left | right | right | left ];
    match goal with
    | |- ?a mod 12 = 0 => ring_simplify a
    end; reflexivity.
Qed.

Lemma months_away_circular_witness :
  Forall2 (fun km d =>
             0 <= d <= 6 /\
             (d = 0 <-> km = 1) /\
             ((km - 1 - d) mod 12 = 0 \/ (km - 1 + d) mod 12 = 0) /\
             months_away [1] km = [d])
    arange_1_13 (months_away arange_1_13 1).
Proof.
  apply months_away_circular; [lia |].
  unfold arange_1_13. repeat constructor; lia.
Defined.


(** X22.  The kernel weight of a day is looked up by the month of its date, which is
    always one of the twelve positions of the weight table: the lookup never
    raises [IndexError], and the weight is the normal density at twice the
    distance round the year between the month of the day and the splitter
    month. *)
Theorem kernel_weight_of_day (norm_pdf : Q -> Q) (splitter_month : Z) (r : daily_row)
    (date : Z) :
  1 <= splitter_month <= 12 ->
  day_Month r = Timestamp.month date ->
  exists d,
    months_away [Timestamp.month date] splitter_month = [d] /\
    kernel_weight norm_pdf splitter_month r = Ok (norm_pdf (inject_Z d / bm)%Q).
Proof.
  intros Hs Hm. pose proof (month_bounds date) as Hb.
  unfold kernel_weight, kernel_weights. rewrite Hm. clear Hm.
  set (m := Timestamp.month date) in *. clearbody m.
  eexists. split; [reflexivity |].
  assert (m = 1 \/ m = 2 \/ m = 3 \/ m = 4 \/ m = 5 \/ m = 6 \/ m = 7 \/ m = 8 \/
          m = 9 \/ m = 10 \/ m = 11 \/ m = 12) as Hc by lia.
  repeat (destruct Hc as [-> | Hc]); try subst m; reflexivity.
Qed.

Lemma kernel_weight_of_day_witness :
  exists d,
    months_away [Timestamp.month (make 2024 12 25)] 1 = [d] /\
    kernel_weight (fun x => x) 1
      {| day := make 2024 12 25; day_Month := Timestamp.month (make 2024 12 25);
         Off := None; col_2x16 := None; Decay_Factor := 1; Off_peak_day_weight := 1 |}
    = Ok (inject_Z d / bm)%Q.
Proof.
  apply (kernel_weight_of_day (fun x => x) 1 _ (make 2024 12 25)); [lia | reflexivity].
Defined.

(** X23.  The day weight of the Off average follows the classifier: a date weighs 1
    exactly when its daytime hours are "2x16" (a Saturday, a Sunday or a
    holiday, with 24 off-peak hours) and 1/3 exactly when they are "5x16". *)
Theorem off_peak_day_weight_follows_classifier (date hour : Z) :
  8 <= hour <= 23 ->
  (off_peak_day_weight date = Ok 1%Q /\
   date_hour_to_peak_block date hour "MISO" = Ok "2x16") \/
  (off_peak_day_weight date = Ok (1 / 3)%Q /\
   date_hour_to_peak_block date hour "MISO" = Ok "5x16").
Proof.
  intros Hh. unfold off_peak_day_weight, date_hour_to_peak_block.
  destruct (get_holidays_total (Timestamp.year date)) as [holidays ->].
  cbn [negb str_in asserted_isos existsb String.eqb Ascii.eqb Bool.eqb orb bind].
  unfold peak_block_rule.
  cbn [str_in existsb String.eqb Ascii.eqb Bool.eqb orb].
  destruct (Z.leb_spec 8 hour); [| lia]. destruct (Z.leb_spec hour 23); [| lia].
  rewrite (Z.eqb_sym (weekday date) 5), (Z.eqb_sym (weekday date) 6).
  cbn [andb negb].
  destruct (date_in date holidays), (5 =? weekday date), (6 =? weekday date);
    cbn [orb negb]; (left; split; reflexivity) || (right; split; reflexivity).
Qed.

Lemma off_peak_day_weight_follows_classifier_witness :
  (off_peak_day_weight (make 2024 7 4) = Ok 1%Q /\
   date_hour_to_peak_block (make 2024 7 4) 10 "MISO" = Ok "2x16") \/
  (off_peak_day_weight (make 2024 7 4) = Ok (1 / 3)%Q /\
   date_hour_to_peak_block (make 2024 7 4) 10 "MISO" = Ok "5x16").
Proof. apply off_peak_day_weight_follows_classifier. lia. Defined.


Lemma Forall2_In_r {A B : Type} (R : A -> B -> Prop) (l : list A) (l' : list B) (y : B) :
  Forall2 R l l' -> In y l' -> exists x, In x l /\ R x y.
Proof.
  induction 1 as [| a b l l' Hab _ IH]; [intros [] |].
  intros [<- | Hin].
  - exists a. split; [now left | exact Hab].
  - destruct (IH Hin) as [x [Hx HR]]. exists x. split; [now right | exact HR].
Qed.

(** X24.  A splitter is returned for MISO only from a table that holds, after the
    conversion to EPT, hours of all three peak blocks: when "5x16", "2x16" or
    "7x8" has no hour in the table, the call raises instead. *)
Theorem splitter_needs_every_block (tzdb : tz_database) (norm_pdf : Q -> Q)
    (float_pow : Q -> Q -> Q) (lmp : lmp_table) (eval_dt lookback_yrs : Z)
    (clip_quantile : Q) (out : list (Z * option Q)) :
  pull_lmp_and_calc_splitter tzdb norm_pdf float_pow lmp "MISO" eval_dt lookback_yrs
    clip_quantile = Ok out ->
  exists df_lmp df,
    convert_lmps_tz tzdb lmp "EST" "EPT" = Ok df_lmp /\
    shapers.post_process df_lmp "MISO" clip_quantile = Ok df /\
    forall b, In b ["5x16"; "2x16"; "7x8"] -> exists r, In r df /\ Peak_Block r = b.
Proof.
  unfold pull_lmp_and_calc_splitter. intros H.
  repeat match type of H with
         | (if ?c then Raise _ else _) = Ok _ => destruct c; [discriminate H |]
         end.
  cbn [String.eqb Ascii.eqb Bool.eqb] in H.
  unfold daily_table in H.
  destruct (convert_lmps_tz tzdb lmp "EST" "EPT") as [df_lmp | e] eqn:Ec;
    cbn [bind] in H; [| discriminate].
  destruct (shapers.post_process df_lmp "MISO" clip_quantile) as [df | e] eqn:Ep;
    cbn [bind] in H; [| discriminate].
  exists df_lmp, df. split; [reflexivity |]. split; [exact Ep |].
  match type of H with
  | context [mapM ?f df] => destruct (mapM f df) as [rows | e] eqn:Erows
  end; cbn [bind] in H; [| discriminate].
  apply mapM_Forall2 in Erows.
  assert (Hpeak : forall b, pivot_has rows (fun r => Peak_Block (labelled r)) b = true ->
                            exists r, In r df /\ Peak_Block r = b).
  { intros b Hb. unfold pivot_has in Hb. apply existsb_exists in Hb.
    destruct Hb as [r' [Hr' Heq]]. apply String.eqb_eq in Heq.
    destruct (Forall2_In_r _ _ _ _ Erows Hr') as [r [Hr Hf]].
    destruct (peak_block_to_traded_peak (Peak_Block r) "MISO"); cbn [bind] in Hf;
      [| discriminate].
    inversion Hf; subst r'. cbn [labelled] in Heq. exists r. split; assumption. }
  destruct (pivot_has rows Traded "5x16"); cbn [negb] in H; [| discriminate].
  destruct (pivot_has rows (fun r => Peak_Block (labelled r)) "5x16") eqn:E5;
    cbn [negb] in H; [| discriminate].
  destruct (pivot_has rows (fun r => Peak_Block (labelled r)) "7x8") eqn:E7;
    cbn [negb] in H; [| discriminate].
  match type of H with
  | context [mapM ?f ?l] => destruct (mapM f l) as [ds | e]
  end; cbn [bind] in H; [| discriminate].
  unfold arange_1_13 in H. cbn [mapM] in H.
  unfold splitter_of_month at 1 in H. unfold weighted_rows at 1 in H.
  cbn [days has_2x16 has_Off] in H.
  match type of H with
  | context [mapM ?f ds] => destruct (mapM f ds) as [ws | e]
  end; cbn [bind] in H; [| discriminate].
  destruct (pivot_has rows (fun r => Peak_Block (labelled r)) "2x16") eqn:E2;
    cbn [negb bind] in H; [| discriminate].
  intros b Hb. simpl in Hb.
  destruct Hb as [<- | [<- | [<- | []]]]; now apply Hpeak.
Qed.


Lemma splitter_needs_every_block_witness :
  exists df_lmp df,
    convert_lmps_tz us_tzdb wednesday_without_off "EST" "EPT" = Ok df_lmp /\
    shapers.post_process df_lmp "MISO" 1 = Ok df /\
    forall b, In b ["5x16"; "2x16"; "7x8"] -> exists r, In r df /\ Peak_Block r = b.
Proof.
  destruct (pull_lmp_and_calc_splitter us_tzdb (fun _ => 1%Q) (fun _ _ => (1 # 2)%Q)
              wednesday_without_off "MISO" (make 2024 2 5) 1 1)
    as [out | e] eqn:E; [| vm_compute in E; discriminate E].
  exact (splitter_needs_every_block us_tzdb (fun _ => 1%Q) (fun _ _ => (1 # 2)%Q)
           wednesday_without_off (make 2024 2 5) 1 1 out E).
Defined.

Local Open Scope Q_scope.




End SplitterEdges.

(** ** More on the price-volatility multipliers *)

Section MultiplierEdges.

Import util pd pvm.

Local Open Scope Q_scope.

Lemma valid_quantile (q : Q) :
  negb (negb (Qle_bool q 0) && Qle_bool q 1) = false <-> 0 < q /\ q <= 1.
Proof.
  destruct (Qle_bool q 0) eqn:E0; destruct (Qle_bool q 1) eqn:E1; cbn [negb andb];
    split; try discriminate; try reflexivity.
  - intros [Hpos _]. apply Qle_bool_iff in E0. exfalso. apply (Qlt_not_le _ _ Hpos E0).
  - intros [Hpos _]. apply Qle_bool_iff in E0. exfalso. apply (Qlt_not_le _ _ Hpos E0).
  - intros _. split.
    + apply Qnot_le_lt. intros H. apply Qle_bool_iff in H. congruence.
    + now apply Qle_bool_iff.
  - intros [_ Hle]. apply Qle_bool_iff in Hle. congruence.
Qed.

(** X26.  [get_cash_pvm] never returns multipliers for MISO, although MISO is one of
    its supported markets: with a valid [q_upper], every call raises
    [TypeError], because [_get_cash_vol] passes [convert_lmps_tz] keyword
    arguments it does not have. *)
Theorem get_cash_pvm_MISO_raises (np_log np_sqrt : Q -> option Q)
    (node_lmp hub_lmp : lmp_table)
    (start_dt end_dt : Z) (zero_mean : bool) (q_upper : Q) :
  0 < q_upper /\ q_upper <= 1 ->
  In "MISO" (map fst SUPPORTED_ISO_PNODES) /\
  exists msg,
    get_cash_pvm np_log np_sqrt node_lmp hub_lmp "MISO" start_dt end_dt zero_mean q_upper
    = Raise (TypeError msg).
Proof.
  intros Hq. split; [simpl; tauto |].
  unfold get_cash_pvm. rewrite (proj2 (valid_quantile q_upper) Hq).
  eexists. reflexivity.
Qed.

Lemma _get_cash_vol_None (np_log np_sqrt : Q -> option Q) (lmp : lmp_table) (iso : string) (start_dt end_dt : Z)
    (zero_mean : bool) :
  _get_cash_vol np_log np_sqrt lmp iso start_dt end_dt zero_mean = Ok None
  <-> iso <> "MISO" /\ lmp = [].
Proof.
  unfold _get_cash_vol. destruct (String.eqb_spec iso "MISO") as [-> | Hne].
  - split; [discriminate | intros [H _]; congruence].
  - destruct lmp as [| r lmp].
    + split; [intros _; split; [exact Hne | reflexivity] | reflexivity].
    + split; [| intros [_ H]; discriminate].
      intros H. exfalso.
      match type of H with
      | context [mapM ?f ?l] => destruct (mapM f l); cbn [bind] in H; [| discriminate]
      end.
      destruct (list_peak_blocks iso); cbn [bind] in H; [| discriminate].
      match type of H with
      | context [mapM ?f ?l] => destruct (mapM f l); cbn [bind] in H; discriminate
      end.
Qed.

Lemma get_cash_pvm_some (np_log np_sqrt : Q -> option Q)
    (node_lmp hub_lmp : lmp_table) (iso : string) (start_dt end_dt : Z)
    (zero_mean : bool) (q_upper : Q) (res : cash_pvm) :
  get_cash_pvm np_log np_sqrt node_lmp hub_lmp iso start_dt end_dt zero_mean q_upper
  = Ok (Some res) ->
  In iso ["SPP"; "ERCOT"; "ISONE"; "PJM"] /\ node_lmp <> [] /\ hub_lmp <> [].
Proof.
  unfold get_cash_pvm. intros H.
  destruct (negb (negb (Qle_bool q_upper 0) && Qle_bool q_upper 1)); [discriminate H |].
  change (map fst SUPPORTED_ISO_PNODES) with ["SPP"; "ERCOT"; "MISO"; "ISONE"; "PJM"] in H.
  destruct (str_in iso ["SPP"; "ERCOT"; "MISO"; "ISONE"; "PJM"]) eqn:Es; cbn [negb] in H;
    [| discriminate H].
  apply str_in_In in Es.
  destruct (String.eqb_spec iso "MISO") as [-> | Hne]; [discriminate H |].
  pose proof (_get_cash_vol_None np_log np_sqrt node_lmp iso start_dt end_dt zero_mean)
    as Hnode.
  pose proof (_get_cash_vol_None np_log np_sqrt hub_lmp iso start_dt end_dt zero_mean)
    as Hhub.
  destruct (_get_cash_vol np_log np_sqrt node_lmp iso start_dt end_dt zero_mean)
    as [[node_cash_vol |] | e]; cbn [bind] in H; try discriminate H.
  destruct (_get_cash_vol np_log np_sqrt hub_lmp iso start_dt end_dt zero_mean)
    as [[hub_cash_vol |] | e]; cbn [bind] in H; try discriminate H.
  split; [simpl in Es |- *; intuition congruence |]. split.
  - intros E. discriminate (proj2 Hnode (conj Hne E)).
  - intros E. discriminate (proj2 Hhub (conj Hne E)).
Qed.

(** X27.  The edges of [get_cash_pvm].  A [q_upper] outside (0, 1] fails the
    assertion, whatever the market.  Otherwise [None] is returned, with no
    error, exactly when the market is not one of the five supported ones or the
    node has no prices; and multipliers are returned only for a supported
    market other than MISO with prices for both the node and the hub. *)
Theorem get_cash_pvm_edges (np_log np_sqrt : Q -> option Q)
    (node_lmp hub_lmp : lmp_table) (iso : string)
    (start_dt end_dt : Z) (zero_mean : bool) (q_upper : Q) :
  (~ (0 < q_upper /\ q_upper <= 1) ->
   get_cash_pvm np_log np_sqrt node_lmp hub_lmp iso start_dt end_dt zero_mean q_upper
   = Raise AssertionError) /\
  (get_cash_pvm np_log np_sqrt node_lmp hub_lmp iso start_dt end_dt zero_mean q_upper
   = Ok None
   <-> (0 < q_upper /\ q_upper <= 1) /\
       (~ In iso ["SPP"; "ERCOT"; "MISO"; "ISONE"; "PJM"] \/
        (iso <> "MISO" /\ node_lmp = []))) /\
  (forall res,
      get_cash_pvm np_log np_sqrt node_lmp hub_lmp iso start_dt end_dt zero_mean q_upper
      = Ok (Some res) ->
      In iso ["SPP"; "ERCOT"; "ISONE"; "PJM"] /\ node_lmp <> [] /\ hub_lmp <> []).
Proof.
  unfold get_cash_pvm.
  destruct (negb (negb (Qle_bool q_upper 0) && Qle_bool q_upper 1)) eqn:Eq.
  { assert (Hq : ~ (0 < q_upper /\ q_upper <= 1)).
    { intros H. apply valid_quantile in H. congruence. }
    split; [reflexivity |]. split; [| discriminate].
    split; [discriminate | tauto]. }
  pose proof (proj1 (valid_quantile q_upper) Eq) as Hq.
  split; [tauto |].
  change (map fst SUPPORTED_ISO_PNODES) with ["SPP"; "ERCOT"; "MISO"; "ISONE"; "PJM"].
  destruct (str_in iso ["SPP"; "ERCOT"; "MISO"; "ISONE"; "PJM"]) eqn:Es; cbn [negb].
  2:{ assert (Hn : ~ In iso ["SPP"; "ERCOT"; "MISO"; "ISONE"; "PJM"]).
      { intros H. apply str_in_In in H. congruence. }
      split; [| discriminate]. split; [tauto | reflexivity]. }
  pose proof (proj1 (str_in_In _ _) Es) as Hin.
  destruct (String.eqb_spec iso "MISO") as [-> | Hne].
  { cbn [_get_cash_vol String.eqb Ascii.eqb Bool.eqb bind].
    split; [| discriminate]. split; [discriminate |].
    intros [_ [H | [H _]]]; [exfalso; apply H; simpl; tauto | congruence]. }
  assert (H4 : In iso ["SPP"; "ERCOT"; "ISONE"; "PJM"]).
  { simpl in Hin |- *. intuition congruence. }
  pose proof (_get_cash_vol_None np_log np_sqrt node_lmp iso start_dt end_dt zero_mean)
    as Hnode.
  pose proof (_get_cash_vol_None np_log np_sqrt hub_lmp iso start_dt end_dt zero_mean)
    as Hhub.
  destruct (_get_cash_vol np_log np_sqrt node_lmp iso start_dt end_dt zero_mean)
    as [[node_cash_vol |] | e]; cbn [bind].
  - assert (Hn : node_lmp <> []).
    { intros E. discriminate (proj2 Hnode (conj Hne E)). }
    destruct (_get_cash_vol np_log np_sqrt hub_lmp iso start_dt end_dt zero_mean)
      as [[hub_cash_vol |] | e]; cbn [bind].
    + split.
      * split; [discriminate |]. intros [_ [H | [_ H]]]; [tauto | contradiction].
      * intros res _. split; [exact H4 |]. split; [exact Hn |].
        intros E. discriminate (proj2 Hhub (conj Hne E)).
    + split; [| discriminate].
      split; [discriminate |]. intros [_ [H | [_ H]]]; [tauto | contradiction].
    + split; [| discriminate].
      split; [discriminate |]. intros [_ [H | [_ H]]]; [tauto | contradiction].
  - destruct (proj1 Hnode eq_refl) as [_ Hn].
    split; [| discriminate]. split; [| reflexivity].
    intros _. split; [exact Hq |]. right. split; assumption.
  - assert (Hn : node_lmp <> []).
    { intros E. discriminate (proj2 Hnode (conj Hne E)). }
    split; [| discriminate].
    split; [discriminate |]. intros [_ [H | [_ H]]]; [tauto | contradiction].
Qed.

Lemma get_cash_pvm_MISO_raises_witness :
  In "MISO" (map fst SUPPORTED_ISO_PNODES) /\
  exists msg,
    get_cash_pvm (fun _ => None) (fun _ => None) january_table january_table "MISO"
      (make 2024 1 1) (make 2024 1 31) true 1
    = Raise (TypeError msg).
Proof.
  apply (get_cash_pvm_MISO_raises (fun _ => None) (fun _ => None)).
  split; [reflexivity | discriminate].
Defined.

Lemma get_cash_pvm_edges_witness :
  get_cash_pvm (fun _ => None) (fun _ => None) january_table january_table "PJM"
    (make 2024 1 1) (make 2024 1 31) true 2
  = Raise AssertionError.
Proof.
  apply (proj1 (get_cash_pvm_edges (fun _ => None) (fun _ => None)
                  january_table january_table "PJM"
                  (make 2024 1 1) (make 2024 1 31) true 2)).
  intros [_ H]. apply H. reflexivity.
Defined.

Lemma dict_get_set_same {V : Type} (k : string) (v : V) (d : list (string * V)) :
  dict_get k (dict_set k v d) = Some v.
Proof.
  induction d as [| [k' v'] d IH]; cbn [dict_set dict_get].
  - now rewrite String.eqb_refl.
  - destruct (String.eqb k' k) eqn:E; cbn [dict_get].
    + now rewrite String.eqb_refl.
    + now rewrite E.
Qed.

Lemma dict_get_set_other {V : Type} (k k0 : string) (v : V) (d : list (string * V)) :
  k0 <> k -> dict_get k0 (dict_set k v d) = dict_get k0 d.
Proof.
  intros Hne. induction d as [| [k' v'] d IH]; cbn [dict_set dict_get].
  - destruct (String.eqb_spec k k0); [congruence | reflexivity].
  - destruct (String.eqb_spec k' k) as [-> | Hk]; cbn [dict_get].
    + destruct (String.eqb_spec k k0); [congruence | reflexivity].
    + destruct (String.eqb_spec k' k0); [reflexivity | exact IH].
Qed.

Lemma dict_set_keys {V : Type} (k x : string) (v : V) (d : list (string * V)) :
  In x (map fst (dict_set k v d)) <-> x = k \/ In x (map fst d).
Proof.
  induction d as [| [k' v'] d IH]; cbn [dict_set map fst In].
  - intuition congruence.
  - destruct (String.eqb_spec k' k) as [-> | Hk]; cbn [map fst In].
    + intuition congruence.
    + rewrite IH. intuition congruence.
Qed.

Lemma dict_get_supported (iso : string) :
  (exists hub, dict_get iso SUPPORTED_ISO_PNODES = Some hub)
  <-> In iso ["SPP"; "ERCOT"; "MISO"; "ISONE"; "PJM"].
Proof.
  unfold SUPPORTED_ISO_PNODES. cbn [dict_get In].
  repeat match goal with
         | |- context [String.eqb ?a iso] => destruct (String.eqb_spec a iso)
         end;
    split; try (intros _; eexists; reflexivity); try tauto;
    intros [hub H]; discriminate H.
Qed.

Section Loop.

Variable np_log : Q -> option Q.
Variable np_sqrt : Q -> option Q.
Variable pull_lmp_data : string -> lmp_table.
Variables start_dt end_dt : Z.
Variable zero_mean : bool.
Variable q_upper : Q.

Lemma zone_loop_spec (rows : list price_peak_row) :
  forall acc pvm,
    zone_loop np_log np_sqrt pull_lmp_data rows start_dt end_dt zero_mean q_upper acc
    = Ok pvm ->
    (forall row,
        In row rows -> In (ISO row) ["SPP"; "ERCOT"; "MISO"; "ISONE"; "PJM"] ->
        ISO row <> "MISO" /\ pull_lmp_data (Node_ID row) <> [] /\
        exists zones, dict_get (ISO row) pvm = Some zones /\
                      In (Name row) (map fst zones)) /\
    (forall iso zones name,
        dict_get iso acc = Some zones -> In name (map fst zones) ->
        exists zones', dict_get iso pvm = Some zones' /\ In name (map fst zones')) /\
    (forall iso,
        In iso (map fst pvm) ->
        In iso (map fst acc) \/
        (In iso ["SPP"; "ERCOT"; "MISO"; "ISONE"; "PJM"] /\
         exists row, In row rows /\ ISO row = iso)).
Proof.
  induction rows as [| row rows IH]; intros acc pvm H; cbn [zone_loop] in H.
  - inversion H; subst pvm. split; [intros row [] |]. split.
    + intros iso zones name Hz Hn. exists zones. split; assumption.
    + intros iso Hi. now left.
  - destruct (dict_get (ISO row) SUPPORTED_ISO_PNODES) as [hub |] eqn:Ehub.
    2:{ destruct (IH acc pvm H) as [H1 [H2 H3]].
        split; [| split].
        - intros r [<- | Hr] Hs; [| now apply H1].
          apply dict_get_supported in Hs. destruct Hs as [hub Hs]. congruence.
        - exact H2.
        - intros iso Hi. destruct (H3 iso Hi) as [Ha | [Hs [r [Hr He]]]];
            [now left |].
          right. split; [exact Hs |]. exists r. split; [now right | exact He]. }
    assert (Hsup : In (ISO row) ["SPP"; "ERCOT"; "MISO"; "ISONE"; "PJM"])
      by (apply dict_get_supported; eexists; exact Ehub).
    destruct (get_cash_pvm np_log np_sqrt (pull_lmp_data (Node_ID row))
                (pull_lmp_data hub) (ISO row) start_dt end_dt zero_mean q_upper)
      as [[c |] | e] eqn:Ecash; cbn [bind] in H; try discriminate H.
    destruct (get_cash_pvm_some np_log np_sqrt _ _ _ _ _ _ _ c Ecash)
      as [H4 [Hnode _]].
    destruct (IH _ pvm H) as [H1 [H2 H3]].
    split; [| split].
    + intros r [<- | Hr] Hs; [| now apply H1].
      split; [simpl in H4; intuition congruence |]. split; [exact Hnode |].
      eapply (H2 (ISO row) _ (Name row)).
      * apply dict_get_set_same.
      * apply dict_set_keys. now left.
    + intros iso zones name Hz Hn.
      destruct (String.eqb_spec iso (ISO row)) as [-> | Hne].
      * eapply (H2 (ISO row) _ name); [apply dict_get_set_same |].
        apply dict_set_keys. right. rewrite Hz. exact Hn.
      * apply (H2 iso zones name); [| exact Hn].
        rewrite dict_get_set_other by exact Hne. exact Hz.
    + intros iso Hi. destruct (H3 iso Hi) as [Ha | [Hs [r [Hr He]]]].
      * apply dict_set_keys in Ha. destruct Ha as [-> | Ha]; [| now left].
        right. split; [exact Hsup |]. exists row. split; [now left | reflexivity].
      * right. split; [exact Hs |]. exists r. split; [now right | exact He].
Qed.

End Loop.

(** X28.  [get_all_zone_and_hub_cash_pvm] returns only when every row of the price
    peak map in a supported market has multipliers: one row for MISO, or one
    row whose node has no prices, makes the whole call raise, because the
    [None] that [get_cash_pvm] returns is subscripted.  When it returns, every
    such row has its entry under its market and name, and the markets of the
    result are supported markets of the map; rows of other markets are
    skipped. *)
Theorem all_zone_pvm_needs_every_node (np_log np_sqrt : Q -> option Q)
    (pull_lmp_data : string -> lmp_table) (price_peak_map : list price_peak_row)
    (start_dt end_dt : Z) (zero_mean : bool) (q_upper : Q)
    (pvm : list (string * list (string * frame avg_row string))) :
  get_all_zone_and_hub_cash_pvm np_log np_sqrt pull_lmp_data price_peak_map
    start_dt end_dt zero_mean q_upper = Ok pvm ->
  (forall row,
      In row price_peak_map -> In (ISO row) ["SPP"; "ERCOT"; "MISO"; "ISONE"; "PJM"] ->
      ISO row <> "MISO" /\ pull_lmp_data (Node_ID row) <> [] /\
      exists zones, dict_get (ISO row) pvm = Some zones /\
                    In (Name row) (map fst zones)) /\
  (forall iso,
      In iso (map fst pvm) ->
      In iso ["SPP"; "ERCOT"; "ISONE"; "PJM"] /\
      exists row, In row price_peak_map /\ ISO row = iso).
Proof.
  unfold get_all_zone_and_hub_cash_pvm. intros H.
  destruct (zone_loop_spec np_log np_sqrt pull_lmp_data start_dt end_dt zero_mean
              q_upper price_peak_map [] pvm H) as [H1 [_ H3]].
  split; [exact H1 |].
  intros iso Hi. destruct (H3 iso Hi) as [[] | [Hs [row [Hr He]]]].
  split; [| exists row; split; assumption].
  destruct (H1 row Hr) as [Hm _]; [rewrite He; exact Hs |].
  rewrite He in Hm. simpl in Hs |- *. intuition congruence.
Qed.

Lemma all_zone_pvm_needs_every_node_witness :
  exists pvm,
    get_all_zone_and_hub_cash_pvm (fun q => Some q) (fun q => Some q)
      (fun _ => january_table)
      [ {| ISO := "NYISO"; Name := "ZONE A"; Node_ID := "61752"; Vol_Backbone := false |};
        {| ISO := "PJM"; Name := "WESTERN HUB"; Node_ID := "51288"; Vol_Backbone := true |} ]
      (make 2024 1 1) (make 2024 1 31) true 1 = Ok pvm /\
    forall iso,
      In iso (map fst pvm) ->
      In iso ["SPP"; "ERCOT"; "ISONE"; "PJM"] /\
      exists row,
        In row
          [ {| ISO := "NYISO"; Name := "ZONE A"; Node_ID := "61752";
               Vol_Backbone := false |};
            {| ISO := "PJM"; Name := "WESTERN HUB"; Node_ID := "51288";
               Vol_Backbone := true |} ] /\
        ISO row = iso.
Proof.
  destruct (get_all_zone_and_hub_cash_pvm (fun q => Some q) (fun q => Some q)
              (fun _ => january_table)
              [ {| ISO := "NYISO"; Name := "ZONE A"; Node_ID := "61752";
                   Vol_Backbone := false |};
                {| ISO := "PJM"; Name := "WESTERN HUB"; Node_ID := "51288";
                   Vol_Backbone := true |} ]
              (make 2024 1 1) (make 2024 1 31) true 1) as [pvm | e] eqn:E;
    [| head_normalize_lhs E; discriminate E].
  exists pvm. split; [reflexivity |].
  exact (proj2 (all_zone_pvm_needs_every_node _ _ _ _ _ _ _ _ pvm E)).
Defined.

End MultiplierEdges.

(** ** The shape of the returned frames *)

Section Shapes.

Import util pd.

Lemma post_process_months (df_lmp : lmp_table) (iso : string) (clip_quantile : Q)
    (df : list block_row) :
  shapers.post_process df_lmp iso clip_quantile = Ok df ->
  map Month df = map (fun r => month (Date r)) df_lmp.
Proof.
  unfold shapers.post_process. intros H.
  destruct df_lmp as [| r0 l0]; [discriminate |]. cbv iota in H.
  set (upper := quantile_higher clip_quantile (map Price (r0 :: l0))) in H.
  clearbody upper. set (df_lmp := r0 :: l0) in *. clearbody df_lmp.
  apply mapM_Forall2 in H.
  induction H as [| r r' l l' Hr _ IH]; [reflexivity |].
  cbn [map]. f_equal; [| exact IH].
  destruct (date_hour_to_peak_block (Date r) (Hour r) iso); cbn [bind] in Hr;
    [| discriminate].
  inversion Hr; subst r'. reflexivity.
Qed.

(** X29.  The rows of the shaper, hourly or by time block, are the calendar months
    that occur in the price table (after the conversion to EPT for MISO), in
    ascending order and each once: a month without prices has no row, so the
    frame has twelve rows only when the table covers every month. *)
Theorem shaper_rows_are_the_months_seen (tzdb : tz_database) (lmp : lmp_table)
    (iso : string) (is_hourly : bool) (lookback_yrs : Z) (clip_quantile : Q)
    (shaper : frame Z shapers.shaper_column) :
  shapers.pull_lmp_and_calc_shaper tzdb lmp iso is_hourly lookback_yrs clip_quantile
  = Ok shaper ->
  exists df_lmp,
    shapers.traded_tz_table tzdb lmp iso = Ok df_lmp /\
    StronglySorted Z.lt (index shaper) /\
    forall m, In m (index shaper)
              <-> 1 <= m <= 12 /\ exists r, In r df_lmp /\ month (Date r) = m.
Proof.
  intros H. unfold shapers.pull_lmp_and_calc_shaper in H.
  repeat match type of H with
         | (if ?c then Raise _ else _) = Ok _ => destruct c; [discriminate H |]
         end.
  unfold shapers.observations in H.
  destruct (shapers.traded_tz_table tzdb lmp iso) as [df_lmp | e]; cbn [bind] in H;
    [| discriminate].
  destruct (shapers.post_process df_lmp iso clip_quantile) as [df | e] eqn:Ep;
    cbn [bind] in H; [| discriminate].
  exists df_lmp. split; [reflexivity |].
  assert (Hidx : index shaper = sort_uniq Z.compare (map Month df)).
  { destruct is_hourly.
    - inversion H; subst shaper. reflexivity.
    - repeat match type of H with
             | context [shapers.block_present ?d ?b] =>
                 destruct (shapers.block_present d b); cbn [bind] in H;
                 [| discriminate H]
             end.
      inversion H; subst shaper. reflexivity. }
  rewrite Hidx, (post_process_months _ _ _ _ Ep).
  split; [apply sort_uniq_sorted |].
  intros m. rewrite sort_uniq_In, in_map_iff. split.
  - intros [r [<- Hr]]. split; [apply month_bounds |]. exists r. now split.
  - intros [_ [r [Hr <-]]]. exists r. now split.
Qed.

Lemma shaper_rows_are_the_months_seen_witness :
  exists shaper df_lmp,
    shapers.pull_lmp_and_calc_shaper us_tzdb july_nights "PJM" false 1 1 = Ok shaper /\
    shapers.traded_tz_table us_tzdb july_nights "PJM" = Ok df_lmp /\
    StronglySorted Z.lt (index shaper) /\
    forall m, In m (index shaper)
              <-> 1 <= m <= 12 /\ exists r, In r df_lmp /\ month (Date r) = m.
Proof.
  destruct (shapers.pull_lmp_and_calc_shaper us_tzdb july_nights "PJM" false 1 1)
    as [shaper | e] eqn:Hs; [| head_normalize_lhs Hs; discriminate Hs].
  exists shaper.
  destruct (shaper_rows_are_the_months_seen us_tzdb july_nights "PJM" false 1 1 shaper Hs)
    as [df_lmp H].
  exists df_lmp. split; [reflexivity | exact H].
Defined.

Lemma index_eqb_refl (l : list Z) : pvm.index_eqb l l = true.
Proof.
  induction l as [| x l IH]; [reflexivity |].
  cbn [pvm.index_eqb]. now rewrite Z.eqb_refl, IH.
Qed.

(** With a month-end between [start_dt] and [end_dt], the matrix of
    [_get_cash_vol] has the month-ends of that range as rows, and the peak
    blocks of the market as columns. *)
Lemma _get_cash_vol_shape (np_log np_sqrt : Q -> option Q) (lmp : lmp_table)
    (iso : string) (start_dt end_dt : Z) (zero_mean : bool) (f : frame Z string) :
  pvm._get_cash_vol np_log np_sqrt lmp iso start_dt end_dt zero_mean = Ok (Some f) ->
  list_peak_blocks iso = Ok (columns f) /\
  (pvm.date_range_ME start_dt end_dt <> [] ->
   index f = pvm.date_range_ME start_dt end_dt).
Proof.
  intros Hf. unfold pvm._get_cash_vol in Hf.
  destruct (String.eqb iso "MISO"); [discriminate |].
  destruct lmp as [| r lmp]; [discriminate |].
  match type of Hf with
  | context [mapM ?g ?l] => destruct (mapM g l); cbn [bind] in Hf; [| discriminate]
  end.
  destruct (list_peak_blocks iso) as [blocks | e]; cbn [bind] in Hf; [| discriminate].
  match type of Hf with
  | context [mapM ?g ?l] => destruct (mapM g l); cbn [bind] in Hf; [| discriminate]
  end.
  inversion Hf; subst f. cbn [index columns]. split; [reflexivity |].
  intros Hne. unfold pvm.assigned_index.
  destruct (pvm.date_range_ME start_dt end_dt); [contradiction | reflexivity].
Qed.

(** X30.  When there is a month-end from [start_dt] to [end_dt], the two frames
    that [get_cash_pvm] returns have the same shape: their columns are the
    peak blocks of the market, and their rows are the calendar months of the
    month-ends from [start_dt] to [end_dt], ascending and each once, followed
    by "Avg". *)
Theorem cash_pvm_shape (np_log np_sqrt : Q -> option Q)
    (node_lmp hub_lmp : lmp_table) (iso : string) (start_dt end_dt : Z)
    (zero_mean : bool) (q_upper : Q) (res : pvm.cash_pvm) :
  pvm.get_cash_pvm np_log np_sqrt node_lmp hub_lmp iso start_dt end_dt zero_mean q_upper
  = Ok (Some res) ->
  (exists M0, start_dt <= M0 <= end_dt /\ day (M0 + 1) = 1) ->
  exists months,
    StronglySorted Z.lt months /\
    (forall m, In m months
               <-> exists M, start_dt <= M <= end_dt /\ day (M + 1) = 1 /\ month M = m) /\
    index (pvm.Node res) = (map pvm.MonthRow months ++ [pvm.AvgRow])%list /\
    index (pvm.Hub res) = (map pvm.MonthRow months ++ [pvm.AvgRow])%list /\
    list_peak_blocks iso = Ok (columns (pvm.Node res)) /\
    columns (pvm.Hub res) = columns (pvm.Node res).
Proof.
  intros H [M0 HM0]. unfold pvm.get_cash_pvm in H.
  repeat match type of H with
         | (if ?c then _ else _) = Ok (Some _) => destruct c; [discriminate H |]
         end.
  assert (Hne : pvm.date_range_ME start_dt end_dt <> []).
  { intros E. apply date_range_ME_spec in HM0. rewrite E in HM0. exact HM0. }
  destruct (pvm._get_cash_vol np_log np_sqrt node_lmp iso start_dt end_dt zero_mean)
    as [[node |] | e] eqn:En; cbn [bind] in H; try discriminate H.
  destruct (pvm._get_cash_vol np_log np_sqrt hub_lmp iso start_dt end_dt zero_mean)
    as [[hub |] | e] eqn:Eh; cbn [bind] in H; try discriminate H.
  destruct (_get_cash_vol_shape _ _ _ _ _ _ _ _ En) as [Hnc Hni].
  destruct (_get_cash_vol_shape _ _ _ _ _ _ _ _ Eh) as [Hhc Hhi].
  specialize (Hni Hne). specialize (Hhi Hne).
  inversion H; subst res. clear H.
  exists (sort_uniq Z.compare (map month (pvm.date_range_ME start_dt end_dt))).
  split; [apply sort_uniq_sorted |]. split.
  { intros m. rewrite sort_uniq_In, in_map_iff. split.
    - intros [M [<- HM]]. apply date_range_ME_spec in HM.
      exists M. tauto.
    - intros [M [HM1 [HM2 <-]]]. exists M. split; [reflexivity |].
      apply date_range_ME_spec. tauto. }
  cbn [pvm.Node pvm.Hub pvm.month_averages pvm.clip_quantile_columns index columns].
  rewrite Hni, Hhi. unfold pvm.index_union. rewrite index_eqb_refl.
  split; [reflexivity |]. split; [reflexivity |].
  split; [exact Hnc |]. congruence.
Qed.

Lemma cash_pvm_shape_witness :
  exists res months,
    pvm.get_cash_pvm (fun q => Some q) (fun q => Some q) january_table january_table
      "PJM" (make 2024 1 1) (make 2024 1 31) true 1 = Ok (Some res) /\
    StronglySorted Z.lt months /\
    (forall m, In m months
               <-> exists M, make 2024 1 1 <= M <= make 2024 1 31 /\
                             day (M + 1) = 1 /\ month M = m) /\
    index (pvm.Node res) = (map pvm.MonthRow months ++ [pvm.AvgRow])%list /\
    index (pvm.Hub res) = (map pvm.MonthRow months ++ [pvm.AvgRow])%list /\
    list_peak_blocks "PJM" = Ok (columns (pvm.Node res)) /\
    columns (pvm.Hub res) = columns (pvm.Node res).
Proof.
  destruct (pvm.get_cash_pvm (fun q => Some q) (fun q => Some q) january_table
              january_table "PJM" (make 2024 1 1) (make 2024 1 31) true 1)
    as [[res |] | e] eqn:Hr;
    [| head_normalize_lhs Hr; discriminate Hr | head_normalize_lhs Hr; discriminate Hr].
  exists res.
  destruct (cash_pvm_shape _ _ _ _ _ _ _ _ _ res Hr) as [months H].
  - exists (make 2024 1 31). split; [vm_compute; split; discriminate | reflexivity].
  - exists months. split; [reflexivity | exact H].
Defined.

(** Without a month-end from [start_dt] to [end_dt] the rows come from the
    data: from 2024-01-05 to 2024-01-20 the volatility matrices take the bin
    of the returns of January, and both frames have the rows 1 and "Avg". *)
Lemma cash_pvm_rows_without_month_end :
  pvm.date_range_ME (make 2024 1 5) (make 2024 1 20) = [] /\
  exists res,
    pvm.get_cash_pvm (fun q => Some q) (fun q => Some q) january_table january_table
      "PJM" (make 2024 1 5) (make 2024 1 20) true 1 = Ok (Some res) /\
    index (pvm.Node res) = [pvm.MonthRow 1; pvm.AvgRow] /\
    index (pvm.Hub res) = [pvm.MonthRow 1; pvm.AvgRow].
Proof.
  split; [reflexivity |].
  destruct (pvm.get_cash_pvm (fun q => Some q) (fun q => Some q) january_table
              january_table "PJM" (make 2024 1 5) (make 2024 1 20) true 1)
    as [[res |] | e] eqn:Hr;
    [| head_normalize_lhs Hr; discriminate Hr | head_normalize_lhs Hr; discriminate Hr].
  exists res. split; [reflexivity |].
  head_normalize_lhs Hr. returned_frame Hr res. rewrite <- Hr.
  cbn [pvm.Node pvm.Hub]. split; vm_compute; reflexivity.
Qed.

End Shapes.
